(** * ArchiMate model server: taxonomy, relationship validation, codecs, mutations

    A shallow embedding of the core of the repository:

    - [Types]           the element and relationship enumerations and
                        [getLayerForElementType] (model/types.js);
    - [Validation]      [getElementCategory], [isValidRelationship],
                        [getValidRelationshipTypes], [validateRelationship]
                        (relationships/validation.js);
    - [Model]           the domain model (model/types.d.ts);
    - [Writer]          the hierarchical writer, [removeElementFromModel]
                        and [removeRelationshipFromModel] (model/writer.ts);
    - [WriterOps]       [createEmptyModel], [addElementToModel],
                        [addRelationshipToModel], [updateElementInModel]
                        (model/writer.ts);
    - [Parser]          the hierarchical readers [parseModel] and
                        [parseModelComplete] (model/parser.ts);
    - [ParserQueries]   [getElementById], [getRelationshipsForElement],
                        [getFolderByType] (model/parser.ts);
    - [ExchangeWriter], [ExchangeReader]
                        the flat codec (exchange/exchange-writer.ts,
                        exchange/exchange-reader.ts);
    - [ExchangeText]    what the reader's XML parser makes of the values
                        the flat writer wrote.

    JavaScript strings are [string]; an array is a [list]; a thrown
    [Error(msg)] is the [Throw msg] outcome of the [result] type, and
    functions that can throw are written in the error monad below.  An
    object literal used as a table is a list of its own entries, and a
    lookup also finds the members every object inherits ([Tables]).  The
    XML library and the file system are outside the repository: the
    codecs are modelled between the model and the object handed to the
    XML builder or returned by the XML parser; the parser and the path
    library are parameters of the functions that read files, and the
    conversion of values by the parser is a parameter of the round trip
    through text. *)

From Stdlib Require Import List String Ascii NArith ZArith Bool Lia Permutation.
Import ListNotations.
Open Scope string_scope.
Open Scope list_scope.

Scheme All for list.

(* ================================================================== *)
(** ** Outcomes of code that may throw *)

Inductive result (A : Type) : Type :=
| Ok (a : A)
| Throw (msg : string).
Arguments Ok {A} a.
Arguments Throw {A} msg.

Definition bind {A B : Type} (r : result A) (k : A -> result B) : result B :=
  match r with
  | Ok a => k a
  | Throw msg => Throw msg
  end.

Notation "x <- c1 ;; c2" := (bind c1 (fun x => c2))
  (at level 61, c1 at next level, right associativity).

(** [Array.prototype.filter] with a predicate that may throw: the first
    exception aborts the traversal. *)
Fixpoint filterM {A : Type} (p : A -> result bool) (l : list A) : result (list A) :=
  match l with
  | [] => Ok []
  | x :: xs =>
      b <- p x ;;
      rest <- filterM p xs ;;
      Ok (if b then x :: rest else rest)
  end.

(** [Array.prototype.includes] on an array of strings. *)
Definition includes (l : list string) (x : string) : bool :=
  existsb (String.eqb x) l.

(* ================================================================== *)
(** ** model/types.js *)

Module Types.

Definition MotivationElementTypes : list string :=
  [ "Stakeholder"; "Driver"; "Assessment"; "Goal"; "Outcome";
    "Principle"; "Requirement"; "Constraint"; "Meaning"; "Value" ].

Definition StrategyElementTypes : list string :=
  [ "Resource"; "Capability"; "ValueStream"; "CourseOfAction" ].

Definition BusinessElementTypes : list string :=
  [ "BusinessActor"; "BusinessRole"; "BusinessCollaboration"; "BusinessInterface";
    "BusinessProcess"; "BusinessFunction"; "BusinessInteraction"; "BusinessEvent";
    "BusinessService";
    "BusinessObject"; "Contract"; "Representation";
    "Product" ].

Definition ApplicationElementTypes : list string :=
  [ "ApplicationComponent"; "ApplicationCollaboration"; "ApplicationInterface";
    "ApplicationFunction"; "ApplicationInteraction"; "ApplicationProcess";
    "ApplicationEvent"; "ApplicationService";
    "DataObject" ].

Definition TechnologyElementTypes : list string :=
  [ "Node"; "Device"; "SystemSoftware"; "TechnologyCollaboration";
    "TechnologyInterface"; "Path"; "CommunicationNetwork";
    "TechnologyFunction"; "TechnologyProcess"; "TechnologyInteraction";
    "TechnologyEvent"; "TechnologyService";
    "Artifact";
    "Equipment"; "Facility"; "DistributionNetwork";
    "Material" ].

Definition ImplementationElementTypes : list string :=
  [ "WorkPackage"; "Deliverable"; "ImplementationEvent"; "Plateau"; "Gap" ].

Definition CompositeElementTypes : list string :=
  [ "Grouping"; "Location" ].

Definition AllElementTypes : list string :=
  MotivationElementTypes ++ StrategyElementTypes ++ BusinessElementTypes ++
  ApplicationElementTypes ++ TechnologyElementTypes ++
  ImplementationElementTypes ++ CompositeElementTypes.

Definition RelationshipTypes : list string :=
  [ "Composition"; "Aggregation"; "Assignment"; "Realization";
    "Serving"; "Access"; "Influence"; "Association";
    "Triggering"; "Flow";
    "Specialization" ].

Inductive Layer : Type :=
| Motivation | Strategy | Business | Application
| Technology | Physical | Implementation | Composite.

Definition Layer_eqb (a b : Layer) : bool :=
  match a, b with
  | Motivation, Motivation | Strategy, Strategy | Business, Business
  | Application, Application | Technology, Technology | Physical, Physical
  | Implementation, Implementation | Composite, Composite => true
  | _, _ => false
  end.

(** [LayerFolderTypes] *)
Definition LayerFolderTypes (l : Layer) : string :=
  match l with
  | Motivation => "motivation"
  | Strategy => "strategy"
  | Business => "business"
  | Application => "application"
  | Technology => "technology"
  | Physical => "technology"
  | Implementation => "implementation_migration"
  | Composite => "other"
  end.

Definition getLayerForElementType (elementType : string) : result Layer :=
  if includes MotivationElementTypes elementType then Ok Motivation
  else if includes StrategyElementTypes elementType then Ok Strategy
  else if includes BusinessElementTypes elementType then Ok Business
  else if includes ApplicationElementTypes elementType then Ok Application
  else if includes TechnologyElementTypes elementType then
    let physicalTypes := [ "Equipment"; "Facility"; "DistributionNetwork"; "Material" ] in
    if includes physicalTypes elementType then Ok Physical
    else Ok Technology
  else if includes ImplementationElementTypes elementType then Ok Implementation
  else if includes CompositeElementTypes elementType then Ok Composite
  else Throw ("Unknown element type: " ++ elementType)%string.

End Types.

(* ================================================================== *)
(** ** relationships/validation.js *)

Module Validation.
Import Types.

(** Categories are the string literals the function returns. *)
Definition getElementCategory (elementType : string) : string :=
  let activeStructure :=
    [ "BusinessActor"; "BusinessRole"; "BusinessCollaboration";
      "ApplicationComponent"; "ApplicationCollaboration";
      "Node"; "Device"; "SystemSoftware"; "TechnologyCollaboration";
      "Equipment"; "Facility" ] in
  let interfaces :=
    [ "BusinessInterface"; "ApplicationInterface"; "TechnologyInterface" ] in
  let behaviorInternal :=
    [ "BusinessProcess"; "BusinessFunction"; "BusinessInteraction";
      "ApplicationFunction"; "ApplicationInteraction"; "ApplicationProcess";
      "TechnologyFunction"; "TechnologyProcess"; "TechnologyInteraction" ] in
  let services :=
    [ "BusinessService"; "ApplicationService"; "TechnologyService" ] in
  let events :=
    [ "BusinessEvent"; "ApplicationEvent"; "TechnologyEvent"; "ImplementationEvent" ] in
  let passiveStructure :=
    [ "BusinessObject"; "Contract"; "Representation";
      "DataObject"; "Artifact"; "Material" ] in
  let strategy :=
    [ "Resource"; "Capability"; "ValueStream"; "CourseOfAction" ] in
  let motivation :=
    [ "Stakeholder"; "Driver"; "Assessment"; "Goal"; "Outcome";
      "Principle"; "Requirement"; "Constraint"; "Meaning"; "Value" ] in
  let implMigration :=
    [ "WorkPackage"; "Deliverable"; "Plateau"; "Gap" ] in
  let composite :=
    [ "Grouping"; "Location"; "Product" ] in
  if includes activeStructure elementType || includes interfaces elementType
  then "ActiveStructure"
  else if includes behaviorInternal elementType then "BehaviorInternal"
  else if includes services elementType then "BehaviorExternal"
  else if includes events elementType then "Event"
  else if includes passiveStructure elementType then "PassiveStructure"
  else if includes strategy elementType then "Strategy"
  else if includes motivation elementType then "Motivation"
  else if includes implMigration elementType then "ImplementationMigration"
  else if includes composite elementType then "Composite"
  else "Composite".

Definition isSameLayer (sourceType targetType : string) : result bool :=
  s <- getLayerForElementType sourceType ;;
  t <- getLayerForElementType targetType ;;
  Ok (Layer_eqb s t).

Definition getLayerLevel (layer : Layer) : Z :=
  match layer with
  | Motivation => 0
  | Strategy => 1
  | Business => 2
  | Application => 3
  | Technology => 4
  | Physical => 4
  | Implementation => 5
  | Composite => 6
  end%Z.

Definition isValidRelationship
    (sourceType targetType relationshipType : string) : result bool :=
  let sourceCategory := getElementCategory sourceType in
  let targetCategory := getElementCategory targetType in
  sourceLayer <- getLayerForElementType sourceType ;;
  targetLayer <- getLayerForElementType targetType ;;
  if (relationshipType =? "Composition") || (relationshipType =? "Aggregation") then
    if sourceType =? targetType then Ok true
    else if (sourceCategory =? "Composite") || (targetCategory =? "Composite") then Ok true
    else
      same <- isSameLayer sourceType targetType ;;
      if same then Ok true else Ok false
  else if relationshipType =? "Specialization" then
    Ok (sourceType =? targetType)
  else if relationshipType =? "Assignment" then
    Ok (((sourceCategory =? "ActiveStructure") &&
         ((targetCategory =? "BehaviorInternal") || (targetCategory =? "BehaviorExternal"))) ||
        ((sourceCategory =? "BehaviorInternal") && (targetCategory =? "PassiveStructure")) ||
        ((sourceType =? "WorkPackage") && (sourceCategory =? "ActiveStructure")))
  else if relationshipType =? "Realization" then
    if (sourceCategory =? "BehaviorInternal") && (targetCategory =? "BehaviorExternal") then Ok true
    else if (getLayerLevel sourceLayer >? getLayerLevel targetLayer)%Z then Ok true
    else if targetCategory =? "Strategy" then Ok true
    else if targetCategory =? "Motivation" then Ok true
    else if sourceType =? "Artifact" then Ok true
    else Ok false
  else if relationshipType =? "Serving" then
    if sourceCategory =? "BehaviorExternal" then Ok true
    else if (sourceCategory =? "ActiveStructure") && (targetCategory =? "ActiveStructure") then Ok true
    else if (getLayerLevel sourceLayer >? getLayerLevel targetLayer)%Z then Ok true
    else if (sourceType =? "Capability") && (targetType =? "ValueStream") then Ok true
    else isSameLayer sourceType targetType
  else if relationshipType =? "Access" then
    Ok (((sourceCategory =? "BehaviorInternal") || (sourceCategory =? "BehaviorExternal") ||
         (sourceCategory =? "Event")) &&
        (targetCategory =? "PassiveStructure"))
  else if relationshipType =? "Influence" then
    Ok (targetCategory =? "Motivation")
  else if relationshipType =? "Triggering" then
    Ok ((sourceCategory =? "Event") ||
        (sourceCategory =? "BehaviorInternal") ||
        (sourceCategory =? "BehaviorExternal") ||
        (targetCategory =? "Event") ||
        (targetCategory =? "BehaviorInternal") ||
        (targetCategory =? "BehaviorExternal") ||
        (sourceCategory =? "ImplementationMigration") ||
        (targetCategory =? "ImplementationMigration"))
  else if relationshipType =? "Flow" then
    Ok ((sourceCategory =? "BehaviorInternal") ||
        (sourceCategory =? "BehaviorExternal") ||
        (sourceCategory =? "Event") ||
        (targetCategory =? "BehaviorInternal") ||
        (targetCategory =? "BehaviorExternal") ||
        (targetCategory =? "Event") ||
        (sourceCategory =? "PassiveStructure") ||
        (targetCategory =? "PassiveStructure"))
  else if relationshipType =? "Association" then
    Ok true
  else Ok false.

Definition getValidRelationshipTypes (sourceType targetType : string)
  : result (list string) :=
  let allTypes :=
    [ "Composition"; "Aggregation"; "Assignment"; "Realization";
      "Serving"; "Access"; "Influence"; "Association";
      "Triggering"; "Flow"; "Specialization" ] in
  filterM (fun relType => isValidRelationship sourceType targetType relType) allTypes.

Definition getValidTargetTypes (sourceType relationshipType : string)
  : result (list string) :=
  let allTypes :=
    MotivationElementTypes ++ StrategyElementTypes ++ BusinessElementTypes ++
    ApplicationElementTypes ++ TechnologyElementTypes ++
    ImplementationElementTypes ++ CompositeElementTypes in
  filterM (fun targetType => isValidRelationship sourceType targetType relationshipType)
          allTypes.

(** The object [validateRelationship] returns; [error] and [suggestions]
    are absent on the valid branch. *)
Record ValidationResult : Type := {
  valid : bool;
  error : option string;
  suggestions : option (list string)
}.

Definition validateRelationship
    (sourceType targetType relationshipType : string) : result ValidationResult :=
  ok <- isValidRelationship sourceType targetType relationshipType ;;
  if ok then Ok {| valid := true; error := None; suggestions := None |}
  else
    validTypes <- getValidRelationshipTypes sourceType targetType ;;
    if (List.length validTypes =? 0)%nat then
      Ok {| valid := false;
            error := Some ("No valid relationships exist between " ++ sourceType ++
                           " and " ++ targetType ++ " in ArchiMate 3.2")%string;
            suggestions := Some [] |}
    else
      Ok {| valid := false;
            error := Some (relationshipType ++ " is not a valid relationship between " ++
                           sourceType ++ " and " ++ targetType)%string;
            suggestions := Some validTypes |}.

End Validation.

(* ================================================================== *)
(** ** JavaScript values used by the codecs

    A [number] is a finite integer or [NaN]: diagram coordinates are
    layout units, and fractions and infinities are outside the model.
    [Num z] is the JavaScript number of value [z] when [z] is a safe
    integer ([Number.isSafeInteger], at most 2^53 - 1 in size): every
    such integer is a number of its own and [String] prints its decimal
    digits.  Beyond that range a number is a rounded value, of which
    [String] prints the shortest digits that identify it, in exponent
    notation from 10^21 on; [String_] prints the digits of [z] there,
    and the properties below that print a number are about safe
    integers.
    An optional string field ([documentation?: string]) is an
    [option string]; an optional array field is a list, the absent array
    being the empty list, since every use in the modelled code either
    iterates over it or guards on presence and then on length. *)

Module JS.

Inductive number : Type :=
| Num (z : Z)
| NaN.

Definition number_eqb (a b : number) : bool :=
  match a, b with
  | Num x, Num y => (x =? y)%Z
  | NaN, NaN => true
  | _, _ => false
  end.

(** Truthiness of a string and of a number. *)
Definition truthy (s : string) : bool := negb (s =? "").

Definition truthyNum (n : number) : bool :=
  match n with
  | Num z => negb (z =? 0)%Z
  | NaN => false
  end.

(** [a || d] for an optional string attribute [a] and a default [d]. *)
Definition strOr (a : option string) (d : string) : string :=
  match a with
  | Some s => if truthy s then s else d
  | None => d
  end.

(** [a || undefined] and the guard [if (a) ...] on an optional string. *)
Definition nonEmpty (a : option string) : option string :=
  match a with
  | Some s => if truthy s then Some s else None
  | None => None
  end.

(** [Number(a) || d] for an optional numeric attribute. *)
Definition numOr (a : option number) (d : number) : number :=
  match a with
  | Some n => if truthyNum n then n else d
  | None => d
  end.

(** *** Decimal printing: [String(n)] *)

Definition digitChar (d : N) : ascii := ascii_of_N (48 + d).

Fixpoint digitsAux (fuel : nat) (n : N) (acc : string) : string :=
  match fuel with
  | O => acc
  | S f =>
      let acc' := String (digitChar (n mod 10)) acc in
      if (n / 10 =? 0)%N then acc' else digitsAux f (n / 10) acc'
  end.

Definition digitsOfN (n : N) : string :=
  digitsAux (S (N.to_nat (N.size n))) n "".

(** [Number.isSafeInteger(z)] *)
Definition MAX_SAFE_INTEGER : Z := 9007199254740991.

Definition isSafeInteger (z : Z) : bool := (Z.abs z <=? MAX_SAFE_INTEGER)%Z.

Definition safeNumber (n : number) : bool :=
  match n with
  | Num z => isSafeInteger z
  | NaN => true
  end.

(** Exponent notation, used from 10^21 on: the first digit, the other
    digits up to the last that is not zero after a point, and the decimal
    exponent, as in [1e+21] and [1.5e+21]. *)
Fixpoint dropZeros (rev : string) : string :=
  match rev with
  | String c r => if Ascii.eqb c "0" then dropZeros r else rev
  | EmptyString => rev
  end.

Fixpoint reverse (s acc : string) : string :=
  match s with
  | String c r => reverse r (String c acc)
  | EmptyString => acc
  end.

Definition exponentForm (digits : string) : string :=
  match digits with
  | String d rest =>
      let fraction := reverse (dropZeros (reverse rest "")) "" in
      let exponent := digitsOfN (N.of_nat (String.length rest)) in
      if fraction =? "" then (String d "e+" ++ exponent)%string
      else (String d (String "." fraction) ++ "e+" ++ exponent)%string
  | EmptyString => digits
  end.

Definition exponentFrom : Z := 1000000000000000000000.

Definition String_ (n : number) : string :=
  match n with
  | NaN => "NaN"
  | Num z =>
      let digits := digitsOfN (Z.abs_N z) in
      let body := if (Z.abs z <? exponentFrom)%Z then digits
                  else exponentForm digits in
      if (z <? 0)%Z then String "-" body else body
  end.

(** *** [parseInt(s, 10)] *)

Definition digitValue (c : ascii) : option N :=
  let k := N_of_ascii c in
  if ((48 <=? k) && (k <=? 57))%N then Some (k - 48)%N else None.

Definition isWhitespace (c : ascii) : bool :=
  let k := N_of_ascii c in
  ((k =? 32) || (k =? 9) || (k =? 10) || (k =? 11) || (k =? 12) || (k =? 13))%N.

Fixpoint skipWhitespace (s : string) : string :=
  match s with
  | String c r => if isWhitespace c then skipWhitespace r else s
  | EmptyString => s
  end.

Fixpoint parseDigits (s : string) (acc : N) : N :=
  match s with
  | String c r =>
      match digitValue c with
      | Some d => parseDigits r (acc * 10 + d)
      | None => acc
      end
  | EmptyString => acc
  end.

Definition parseUnsigned (s : string) : option N :=
  match s with
  | String c _ =>
      match digitValue c with
      | Some _ => Some (parseDigits s 0)
      | None => None
      end
  | EmptyString => None
  end.

Definition parseInt (s : string) : number :=
  let t := skipWhitespace s in
  match t with
  | String c r =>
      if Ascii.eqb c "-" then
        match parseUnsigned r with
        | Some n => Num (- Z.of_N n)
        | None => NaN
        end
      else if Ascii.eqb c "+" then
        match parseUnsigned r with
        | Some n => Num (Z.of_N n)
        | None => NaN
        end
      else
        match parseUnsigned t with
        | Some n => Num (Z.of_N n)
        | None => NaN
        end
  | EmptyString => NaN
  end.

(** *** String helpers *)

(** [parts.join(sep)] *)
Fixpoint join (sep : string) (parts : list string) : string :=
  match parts with
  | [] => ""
  | [p] => p
  | p :: rest => (p ++ sep ++ join sep rest)%string
  end.

(** [s.split(sep)] for a one-character separator. *)
Fixpoint splitAux (sep : ascii) (s : string) (cur : string) : list string :=
  match s with
  | EmptyString => [cur]
  | String c r =>
      if Ascii.eqb c sep then cur :: splitAux sep r ""
      else splitAux sep r (cur ++ String c "")%string
  end.

Definition split (sep : ascii) (s : string) : list string := splitAux sep s "".

(** [s.endsWith(suffix)] *)
Definition endsWith (s suffix : string) : bool :=
  let n := String.length s in
  let m := String.length suffix in
  if (m <=? n)%nat then substring (n - m) m s =? suffix else false.

(** [s.replace(/suffix$/, '')] *)
Definition stripSuffix (suffix s : string) : string :=
  if endsWith s suffix
  then substring 0 (String.length s - String.length suffix) s
  else s.

End JS.

(* ================================================================== *)
(** ** The domain model (model/types.d.ts) *)

Module Model.
Import JS.

(** ['Read' | 'Write' | 'ReadWrite'].  The type is not checked when the
    program runs: [NotAnAccessType] is a value of another kind that a
    table lookup can leave in the field, identified by the text [String]
    gives for it. *)
Inductive AccessType : Type :=
| Read
| Write
| ReadWrite
| NotAnAccessType (member : string).

Record ArchiMateProperty : Type := {
  key : string;
  value : string
}.

Record ArchiMateElement : Type := {
  el_id : string;
  el_type : string;
  el_name : string;
  el_documentation : option string;
  el_properties : list ArchiMateProperty
}.

Record ArchiMateRelationship : Type := {
  rel_id : string;
  rel_type : string;
  rel_sourceId : string;
  rel_targetId : string;
  rel_name : option string;
  rel_documentation : option string;
  rel_accessType : option AccessType;
  rel_influenceModifier : option string;
  rel_properties : list ArchiMateProperty
}.

Record DiagramBounds : Type := {
  x : number;
  y : number;
  width : number;
  height : number
}.

Record DiagramBendpoint : Type := {
  bp_x : number;
  bp_y : number
}.

Record DiagramConnection : Type := {
  conn_id : string;
  conn_sourceId : string;
  conn_targetId : string;
  conn_relationshipId : string;
  conn_bendpoints : list DiagramBendpoint
}.

Inductive DiagramObject : Type := mkDiagramObject {
  obj_id : string;
  obj_elementId : string;
  obj_bounds : DiagramBounds;
  obj_sourceConnections : list DiagramConnection;
  obj_targetConnectionIds : list string;
  obj_children : list DiagramObject
}.

Record ArchiMateDiagram : Type := {
  diag_id : string;
  diag_name : string;
  diag_viewpoint : option string;
  diag_documentation : option string;
  diag_objects : list DiagramObject
}.

Inductive ArchiMateFolder : Type := mkFolder {
  folder_id : string;
  folder_name : string;
  folder_type : string;
  folder_elements : list ArchiMateElement;
  folder_subfolders : list ArchiMateFolder
}.

Record ArchiMateModel : Type := {
  model_id : string;
  model_name : string;
  model_version : string;
  model_documentation : option string;
  model_folders : list ArchiMateFolder;
  model_relationships : list ArchiMateRelationship;
  model_diagrams : list ArchiMateDiagram
}.

(** [getAllElements]: every element of every folder, depth first. *)
Fixpoint collectFromFolder (folder : ArchiMateFolder) : list ArchiMateElement :=
  match folder with
  | mkFolder _ _ _ elements subfolders =>
      elements ++ flat_map collectFromFolder subfolders
  end.

Definition getAllElements (model : ArchiMateModel) : list ArchiMateElement :=
  flat_map collectFromFolder (model_folders model).

End Model.

(* ================================================================== *)
(** ** The hierarchical XML document (interfaces of model/parser.ts)

    The XML text layer (the XMLBuilder and XMLParser of the XML library)
    is outside the repository.  The writer is modelled up to the object
    it hands to the builder and the reader from the object the parser
    returns; both are values of the interfaces below.  A field typed
    [T | T[] | undefined] is a list, so [toArray] is the identity, and an
    attribute whose value is [undefined] is an absent attribute.  The
    fields of [XmlElement] that no function reads ([archimateRelationship],
    [element], [folder]) are left out. *)

Module Xml.

Record XmlProperty : Type := {
  xp_key : string;
  xp_value : string
}.

Record XmlBounds : Type := {
  xb_x : option string;
  xb_y : option string;
  xb_width : option string;
  xb_height : option string
}.

Record XmlBendpoint : Type := {
  xbp_x : option string;
  xbp_y : option string
}.

Record XmlConnection : Type := {
  xc_xsi_type : option string;
  xc_id : string;
  xc_source : string;
  xc_target : string;
  xc_archimateRelationship : option string;
  xc_bendpoint : list XmlBendpoint
}.

Inductive XmlElement : Type := mkXmlElement {
  xe_xsi_type : option string;
  xe_name : option string;
  xe_id : option string;
  xe_source : option string;
  xe_target : option string;
  xe_accessType : option string;
  xe_modifier : option string;
  xe_archimateElement : option string;
  xe_documentation : option string;
  xe_property : list XmlProperty;
  xe_bounds : option XmlBounds;
  xe_child : list XmlElement;
  xe_sourceConnection : list XmlConnection;
  xe_targetConnections : option string
}.

Inductive XmlFolder : Type := mkXmlFolder {
  xf_name : string;
  xf_id : string;
  xf_type : option string;
  xf_element : list XmlElement;
  xf_folder : list XmlFolder
}.

Record XmlModelRoot : Type := {
  xm_name : string;
  xm_id : string;
  xm_version : option string;
  xm_documentation : option string;
  xm_folder : list XmlFolder
}.

(** The parsed document: the value under the key ['archimate:model'],
    when there is one. *)
Record XmlModel : Type := {
  archimate_model : option XmlModelRoot
}.

(** An element object with no attribute and no child. *)
Definition emptyElement : XmlElement :=
  mkXmlElement None None None None None None None None None [] None [] [] None.

Definition toArray {T : Type} (item : list T) : list T := item.

End Xml.

(* ================================================================== *)
(** ** Name tables of model/types.js *)

Module Tables.
Import Types.

(** The own entries of an object literal used as a table. *)
Fixpoint lookup {V : Type} (table : list (string * V)) (k : string) : option V :=
  match table with
  | [] => None
  | (k', v) :: rest => if k =? k' then Some v else lookup rest k
  end.

(** Every object literal inherits the members of [Object.prototype]: at
    one of these names [table[key]] is that member, a function (an object
    at [__proto__]), unless the table has an entry of its own there. *)
Definition inheritedKeys : list string :=
  [ "constructor"; "toString"; "toLocaleString"; "valueOf";
    "hasOwnProperty"; "isPrototypeOf"; "propertyIsEnumerable"; "__proto__";
    "__defineGetter__"; "__defineSetter__"; "__lookupGetter__";
    "__lookupSetter__" ].

(** The text [String] gives for an inherited member.  Such a member is not
    a string; where the code leaves one in a field that the model types as
    a string it is represented by this text, which is not empty, is no
    key of any table and no member of any enumeration. *)
Definition inheritedText (key : string) : string :=
  if key =? "__proto__" then "[object Object]"
  else if key =? "constructor" then "function Object() { [native code] }"
  else ("function " ++ key ++ "() { [native code] }")%string.

(** [table[key]] on a table of strings; [None] is [undefined]. *)
Definition tableGet (table : list (string * string)) (k : string) : option string :=
  match lookup table k with
  | Some v => Some v
  | None => if includes inheritedKeys k then Some (inheritedText k) else None
  end.

Definition XmlTypeToElementType : list (string * string) :=
  map (fun t => (("archimate:" ++ t)%string, t))
    [ "Stakeholder"; "Driver"; "Assessment"; "Goal"; "Outcome";
      "Principle"; "Requirement"; "Constraint"; "Meaning"; "Value";
      "Resource"; "Capability"; "ValueStream"; "CourseOfAction";
      "BusinessActor"; "BusinessRole"; "BusinessCollaboration";
      "BusinessInterface"; "BusinessProcess"; "BusinessFunction";
      "BusinessInteraction"; "BusinessEvent"; "BusinessService";
      "BusinessObject"; "Contract"; "Representation"; "Product";
      "ApplicationComponent"; "ApplicationCollaboration"; "ApplicationInterface";
      "ApplicationFunction"; "ApplicationInteraction"; "ApplicationProcess";
      "ApplicationEvent"; "ApplicationService"; "DataObject";
      "Node"; "Device"; "SystemSoftware"; "TechnologyCollaboration";
      "TechnologyInterface"; "Path"; "CommunicationNetwork";
      "TechnologyFunction"; "TechnologyProcess"; "TechnologyInteraction";
      "TechnologyEvent"; "TechnologyService"; "Artifact";
      "Equipment"; "Facility"; "DistributionNetwork"; "Material";
      "WorkPackage"; "Deliverable"; "ImplementationEvent"; "Plateau"; "Gap";
      "Grouping"; "Location" ].

(** [Object.fromEntries(Object.entries(t).map(([a, b]) => [b, a]))] *)
Definition invert (t : list (string * string)) : list (string * string) :=
  map (fun '(a, b) => (b, a)) t.

Definition ElementTypeToXmlType : list (string * string) :=
  invert XmlTypeToElementType.

Definition XmlTypeToRelationshipType : list (string * string) :=
  [ ("archimate:CompositionRelationship", "Composition");
    ("archimate:AggregationRelationship", "Aggregation");
    ("archimate:AssignmentRelationship", "Assignment");
    ("archimate:RealizationRelationship", "Realization");
    ("archimate:ServingRelationship", "Serving");
    ("archimate:AccessRelationship", "Access");
    ("archimate:InfluenceRelationship", "Influence");
    ("archimate:AssociationRelationship", "Association");
    ("archimate:TriggeringRelationship", "Triggering");
    ("archimate:FlowRelationship", "Flow");
    ("archimate:SpecializationRelationship", "Specialization") ].

Definition RelationshipTypeToXmlType : list (string * string) :=
  invert XmlTypeToRelationshipType.

End Tables.

(* ================================================================== *)
(** ** model/writer.ts: the hierarchical writer and the mutations *)

Module Writer.
Import JS Model Xml Tables.

Definition MODEL_FILENAME : string := "model.archimate".

Definition buildProperties (props : list ArchiMateProperty) : list XmlProperty :=
  map (fun p => {| xp_key := key p; xp_value := value p |}) props.

Definition buildElement (element : ArchiMateElement) : XmlElement :=
  {| xe_xsi_type := tableGet ElementTypeToXmlType (el_type element);
     xe_name := Some (el_name element);
     xe_id := Some (el_id element);
     xe_source := None;
     xe_target := None;
     xe_accessType := None;
     xe_modifier := None;
     xe_archimateElement := None;
     xe_documentation := nonEmpty (el_documentation element);
     xe_property := buildProperties (el_properties element);
     xe_bounds := None;
     xe_child := [];
     xe_sourceConnection := [];
     xe_targetConnections := None |}.

(** The [accessMap] of [buildRelationship] and [accessMap[rel.accessType]],
    the access type being the key as a string; [None] is [undefined]. *)
Definition accessCodes : list (string * string) :=
  [ ("Read", "1"); ("Write", "2"); ("ReadWrite", "3") ].

Definition accessName (a : AccessType) : string :=
  match a with
  | Read => "Read"
  | Write => "Write"
  | ReadWrite => "ReadWrite"
  | NotAnAccessType member => member
  end.

Definition accessCode (a : AccessType) : option string :=
  tableGet accessCodes (accessName a).

Definition buildRelationship (rel : ArchiMateRelationship) : XmlElement :=
  {| xe_xsi_type := tableGet RelationshipTypeToXmlType (rel_type rel);
     xe_name := nonEmpty (rel_name rel);
     xe_id := Some (rel_id rel);
     xe_source := Some (rel_sourceId rel);
     xe_target := Some (rel_targetId rel);
     xe_accessType :=
       if rel_type rel =? "Access" then
         match rel_accessType rel with
         | Some a => Some (strOr (accessCode a) "3")
         | None => None
         end
       else None;
     xe_modifier :=
       if rel_type rel =? "Influence" then nonEmpty (rel_influenceModifier rel)
       else None;
     xe_archimateElement := None;
     xe_documentation := nonEmpty (rel_documentation rel);
     xe_property := buildProperties (rel_properties rel);
     xe_bounds := None;
     xe_child := [];
     xe_sourceConnection := [];
     xe_targetConnections := None |}.

Definition buildConnection (conn : DiagramConnection) : XmlConnection :=
  {| xc_xsi_type := Some "archimate:Connection";
     xc_id := conn_id conn;
     xc_source := conn_sourceId conn;
     xc_target := conn_targetId conn;
     xc_archimateRelationship := nonEmpty (Some (conn_relationshipId conn));
     xc_bendpoint :=
       map (fun bp => {| xbp_x := Some (String_ (bp_x bp));
                         xbp_y := Some (String_ (bp_y bp)) |})
           (conn_bendpoints conn) |}.

Fixpoint buildDiagramObject (diagObj : DiagramObject) : XmlElement :=
  match diagObj with
  | mkDiagramObject id elementId bounds sourceConnections targetConnectionIds children =>
      {| xe_xsi_type := Some "archimate:DiagramObject";
         xe_name := None;
         xe_id := Some id;
         xe_source := None;
         xe_target := None;
         xe_accessType := None;
         xe_modifier := None;
         xe_archimateElement := nonEmpty (Some elementId);
         xe_documentation := None;
         xe_property := [];
         xe_bounds :=
           Some {| xb_x := Some (String_ (x bounds));
                   xb_y := Some (String_ (y bounds));
                   xb_width := Some (String_ (width bounds));
                   xb_height := Some (String_ (height bounds)) |};
         xe_child := map buildDiagramObject children;
         xe_sourceConnection := map buildConnection sourceConnections;
         xe_targetConnections :=
           if (0 <? List.length targetConnectionIds)%nat
           then Some (join " " targetConnectionIds)
           else None |}
  end.

Definition buildDiagram (diagram : ArchiMateDiagram) : XmlElement :=
  {| xe_xsi_type := Some "archimate:ArchimateDiagramModel";
     xe_name := Some (diag_name diagram);
     xe_id := Some (diag_id diagram);
     xe_source := None;
     xe_target := None;
     xe_accessType := None;
     xe_modifier := None;
     xe_archimateElement := None;
     xe_documentation := nonEmpty (diag_documentation diagram);
     xe_property := [];
     xe_bounds := None;
     xe_child := map buildDiagramObject (diag_objects diagram);
     xe_sourceConnection := [];
     xe_targetConnections := None |}.

(** The [isRelations] argument of the source is passed along and never
    read, and is left out. *)
Fixpoint buildFolder (folder : ArchiMateFolder) : XmlFolder :=
  match folder with
  | mkFolder id name type elements subfolders =>
      {| xf_name := name;
         xf_id := id;
         xf_type := nonEmpty (Some type);
         xf_element := map buildElement elements;
         xf_folder := map buildFolder subfolders |}
  end.

(** One entry of the [folders] array that [writeModel] builds. *)
Definition buildTopFolder (model : ArchiMateModel) (folder : ArchiMateFolder)
  : XmlFolder :=
  let isRelations := folder_type folder =? "relations" in
  let isDiagrams := folder_type folder =? "diagrams" in
  if isRelations then
    {| xf_name := folder_name folder;
       xf_id := folder_id folder;
       xf_type := Some (folder_type folder);
       xf_element := map buildRelationship (model_relationships model);
       xf_folder := [] |}
  else if isDiagrams then
    {| xf_name := folder_name folder;
       xf_id := folder_id folder;
       xf_type := Some (folder_type folder);
       xf_element := map buildDiagram (model_diagrams model);
       xf_folder := map buildFolder (folder_subfolders folder) |}
  else buildFolder folder.

(** The [xmlObj] that [writeModel] hands to the XML builder. *)
Definition writeModel_xmlObj (model : ArchiMateModel) : XmlModel :=
  {| archimate_model :=
       Some {| xm_name := model_name model;
               xm_id := model_id model;
               xm_version := Some (model_version model);
               xm_documentation := nonEmpty (model_documentation model);
               xm_folder := map (buildTopFolder model) (model_folders model) |} |}.

(** *** Mutations: the model is updated in place and returned; here the
    updated model is the result. *)

Fixpoint removeFromFolder (elementId : string) (folder : ArchiMateFolder)
  : ArchiMateFolder :=
  match folder with
  | mkFolder id name type elements subfolders =>
      mkFolder id name type
        (filter (fun e => negb (el_id e =? elementId)) elements)
        (map (removeFromFolder elementId) subfolders)
  end.

Definition setObjects (d : ArchiMateDiagram) (objects : list DiagramObject)
  : ArchiMateDiagram :=
  {| diag_id := diag_id d;
     diag_name := diag_name d;
     diag_viewpoint := diag_viewpoint d;
     diag_documentation := diag_documentation d;
     diag_objects := objects |}.

Definition removeElementFromModel (model : ArchiMateModel) (elementId : string)
  : ArchiMateModel :=
  {| model_id := model_id model;
     model_name := model_name model;
     model_version := model_version model;
     model_documentation := model_documentation model;
     model_folders := map (removeFromFolder elementId) (model_folders model);
     model_relationships :=
       filter (fun r => negb (rel_sourceId r =? elementId) &&
                        negb (rel_targetId r =? elementId))
              (model_relationships model);
     model_diagrams :=
       map (fun diagram =>
              setObjects diagram
                (filter (fun o => negb (obj_elementId o =? elementId))
                        (diag_objects diagram)))
           (model_diagrams model) |}.

Definition setSourceConnections (o : DiagramObject) (conns : list DiagramConnection)
  : DiagramObject :=
  mkDiagramObject (obj_id o) (obj_elementId o) (obj_bounds o) conns
                  (obj_targetConnectionIds o) (obj_children o).

Definition removeRelationshipFromModel (model : ArchiMateModel) (relationshipId : string)
  : ArchiMateModel :=
  {| model_id := model_id model;
     model_name := model_name model;
     model_version := model_version model;
     model_documentation := model_documentation model;
     model_folders := model_folders model;
     model_relationships :=
       filter (fun r => negb (rel_id r =? relationshipId)) (model_relationships model);
     model_diagrams :=
       map (fun diagram =>
              setObjects diagram
                (map (fun obj =>
                        setSourceConnections obj
                          (filter (fun c => negb (conn_relationshipId c =? relationshipId))
                                  (obj_sourceConnections obj)))
                     (diag_objects diagram)))
           (model_diagrams model) |}.

End Writer.

(* ================================================================== *)
(** ** model/parser.ts: the hierarchical reader *)

Module Parser.
Import JS Model Xml Tables.

Definition MODEL_FILENAME : string := "model.archimate".

Definition parseProperties (props : list XmlProperty) : list ArchiMateProperty :=
  map (fun p => {| key := xp_key p; value := xp_value p |}) (toArray props).

(** [bounds?.[attr]]: the attribute of an optional bounds object. *)
Definition boundsAttr (bounds : option XmlBounds) (attr : XmlBounds -> option string)
  : option string :=
  match bounds with
  | Some b => attr b
  | None => None
  end.

Definition parseBounds (bounds : option XmlBounds) : DiagramBounds :=
  {| x := parseInt (strOr (boundsAttr bounds xb_x) "0");
     y := parseInt (strOr (boundsAttr bounds xb_y) "0");
     width := parseInt (strOr (boundsAttr bounds xb_width) "120");
     height := parseInt (strOr (boundsAttr bounds xb_height) "55") |}.

Definition parseConnections (conns : list XmlConnection) : list DiagramConnection :=
  map (fun c =>
         {| conn_id := xc_id c;
            conn_sourceId := xc_source c;
            conn_targetId := xc_target c;
            conn_relationshipId := strOr (xc_archimateRelationship c) "";
            conn_bendpoints :=
              map (fun bp => {| bp_x := parseInt (strOr (xbp_x bp) "0");
                                bp_y := parseInt (strOr (xbp_y bp) "0") |})
                  (toArray (xc_bendpoint c)) |})
      (toArray conns).

Fixpoint parseDiagramObject (child : XmlElement) : DiagramObject :=
  match child with
  | mkXmlElement _ _ id _ _ _ _ archimateElement _ _ bounds children
                 sourceConnection targetConns =>
      {| obj_id := strOr id "";
         obj_elementId := strOr archimateElement "";
         obj_bounds := parseBounds bounds;
         obj_sourceConnections := parseConnections sourceConnection;
         obj_targetConnectionIds :=
           match nonEmpty targetConns with
           | Some t => split " " t
           | None => []
           end;
         obj_children := map parseDiagramObject (toArray children) |}
  end.

Definition parseDiagramObjects (children : list XmlElement) : list DiagramObject :=
  map parseDiagramObject (toArray children).

(** [null] is [None]. *)
Definition parseElement (elem : XmlElement) : option ArchiMateElement :=
  match nonEmpty (xe_xsi_type elem) with
  | None => None
  | Some xsiType =>
      match nonEmpty (tableGet XmlTypeToElementType xsiType) with
      | None => None
      | Some elementType =>
          Some {| el_id := strOr (xe_id elem) "";
                  el_type := elementType;
                  el_name := strOr (xe_name elem) "";
                  el_documentation := xe_documentation elem;
                  el_properties := parseProperties (xe_property elem) |}
      end
  end.

(** The [accessMap] of [parseRelationship] and [accessMap[code]]: at an
    inherited key the value is the inherited member, which the code
    stores as the access type. *)
Definition accessMap : list (string * AccessType) :=
  [ ("1", Read); ("2", Write); ("3", ReadWrite);
    ("read", Read); ("write", Write); ("readWrite", ReadWrite) ].

Definition accessGet (code : string) : option AccessType :=
  match lookup accessMap code with
  | Some a => Some a
  | None =>
      if includes inheritedKeys code
      then Some (NotAnAccessType (inheritedText code))
      else None
  end.

Definition parseRelationship (elem : XmlElement) : option ArchiMateRelationship :=
  match nonEmpty (xe_xsi_type elem) with
  | None => None
  | Some xsiType =>
      match nonEmpty (tableGet XmlTypeToRelationshipType xsiType) with
      | None => None
      | Some relType =>
          Some {| rel_id := strOr (xe_id elem) "";
                  rel_type := relType;
                  rel_sourceId := strOr (xe_source elem) "";
                  rel_targetId := strOr (xe_target elem) "";
                  rel_name := xe_name elem;
                  rel_documentation := xe_documentation elem;
                  rel_accessType :=
                    if relType =? "Access" then
                      match nonEmpty (xe_accessType elem) with
                      | Some code => accessGet code
                      | None => None
                      end
                    else None;
                  rel_influenceModifier :=
                    if relType =? "Influence" then nonEmpty (xe_modifier elem)
                    else None;
                  rel_properties := parseProperties (xe_property elem) |}
      end
  end.

Definition isDiagramType (xsiType : option string) : bool :=
  match xsiType with
  | Some t => t =? "archimate:ArchimateDiagramModel"
  | None => false
  end.

Definition parseDiagram (elem : XmlElement) : option ArchiMateDiagram :=
  if negb (isDiagramType (xe_xsi_type elem)) then None
  else
    Some {| diag_id := strOr (xe_id elem) "";
            diag_name := strOr (xe_name elem) "";
            diag_viewpoint := None;
            diag_documentation := xe_documentation elem;
            diag_objects := parseDiagramObjects (xe_child elem) |}.

(** [for (const x of xs) { const r = f(x); if (r) out.push(r); }] *)
Fixpoint pushEach {A B : Type} (f : A -> option B) (xs : list A) : list B :=
  match xs with
  | [] => []
  | a :: rest =>
      match f a with
      | Some b => b :: pushEach f rest
      | None => pushEach f rest
      end
  end.

Fixpoint parseFolder (xmlFolder : XmlFolder) : ArchiMateFolder :=
  match xmlFolder with
  | mkXmlFolder name id type element folder =>
      {| folder_id := id;
         folder_name := name;
         folder_type := strOr type "";
         folder_elements := pushEach parseElement (toArray element);
         folder_subfolders := map parseFolder (toArray folder) |}
  end.

(** The body of [extractRelationships] is empty: the array it is given
    is returned as it was. *)
Definition extractRelationships (folder : ArchiMateFolder)
    (relationships : list ArchiMateRelationship) : list ArchiMateRelationship :=
  relationships.

(** The diagrams [extractDiagrams] pushes, in order. *)
Fixpoint extractDiagrams (xmlFolder : XmlFolder) : list ArchiMateDiagram :=
  match xmlFolder with
  | mkXmlFolder _ _ _ element folder =>
      pushEach parseDiagram (toArray element) ++
      flat_map extractDiagrams (toArray folder)
  end.

Definition missingRoot : string :=
  "Invalid ArchiMate model: missing archimate:model root element".

(** [parseModel] from the parsed document on. *)
Definition parseModel_parsed (parsed : XmlModel) : result ArchiMateModel :=
  match archimate_model parsed with
  | None => Throw missingRoot
  | Some xmlModel =>
      let step (acc : list ArchiMateFolder * list ArchiMateRelationship *
                      list ArchiMateDiagram) (xmlFolder : XmlFolder) :=
        let '(folders, relationships, diagrams) := acc in
        let folder := parseFolder xmlFolder in
        let relationships :=
          if folder_type folder =? "relations"
          then extractRelationships folder relationships else relationships in
        let diagrams :=
          if folder_type folder =? "diagrams"
          then diagrams ++ extractDiagrams xmlFolder else diagrams in
        (folders ++ [folder], relationships, diagrams) in
      let '(folders, relationships, diagrams) :=
        fold_left step (toArray (xm_folder xmlModel)) ([], [], []) in
      Ok {| model_id := xm_id xmlModel;
            model_name := xm_name xmlModel;
            model_version := strOr (xm_version xmlModel) "5.0.0";
            model_documentation := xm_documentation xmlModel;
            model_folders := folders;
            model_relationships := relationships;
            model_diagrams := diagrams |}
  end.

(** The two arrays [processFolder] pushes to: [model.relationships] and
    [model.diagrams]. *)
Definition Collected : Type :=
  (list ArchiMateRelationship * list ArchiMateDiagram)%type.

Definition isRelationshipType (xsiType : option string) : bool :=
  match nonEmpty xsiType with
  | Some t =>
      match nonEmpty (tableGet XmlTypeToRelationshipType t) with
      | Some _ => true
      | None => false
      end
  | None => false
  end.

(** The element loop of [processFolder]: the folder's own elements and
    the two arrays after the loop. *)
Fixpoint processElements (elements : list XmlElement) (st : Collected)
  : list ArchiMateElement * Collected :=
  match elements with
  | [] => ([], st)
  | elem :: rest =>
      let '(relationships, diagrams) := st in
      if isRelationshipType (xe_xsi_type elem) then
        match parseRelationship elem with
        | Some rel => processElements rest (relationships ++ [rel], diagrams)
        | None => processElements rest st
        end
      else if isDiagramType (xe_xsi_type elem) then
        match parseDiagram elem with
        | Some diagram => processElements rest (relationships, diagrams ++ [diagram])
        | None => processElements rest st
        end
      else
        match parseElement elem with
        | Some element =>
            let '(els, st') := processElements rest st in (element :: els, st')
        | None => processElements rest st
        end
  end.

Fixpoint processFolder (xmlFolder : XmlFolder) (st : Collected)
  : ArchiMateFolder * Collected :=
  match xmlFolder with
  | mkXmlFolder name id type element folder =>
      let '(elements, st1) := processElements (toArray element) st in
      let '(subfolders, st2) :=
        (fix subs (l : list XmlFolder) (st : Collected)
           : list ArchiMateFolder * Collected :=
           match l with
           | [] => ([], st)
           | sub :: rest =>
               let '(f, st') := processFolder sub st in
               let '(fs, st'') := subs rest st' in
               (f :: fs, st'')
           end) (toArray folder) st1 in
      ({| folder_id := id;
          folder_name := name;
          folder_type := strOr type "";
          folder_elements := elements;
          folder_subfolders := subfolders |}, st2)
  end.

Fixpoint processFolders (l : list XmlFolder) (st : Collected)
  : list ArchiMateFolder * Collected :=
  match l with
  | [] => ([], st)
  | xmlFolder :: rest =>
      let '(f, st') := processFolder xmlFolder st in
      let '(fs, st'') := processFolders rest st' in
      (f :: fs, st'')
  end.

(** [parseModelComplete] from the parsed document on. *)
Definition parseModelComplete_parsed (parsed : XmlModel) : result ArchiMateModel :=
  match archimate_model parsed with
  | None => Throw missingRoot
  | Some xmlModel =>
      let '(folders, (relationships, diagrams)) :=
        processFolders (toArray (xm_folder xmlModel)) ([], []) in
      Ok {| model_id := xm_id xmlModel;
            model_name := xm_name xmlModel;
            model_version := strOr (xm_version xmlModel) "5.0.0";
            model_documentation := xm_documentation xmlModel;
            model_folders := folders;
            model_relationships := relationships;
            model_diagrams := diagrams |}
  end.

End Parser.

(* ================================================================== *)
(** ** The file system and the XML library around the hierarchical readers

    A file system maps a path to nothing when nothing exists there
    ([existsSync] is false) and otherwise to the outcome of [readFile]:
    the text of the file, or the error [readFile] rejects with (the path
    is a directory, the file may not be read).  The XML parser returns
    the parsed document or throws on text it cannot parse; [parseModel]
    configures it with [isArray] and [parseModelComplete] does not, so
    each reader has a parser of its own.  [pathJoin] stands for the path
    library's [join].  A rejected promise that is awaited and a thrown
    error are both [Throw]. *)

Definition FileSystem : Type := string -> option (result string).

Definition existsSync (fs : FileSystem) (path : string) : bool :=
  match fs path with
  | Some _ => true
  | None => false
  end.

Definition readFile (fs : FileSystem) (path : string) : result string :=
  match fs path with
  | Some outcome => outcome
  | None => Throw ("ENOENT: no such file or directory, open '" ++ path ++ "'")%string
  end.

Section HierarchicalFiles.
Import JS Model Xml.

Variable xmlParseListed : string -> result XmlModel.
Variable xmlParse : string -> result XmlModel.
Variable pathJoin : string -> string -> string.

Definition modelFilePath (modelPath : string) : string :=
  if endsWith modelPath ".archimate" then modelPath
  else pathJoin modelPath Parser.MODEL_FILENAME.

Definition parseModel (fs : FileSystem) (modelPath : string)
  : result ArchiMateModel :=
  let filePath := modelFilePath modelPath in
  if negb (existsSync fs filePath)
  then Throw ("Model file not found: " ++ filePath)%string
  else
    xmlContent <- readFile fs filePath ;;
    parsed <- xmlParseListed xmlContent ;;
    Parser.parseModel_parsed parsed.

Definition parseModelComplete (fs : FileSystem) (modelPath : string)
  : result ArchiMateModel :=
  let filePath := modelFilePath modelPath in
  if negb (existsSync fs filePath)
  then Throw ("Model file not found: " ++ filePath)%string
  else
    xmlContent <- readFile fs filePath ;;
    parsed <- xmlParse xmlContent ;;
    Parser.parseModelComplete_parsed parsed.

End HierarchicalFiles.

(** The outcome of a reader by case: what is at the path, what the
    parser makes of the text, and whether the parsed document has the
    root model element. *)
Definition readOutcome (fs : FileSystem) (filePath : string)
    (parse : string -> result Xml.XmlModel) (outcome : result Model.ArchiMateModel) : Prop :=
  match fs filePath with
  | None => outcome = Throw ("Model file not found: " ++ filePath)%string
  | Some (Throw readError) => outcome = Throw readError
  | Some (Ok xmlContent) =>
      match parse xmlContent with
      | Throw parseError => outcome = Throw parseError
      | Ok parsed =>
          match Xml.archimate_model parsed with
          | None =>
              outcome =
                Throw "Invalid ArchiMate model: missing archimate:model root element"
          | Some _ => exists model, outcome = Ok model
          end
      end
  end.

(* ================================================================== *)
(** ** The flat (Open Exchange) XML document

    The objects the exchange writer builds and the exchange reader
    consumes.  Attribute values have the types the writer emits:
    identifiers and references are strings, coordinates are numbers.
    The reader's parser is configured with [parseAttributeValue] and
    [trimValues] and can return a number or a boolean where the writer
    wrote a string; the reader applies [String(v || d)] to every string
    attribute [v], [Number(v) || d] to every coordinate and [String(v)]
    to every text.  On the reader's side a string attribute of these
    records is therefore [String(v)] when [v] is truthy and the empty
    string otherwise, a coordinate is [Number(v)], and a text is
    [String(v)]; what the parser makes of a written value is the subject
    of [ExchangeText] below.  Entries of the containers are objects.  An
    absent container is the empty list, and [ensureArray] is the
    identity. *)

Module Exchange.
Import JS.

(** A [name] or [documentation] child: a bare string, or an object with
    a language attribute and an optional ['#text']. *)
Inductive TextNode : Type :=
| TextString (s : string)
| TextObject (lang : option string) (text : option string).

Record ExElement : Type := {
  ee_identifier : option string;
  ee_xsi_type : option string;
  ee_type : option string;
  ee_name : option TextNode;
  ee_documentation : option TextNode
}.

Record ExRelationship : Type := {
  er_identifier : option string;
  er_xsi_type : option string;
  er_type : option string;
  er_source : option string;
  er_target : option string;
  er_name : option TextNode;
  er_documentation : option TextNode
}.

Record ExNode : Type := {
  en_identifier : option string;
  en_elementRef : option string;
  en_x : option number;
  en_y : option number;
  en_w : option number;
  en_h : option number
}.

Record ExConnection : Type := {
  ec_identifier : option string;
  ec_relationshipRef : option string;
  ec_source : option string;
  ec_target : option string
}.

Record ExView : Type := {
  ev_identifier : option string;
  ev_viewpoint : option string;
  ev_name : option TextNode;
  ev_documentation : option TextNode;
  ev_node : list ExNode;
  ev_connection : list ExConnection
}.

(** The [views] container: its [diagrams] child, when present, and the
    [view] entries held directly. *)
Record ExViews : Type := {
  evs_diagrams : option (list ExView);
  evs_view : list ExView
}.

Record ExModel : Type := {
  em_identifier : option string;
  em_name : option TextNode;
  em_documentation : option TextNode;
  em_elements : list ExElement;
  em_relationships : list ExRelationship;
  em_views : option ExViews
}.

(** The parsed document: the values under the keys ['model'] and
    ['archimate:model']. *)
Record ExDocument : Type := {
  ed_model : option ExModel;
  ed_archimate_model : option ExModel
}.

Definition ensureArray {T : Type} (value : list T) : list T := value.

End Exchange.

(* ================================================================== *)
(** ** exchange/exchange-writer.ts *)

Module ExchangeWriter.
Import JS Model Exchange.

Definition langText (s : string) : TextNode := TextObject (Some "en") (Some s).

(** [if (d) obj.documentation = { lang, text: d }] *)
Definition optLangText (d : option string) : option TextNode :=
  match nonEmpty d with
  | Some s => Some (langText s)
  | None => None
  end.

Definition buildElement (element : ArchiMateElement) : ExElement :=
  {| ee_identifier := Some (el_id element);
     ee_xsi_type := Some (el_type element);
     ee_type := None;
     ee_name := Some (langText (el_name element));
     ee_documentation := optLangText (el_documentation element) |}.

Definition buildRelationship (rel : ArchiMateRelationship) : ExRelationship :=
  {| er_identifier := Some (rel_id rel);
     er_xsi_type := Some (rel_type rel);
     er_type := None;
     er_source := Some (rel_sourceId rel);
     er_target := Some (rel_targetId rel);
     er_name := optLangText (rel_name rel);
     er_documentation := optLangText (rel_documentation rel) |}.

Definition buildDiagramNode (obj : DiagramObject) : ExNode :=
  {| en_identifier := Some (obj_id obj);
     en_elementRef := Some (obj_elementId obj);
     en_x := Some (x (obj_bounds obj));
     en_y := Some (y (obj_bounds obj));
     en_w := Some (width (obj_bounds obj));
     en_h := Some (height (obj_bounds obj)) |}.

Definition buildConnection (conn : DiagramConnection) : ExConnection :=
  {| ec_identifier := Some (conn_id conn);
     ec_relationshipRef := Some (conn_relationshipId conn);
     ec_source := Some (conn_sourceId conn);
     ec_target := Some (conn_targetId conn) |}.

(** [collectObjects] walks the objects depth first and pushes to two
    arrays; [collectNodes] is what it pushes to [nodes] for one object
    and [collectConnections] what it pushes to [connections]. *)
Fixpoint collectNodes (obj : DiagramObject) : list ExNode :=
  match obj with
  | mkDiagramObject _ _ _ _ _ children =>
      buildDiagramNode obj :: flat_map collectNodes children
  end.

Fixpoint collectConnections (obj : DiagramObject) : list ExConnection :=
  match obj with
  | mkDiagramObject _ _ _ sourceConnections _ children =>
      map buildConnection sourceConnections ++ flat_map collectConnections children
  end.

Definition buildView (diagram : ArchiMateDiagram) : ExView :=
  {| ev_identifier := Some (diag_id diagram);
     ev_viewpoint := nonEmpty (diag_viewpoint diagram);
     ev_name := Some (langText (diag_name diagram));
     ev_documentation := optLangText (diag_documentation diagram);
     ev_node := flat_map collectNodes (diag_objects diagram);
     ev_connection := flat_map collectConnections (diag_objects diagram) |}.

(** The object [{ model: modelObj }] handed to the XML builder. *)
Definition writeExchangeFormat_xmlObj (model : ArchiMateModel) : ExDocument :=
  {| ed_model :=
       Some {| em_identifier := Some (model_id model);
               em_name := Some (langText (model_name model));
               em_documentation := optLangText (model_documentation model);
               em_elements := map buildElement (getAllElements model);
               em_relationships := map buildRelationship (model_relationships model);
               em_views :=
                 if (0 <? List.length (model_diagrams model))%nat
                 then Some {| evs_diagrams := Some (map buildView (model_diagrams model));
                              evs_view := [] |}
                 else None |};
     ed_archimate_model := None |}.

End ExchangeWriter.

(* ================================================================== *)
(** ** exchange/exchange-reader.ts *)

Module ExchangeReader.
Import JS Types Model Exchange.

Definition getText (value : option TextNode) : string :=
  match value with
  | None => ""
  | Some (TextString s) => s
  | Some (TextObject _ (Some t)) => t
  | Some (TextObject _ None) => "[object Object]"
  end.

(** [getText(v) || undefined] *)
Definition getTextOpt (value : option TextNode) : option string :=
  nonEmpty (Some (getText value)).

Definition mapElementType (exchangeType : string) : option string :=
  if includes AllElementTypes exchangeType then Some exchangeType else None.

Definition mapRelationshipType (exchangeType : string) : option string :=
  let type := stripSuffix "Relationship" exchangeType in
  if includes RelationshipTypes type then Some type else None.

Definition emptyFolder (id name type : string) : ArchiMateFolder :=
  mkFolder id name type [] [].

Definition createFolderStructure : list ArchiMateFolder :=
  [ emptyFolder "folder-motivation" "Motivation" "motivation";
    emptyFolder "folder-strategy" "Strategy" "strategy";
    emptyFolder "folder-business" "Business" "business";
    emptyFolder "folder-application" "Application" "application";
    emptyFolder "folder-technology" "Technology & Physical" "technology";
    emptyFolder "folder-implementation" "Implementation & Migration"
                "implementation_migration";
    emptyFolder "folder-other" "Other" "other";
    emptyFolder "folder-relations" "Relations" "relations";
    emptyFolder "folder-diagrams" "Views" "diagrams" ].

(** [folders.findIndex(p)]; the folder [getFolderForType] returns is an
    element of the array, named here by its position. *)
Fixpoint findIndex {A : Type} (p : A -> bool) (l : list A) : option nat :=
  match l with
  | [] => None
  | a :: rest =>
      if p a then Some O
      else match findIndex p rest with
           | Some i => Some (S i)
           | None => None
           end
  end.

Definition getFolderForType (folders : list ArchiMateFolder) (elementType : string)
  : result (option nat) :=
  layer <- getLayerForElementType elementType ;;
  let folderType := LayerFolderTypes layer in
  match findIndex (fun f => folder_type f =? folderType) folders with
  | Some i => Ok (Some i)
  | None => Ok (findIndex (fun f => folder_type f =? "other") folders)
  end.

(** [folder.elements.push(element)] on the folder at position [i]. *)
Fixpoint pushElement (i : nat) (element : ArchiMateElement)
    (folders : list ArchiMateFolder) : list ArchiMateFolder :=
  match folders, i with
  | [], _ => []
  | mkFolder id name type elements subfolders :: rest, O =>
      mkFolder id name type (elements ++ [element]) subfolders :: rest
  | f :: rest, S j => f :: pushElement j element rest
  end.

Definition parseElement (elementNode : ExElement) : option ArchiMateElement :=
  let id := strOr (ee_identifier elementNode) "" in
  let typeAttr := strOr (ee_xsi_type elementNode) (strOr (ee_type elementNode) "") in
  match mapElementType typeAttr with
  | None => None
  | Some elementType =>
      Some {| el_id := id;
              el_type := elementType;
              el_name := getText (ee_name elementNode);
              el_documentation := getTextOpt (ee_documentation elementNode);
              el_properties := [] |}
  end.

Definition parseRelationship (relNode : ExRelationship) : option ArchiMateRelationship :=
  let id := strOr (er_identifier relNode) "" in
  let typeAttr := strOr (er_xsi_type relNode) (strOr (er_type relNode) "") in
  match mapRelationshipType typeAttr with
  | None => None
  | Some relType =>
      Some {| rel_id := id;
              rel_type := relType;
              rel_sourceId := strOr (er_source relNode) "";
              rel_targetId := strOr (er_target relNode) "";
              rel_name := getTextOpt (er_name relNode);
              rel_documentation := getTextOpt (er_documentation relNode);
              rel_accessType := None;
              rel_influenceModifier := None;
              rel_properties := [] |}
  end.

Definition parseDiagramObject (nodeData : ExNode) : DiagramObject :=
  let id := strOr (en_identifier nodeData) "" in
  let elementId := strOr (en_elementRef nodeData) "" in
  let x := numOr (en_x nodeData) (Num 0) in
  let y := numOr (en_y nodeData) (Num 0) in
  let width := numOr (en_w nodeData) (Num 120) in
  let height := numOr (en_h nodeData) (Num 55) in
  mkDiagramObject id elementId
    {| x := x; y := y; width := width; height := height |} [] [] [].

Definition parseConnection (connData : ExConnection) : DiagramConnection :=
  {| conn_id := strOr (ec_identifier connData) "";
     conn_sourceId := strOr (ec_source connData) "";
     conn_targetId := strOr (ec_target connData) "";
     conn_relationshipId := strOr (ec_relationshipRef connData) "";
     conn_bendpoints := [] |}.

(** [connectionMap.get(id) || []]: the connections whose source is [id],
    in document order. *)
Definition connectionsFrom (conns : list DiagramConnection) (id : string)
  : list DiagramConnection :=
  filter (fun c => conn_sourceId c =? id) conns.

Definition parseDiagram (viewData : ExView) : ArchiMateDiagram :=
  let objects := map parseDiagramObject (ensureArray (ev_node viewData)) in
  let conns := map parseConnection (ensureArray (ev_connection viewData)) in
  {| diag_id := strOr (ev_identifier viewData) "";
     diag_name := getText (ev_name viewData);
     diag_viewpoint := nonEmpty (ev_viewpoint viewData);
     diag_documentation := getTextOpt (ev_documentation viewData);
     diag_objects :=
       map (fun obj =>
              mkDiagramObject (obj_id obj) (obj_elementId obj) (obj_bounds obj)
                (connectionsFrom conns (obj_id obj))
                (obj_targetConnectionIds obj) (obj_children obj))
           objects |}.

(** The element loop of [parseExchangeFormat]. *)
Fixpoint placeElements (elementList : list ExElement) (folders : list ArchiMateFolder)
  : result (list ArchiMateFolder) :=
  match elementList with
  | [] => Ok folders
  | elemData :: rest =>
      match parseElement elemData with
      | Some element =>
          folder <- getFolderForType folders (el_type element) ;;
          match folder with
          | Some i => placeElements rest (pushElement i element folders)
          | None => Throw "TypeError: Cannot read properties of undefined"
          end
      | None => placeElements rest folders
      end
  end.

Definition viewList (views : option ExViews) : list ExView :=
  match views with
  | None => []
  | Some viewsContainer =>
      match evs_diagrams viewsContainer with
      | Some diagramsContainer => ensureArray diagramsContainer
      | None => ensureArray (evs_view viewsContainer)
      end
  end.

Definition emptyExModel : ExModel :=
  {| em_identifier := None; em_name := None; em_documentation := None;
     em_elements := []; em_relationships := []; em_views := None |}.

(** [parseExchangeFormat] from the parsed document on. *)
Definition parseExchangeFormat_parsed (parsed : ExDocument) : result ArchiMateModel :=
  let modelData :=
    match ed_model parsed with
    | Some m => m
    | None =>
        match ed_archimate_model parsed with
        | Some m => m
        | None => emptyExModel
        end
    end in
  let id := strOr (em_identifier modelData) "model-1" in
  let name := strOr (Some (getText (em_name modelData))) "Imported Model" in
  let documentation := getTextOpt (em_documentation modelData) in
  folders <- placeElements (ensureArray (em_elements modelData)) createFolderStructure ;;
  let relationships :=
    Parser.pushEach parseRelationship (ensureArray (em_relationships modelData)) in
  let diagrams := map parseDiagram (viewList (em_views modelData)) in
  Ok {| model_id := id;
        model_name := name;
        model_version := "5.0.0";
        model_documentation := documentation;
        model_folders := folders;
        model_relationships := relationships;
        model_diagrams := diagrams |}.

End ExchangeReader.

(* ================================================================== *)
(** ** The XML text between the exchange writer and the exchange reader

    [writeExchangeFormat] hands its object to the XML builder, configured
    with [suppressEmptyNode], and [parseExchangeFormat] parses the text
    with [parseAttributeValue: true] and [trimValues: true]: the parser
    trims every value and returns a boolean for the texts [true] and
    [false] and a number for numeric text.  Three functions describe
    what the reader obtains for a value the writer wrote:

    - [attributeText s], for an attribute written from the string [s]:
      [String(v)] of the value [v] the parser returns, and the empty
      string when [v] is falsy;
    - [attributeNumber n], for an attribute written from the number [n]:
      [Number(v)];
    - [nodeText s], for a text written from the string [s]: [String(v)]
      of the text [v] the parser returns, and nothing when it returns
      no text, as for the empty node that the builder suppresses.

    They belong to the XML library and are parameters here; [readBack]
    applies them to every value of a document of the shape the writer
    builds, in which every text has a language attribute. *)

Module ExchangeText.
Import JS Model Exchange.

Section Conversions.

Variable attributeText : string -> string.
Variable attributeNumber : number -> number.
Variable nodeText : string -> option string.

Definition readAttribute (a : option string) : option string :=
  option_map attributeText a.

Definition readNumber (a : option number) : option number :=
  option_map attributeNumber a.

Definition readText (t : option TextNode) : option TextNode :=
  match t with
  | Some (TextObject lang (Some s)) =>
      Some (TextObject (readAttribute lang) (nodeText s))
  | Some (TextObject lang None) => Some (TextObject (readAttribute lang) None)
  | Some (TextString s) => Some (TextString s)
  | None => None
  end.

Definition readElement (e : ExElement) : ExElement :=
  {| ee_identifier := readAttribute (ee_identifier e);
     ee_xsi_type := readAttribute (ee_xsi_type e);
     ee_type := readAttribute (ee_type e);
     ee_name := readText (ee_name e);
     ee_documentation := readText (ee_documentation e) |}.

Definition readRelationship (r : ExRelationship) : ExRelationship :=
  {| er_identifier := readAttribute (er_identifier r);
     er_xsi_type := readAttribute (er_xsi_type r);
     er_type := readAttribute (er_type r);
     er_source := readAttribute (er_source r);
     er_target := readAttribute (er_target r);
     er_name := readText (er_name r);
     er_documentation := readText (er_documentation r) |}.

Definition readNode (n : ExNode) : ExNode :=
  {| en_identifier := readAttribute (en_identifier n);
     en_elementRef := readAttribute (en_elementRef n);
     en_x := readNumber (en_x n);
     en_y := readNumber (en_y n);
     en_w := readNumber (en_w n);
     en_h := readNumber (en_h n) |}.

Definition readConnection (c : ExConnection) : ExConnection :=
  {| ec_identifier := readAttribute (ec_identifier c);
     ec_relationshipRef := readAttribute (ec_relationshipRef c);
     ec_source := readAttribute (ec_source c);
     ec_target := readAttribute (ec_target c) |}.

Definition readView (v : ExView) : ExView :=
  {| ev_identifier := readAttribute (ev_identifier v);
     ev_viewpoint := readAttribute (ev_viewpoint v);
     ev_name := readText (ev_name v);
     ev_documentation := readText (ev_documentation v);
     ev_node := map readNode (ev_node v);
     ev_connection := map readConnection (ev_connection v) |}.

Definition readViews (vs : ExViews) : ExViews :=
  {| evs_diagrams := option_map (map readView) (evs_diagrams vs);
     evs_view := map readView (evs_view vs) |}.

Definition readModel (m : ExModel) : ExModel :=
  {| em_identifier := readAttribute (em_identifier m);
     em_name := readText (em_name m);
     em_documentation := readText (em_documentation m);
     em_elements := map readElement (em_elements m);
     em_relationships := map readRelationship (em_relationships m);
     em_views := option_map readViews (em_views m) |}.

(** The document the reader's parser returns for the text the builder
    writes from [written]. *)
Definition readBack (written : ExDocument) : ExDocument :=
  {| ed_model := option_map readModel (ed_model written);
     ed_archimate_model := option_map readModel (ed_archimate_model written) |}.

(** [parseExchangeFormat(writeExchangeFormat(model))] *)
Definition writeThenParse (model : ArchiMateModel) : result ArchiMateModel :=
  ExchangeReader.parseExchangeFormat_parsed
    (readBack (ExchangeWriter.writeExchangeFormat_xmlObj model)).

End Conversions.

(** *** Plain texts

    A text that starts with a letter of the alphabet, ends with a
    visible character of the ASCII range and is neither [true] nor
    [false]: there is nothing to trim and the parser sees neither a
    boolean nor a number in it. *)

Definition isLetter (c : ascii) : bool :=
  let k := N_of_ascii c in
  (((65 <=? k) && (k <=? 90)) || ((97 <=? k) && (k <=? 122)))%N.

Definition isVisible (c : ascii) : bool :=
  let k := N_of_ascii c in
  ((33 <=? k) && (k <=? 126))%N.

Fixpoint endsVisible (s : string) : bool :=
  match s with
  | EmptyString => false
  | String c EmptyString => isVisible c
  | String _ r => endsVisible r
  end.

Definition plainText (s : string) : bool :=
  match s with
  | String c _ =>
      isLetter c && endsVisible s && negb (s =? "true") && negb (s =? "false")
  | EmptyString => false
  end.

Definition optionalPlainText (d : option string) : bool :=
  match d with
  | Some s => plainText s
  | None => true
  end.

(** *** A parser for the examples

    Conversions that do what the builder and the reader's parser do with
    the values of the examples: the attribute value [true] is written
    as an attribute without a value, which the parser leaves out; a
    value is trimmed; [false] is a boolean; and a string of decimal
    digits is a number. *)

Definition trim (s : string) : string :=
  reverse (skipWhitespace (reverse (skipWhitespace s) "")) "".

Fixpoint allDigits (s : string) : bool :=
  match s with
  | EmptyString => true
  | String c r =>
      match digitValue c with
      | Some _ => allDigits r
      | None => false
      end
  end.

Definition isDigits (s : string) : bool := truthy s && allDigits s.

Definition sampleAttributeText (s : string) : string :=
  let t := trim s in
  if (s =? "true") || (t =? "false") then ""
  else if isDigits t then
    let n := parseInt t in
    if truthyNum n then String_ n else ""
  else t.

Definition sampleAttributeNumber (n : number) : number := n.

Definition sampleNodeText (s : string) : option string :=
  let t := trim s in
  if t =? "" then None
  else if isDigits t then Some (String_ (parseInt t))
  else Some t.

End ExchangeText.

(* ================================================================== *)
(** ** The XML text between the hierarchical writer and its readers

    [writeModel] hands its object to the XML builder, configured with
    [suppressEmptyNode], and [parseModelComplete] parses the text with
    the parser's default treatment of values: every value is trimmed, an
    attribute stays a string, and the text of an element becomes a
    boolean or a number when it reads as one.  The builder writes the
    attribute value [true] as an attribute without a value, which the
    parser leaves out.  Two functions of the XML library describe what
    the reader obtains for a value the writer wrote:

    - [attributeValue s], for an attribute written from the string [s]:
      the string the parser returns, and nothing when it returns no
      such attribute;
    - [nodeValue s], for the documentation written from the string [s]:
      the text the parser returns, and nothing when it returns none.

    [readBack] applies them to every value of a document.  A field that
    the document types as a string is the empty string when the
    attribute is not there. *)

Module HierarchicalText.
Import JS Xml ExchangeText.

Section Conversions.

Variable attributeValue : string -> option string.
Variable nodeValue : string -> option string.

Definition readAttribute (a : option string) : option string :=
  match a with
  | Some s => attributeValue s
  | None => None
  end.

Definition readRequired (s : string) : string :=
  match attributeValue s with
  | Some t => t
  | None => ""
  end.

Definition readNode (t : option string) : option string :=
  match t with
  | Some s => nodeValue s
  | None => None
  end.

Definition readProperty (p : XmlProperty) : XmlProperty :=
  {| xp_key := readRequired (xp_key p); xp_value := readRequired (xp_value p) |}.

Definition readBounds (b : XmlBounds) : XmlBounds :=
  {| xb_x := readAttribute (xb_x b);
     xb_y := readAttribute (xb_y b);
     xb_width := readAttribute (xb_width b);
     xb_height := readAttribute (xb_height b) |}.

Definition readBendpoint (bp : XmlBendpoint) : XmlBendpoint :=
  {| xbp_x := readAttribute (xbp_x bp); xbp_y := readAttribute (xbp_y bp) |}.

Definition readConnection (c : XmlConnection) : XmlConnection :=
  {| xc_xsi_type := readAttribute (xc_xsi_type c);
     xc_id := readRequired (xc_id c);
     xc_source := readRequired (xc_source c);
     xc_target := readRequired (xc_target c);
     xc_archimateRelationship := readAttribute (xc_archimateRelationship c);
     xc_bendpoint := map readBendpoint (xc_bendpoint c) |}.

Fixpoint readElement (e : XmlElement) : XmlElement :=
  match e with
  | mkXmlElement xsiType name id source target accessType modifier
                 archimateElement documentation property bounds child
                 sourceConnection targetConnections =>
      mkXmlElement (readAttribute xsiType) (readAttribute name) (readAttribute id)
        (readAttribute source) (readAttribute target) (readAttribute accessType)
        (readAttribute modifier) (readAttribute archimateElement)
        (readNode documentation) (map readProperty property)
        (option_map readBounds bounds) (map readElement child)
        (map readConnection sourceConnection) (readAttribute targetConnections)
  end.

Fixpoint readFolder (f : XmlFolder) : XmlFolder :=
  match f with
  | mkXmlFolder name id type element folder =>
      mkXmlFolder (readRequired name) (readRequired id) (readAttribute type)
        (map readElement element) (map readFolder folder)
  end.

Definition readRoot (root : XmlModelRoot) : XmlModelRoot :=
  {| xm_name := readRequired (xm_name root);
     xm_id := readRequired (xm_id root);
     xm_version := readAttribute (xm_version root);
     xm_documentation := readNode (xm_documentation root);
     xm_folder := map readFolder (xm_folder root) |}.

(** The document the parser returns for the text the builder writes
    from [written]. *)
Definition readBack (written : XmlModel) : XmlModel :=
  {| archimate_model := option_map readRoot (archimate_model written) |}.

(** [parseModelComplete] of the file written by [writeModel]. *)
Definition writeThenRead (model : Model.ArchiMateModel) : result Model.ArchiMateModel :=
  Parser.parseModelComplete_parsed (readBack (Writer.writeModel_xmlObj model)).

End Conversions.

(** *** Values that are kept

    An attribute value that is empty, or that starts and ends with a
    visible character of the ASCII range and is not the word [true]:
    there is nothing to trim.  A documentation is kept when it is a
    plain text. *)

Definition startsVisible (s : string) : bool :=
  match s with
  | String c _ => isVisible c
  | EmptyString => false
  end.

Definition keptAttribute (s : string) : bool :=
  (s =? "") || (startsVisible s && endsVisible s && negb (s =? "true")).

Definition optionalKept (a : option string) : bool :=
  match a with
  | Some s => keptAttribute s
  | None => true
  end.

Definition propertyKept (p : XmlProperty) : bool :=
  keptAttribute (xp_key p) && keptAttribute (xp_value p).

Definition boundsKept (b : XmlBounds) : bool :=
  optionalKept (xb_x b) && optionalKept (xb_y b) &&
  optionalKept (xb_width b) && optionalKept (xb_height b).

Definition bendpointKept (bp : XmlBendpoint) : bool :=
  optionalKept (xbp_x bp) && optionalKept (xbp_y bp).

Definition connectionKept (c : XmlConnection) : bool :=
  optionalKept (xc_xsi_type c) && keptAttribute (xc_id c) &&
  keptAttribute (xc_source c) && keptAttribute (xc_target c) &&
  optionalKept (xc_archimateRelationship c) &&
  forallb bendpointKept (xc_bendpoint c).

Fixpoint elementKept (e : XmlElement) : bool :=
  match e with
  | mkXmlElement xsiType name id source target accessType modifier
                 archimateElement documentation property bounds child
                 sourceConnection targetConnections =>
      optionalKept xsiType && optionalKept name && optionalKept id &&
      optionalKept source && optionalKept target && optionalKept accessType &&
      optionalKept modifier && optionalKept archimateElement &&
      optionalPlainText documentation && forallb propertyKept property &&
      match bounds with
      | Some b => boundsKept b
      | None => true
      end &&
      forallb elementKept child && forallb connectionKept sourceConnection &&
      optionalKept targetConnections
  end.

Fixpoint folderKept (f : XmlFolder) : bool :=
  match f with
  | mkXmlFolder name id type element folder =>
      keptAttribute name && keptAttribute id && optionalKept type &&
      forallb elementKept element && forallb folderKept folder
  end.

(** Every attribute value and every documentation of the document is
    kept. *)
Definition documentKept (doc : XmlModel) : bool :=
  match archimate_model doc with
  | Some root =>
      keptAttribute (xm_name root) && keptAttribute (xm_id root) &&
      optionalKept (xm_version root) && optionalPlainText (xm_documentation root) &&
      forallb folderKept (xm_folder root)
  | None => true
  end.

(** *** A parser for the examples: it trims a value, leaves the
    attribute [true] out, and reads a documentation as the exchange
    reader's parser reads a text. *)

Definition sampleAttributeValue (s : string) : option string :=
  if s =? "true" then None else Some (trim s).

Definition sampleNodeValue (s : string) : option string := sampleNodeText s.

End HierarchicalText.

(* ================================================================== *)
(** ** model/writer.ts, continued: model construction and updates *)

Module WriterOps.
Import JS Model Tables.

(** [createEmptyModel]: [generateId] draws random hexadecimal digits; the
    identifiers of its nine calls, in order, are [generated 0] to
    [generated 8]. *)
Definition createEmptyModel (generated : nat -> string) (name id : string)
  : ArchiMateModel :=
  {| model_id := id;
     model_name := name;
     model_version := "5.0.0";
     model_documentation := None;
     model_folders :=
       [ mkFolder (generated 0%nat) "Strategy" "strategy" [] [];
         mkFolder (generated 1%nat) "Business" "business" [] [];
         mkFolder (generated 2%nat) "Application" "application" [] [];
         mkFolder (generated 3%nat) "Technology & Physical" "technology" [] [];
         mkFolder (generated 4%nat) "Motivation" "motivation" [] [];
         mkFolder (generated 5%nat) "Implementation & Migration"
                  "implementation_migration" [] [];
         mkFolder (generated 6%nat) "Other" "other" [] [];
         mkFolder (generated 7%nat) "Relations" "relations" [] [];
         mkFolder (generated 8%nat) "Views" "diagrams" [] [] ];
     model_relationships := [];
     model_diagrams := [] |}.

Definition folderMap : list (string * string) :=
  [ ("Stakeholder", "motivation"); ("Driver", "motivation");
    ("Assessment", "motivation"); ("Goal", "motivation");
    ("Outcome", "motivation"); ("Principle", "motivation");
    ("Requirement", "motivation"); ("Constraint", "motivation");
    ("Meaning", "motivation"); ("Value", "motivation");
    ("Resource", "strategy"); ("Capability", "strategy");
    ("ValueStream", "strategy"); ("CourseOfAction", "strategy");
    ("BusinessActor", "business"); ("BusinessRole", "business");
    ("BusinessCollaboration", "business"); ("BusinessInterface", "business");
    ("BusinessProcess", "business"); ("BusinessFunction", "business");
    ("BusinessInteraction", "business"); ("BusinessEvent", "business");
    ("BusinessService", "business"); ("BusinessObject", "business");
    ("Contract", "business"); ("Representation", "business");
    ("Product", "business");
    ("ApplicationComponent", "application");
    ("ApplicationCollaboration", "application");
    ("ApplicationInterface", "application");
    ("ApplicationFunction", "application");
    ("ApplicationInteraction", "application");
    ("ApplicationProcess", "application");
    ("ApplicationEvent", "application");
    ("ApplicationService", "application");
    ("DataObject", "application");
    ("Node", "technology"); ("Device", "technology");
    ("SystemSoftware", "technology"); ("TechnologyCollaboration", "technology");
    ("TechnologyInterface", "technology"); ("Path", "technology");
    ("CommunicationNetwork", "technology"); ("TechnologyFunction", "technology");
    ("TechnologyProcess", "technology"); ("TechnologyInteraction", "technology");
    ("TechnologyEvent", "technology"); ("TechnologyService", "technology");
    ("Artifact", "technology"); ("Equipment", "technology");
    ("Facility", "technology"); ("DistributionNetwork", "technology");
    ("Material", "technology");
    ("WorkPackage", "implementation_migration");
    ("Deliverable", "implementation_migration");
    ("ImplementationEvent", "implementation_migration");
    ("Plateau", "implementation_migration");
    ("Gap", "implementation_migration");
    ("Grouping", "other"); ("Location", "other") ].

Definition getFolderTypeForElement (elementType : string) : string :=
  strOr (tableGet folderMap elementType) "other".

(** The local function [addToFolder] of [addElementToModel]: [None] is
    the result [false], and [Some folders] is the result [true] with the
    folders as they are after the push.  [addToFolderIn] is one turn of
    its loop. *)
Fixpoint addToFolderIn (folderType : string) (element : ArchiMateElement)
    (folder : ArchiMateFolder) : option ArchiMateFolder :=
  match folder with
  | mkFolder id name type elements subfolders =>
      if type =? folderType
      then Some (mkFolder id name type (elements ++ [element]) subfolders)
      else
        match
          (fix addToFolder (folders : list ArchiMateFolder)
             : option (list ArchiMateFolder) :=
             match folders with
             | [] => None
             | f :: rest =>
                 match addToFolderIn folderType element f with
                 | Some f' => Some (f' :: rest)
                 | None =>
                     match addToFolder rest with
                     | Some rest' => Some (f :: rest')
                     | None => None
                     end
                 end
             end) subfolders
        with
        | Some subfolders' => Some (mkFolder id name type elements subfolders')
        | None => None
        end
  end.

Fixpoint addToFolder (folderType : string) (element : ArchiMateElement)
    (folders : list ArchiMateFolder) : option (list ArchiMateFolder) :=
  match folders with
  | [] => None
  | f :: rest =>
      match addToFolderIn folderType element f with
      | Some f' => Some (f' :: rest)
      | None =>
          match addToFolder folderType element rest with
          | Some rest' => Some (f :: rest')
          | None => None
          end
      end
  end.

Definition setFolders (model : ArchiMateModel) (folders : list ArchiMateFolder)
  : ArchiMateModel :=
  {| model_id := model_id model;
     model_name := model_name model;
     model_version := model_version model;
     model_documentation := model_documentation model;
     model_folders := folders;
     model_relationships := model_relationships model;
     model_diagrams := model_diagrams model |}.

Definition addElementToModel (model : ArchiMateModel) (element : ArchiMateElement)
  : ArchiMateModel :=
  let folderType := getFolderTypeForElement (el_type element) in
  match addToFolder folderType element (model_folders model) with
  | Some folders => setFolders model folders
  | None => model
  end.

Definition addRelationshipToModel (model : ArchiMateModel)
    (relationship : ArchiMateRelationship) : ArchiMateModel :=
  {| model_id := model_id model;
     model_name := model_name model;
     model_version := model_version model;
     model_documentation := model_documentation model;
     model_folders := model_folders model;
     model_relationships := model_relationships model ++ [relationship];
     model_diagrams := model_diagrams model |}.

Definition addDiagramToModel (model : ArchiMateModel) (diagram : ArchiMateDiagram)
  : ArchiMateModel :=
  {| model_id := model_id model;
     model_name := model_name model;
     model_version := model_version model;
     model_documentation := model_documentation model;
     model_folders := model_folders model;
     model_relationships := model_relationships model;
     model_diagrams := model_diagrams model ++ [diagram] |}.

(** The [updates] argument of [updateElementInModel]: an absent field is
    [None]. *)
Record ElementUpdates : Type := {
  up_name : option string;
  up_documentation : option string;
  up_properties : option (list ArchiMateProperty)
}.

(** The three assignments made to the element that was found. *)
Definition applyUpdates (updates : ElementUpdates) (element : ArchiMateElement)
  : ArchiMateElement :=
  {| el_id := el_id element;
     el_type := el_type element;
     el_name :=
       match up_name updates with
       | Some n => n
       | None => el_name element
       end;
     el_documentation :=
       match up_documentation updates with
       | Some d => Some d
       | None => el_documentation element
       end;
     el_properties :=
       match up_properties updates with
       | Some ps => ps
       | None => el_properties element
       end |}.

(** [elements.find(e => e.id === elementId)] followed by the update of
    the element found: [None] when no element of the array has the
    identifier. *)
Fixpoint updateFirst (elementId : string) (updates : ElementUpdates)
    (elements : list ArchiMateElement) : option (list ArchiMateElement) :=
  match elements with
  | [] => None
  | e :: rest =>
      if el_id e =? elementId then Some (applyUpdates updates e :: rest)
      else
        match updateFirst elementId updates rest with
        | Some rest' => Some (e :: rest')
        | None => None
        end
  end.

(** The local function [updateInFolder] of [updateElementInModel], as
    [addToFolder] above. *)
Fixpoint updateInFolderIn (elementId : string) (updates : ElementUpdates)
    (folder : ArchiMateFolder) : option ArchiMateFolder :=
  match folder with
  | mkFolder id name type elements subfolders =>
      match updateFirst elementId updates elements with
      | Some elements' => Some (mkFolder id name type elements' subfolders)
      | None =>
          match
            (fix updateInFolder (folders : list ArchiMateFolder)
               : option (list ArchiMateFolder) :=
               match folders with
               | [] => None
               | f :: rest =>
                   match updateInFolderIn elementId updates f with
                   | Some f' => Some (f' :: rest)
                   | None =>
                       match updateInFolder rest with
                       | Some rest' => Some (f :: rest')
                       | None => None
                       end
                   end
               end) subfolders
          with
          | Some subfolders' => Some (mkFolder id name type elements subfolders')
          | None => None
          end
      end
  end.

Fixpoint updateInFolder (elementId : string) (updates : ElementUpdates)
    (folders : list ArchiMateFolder) : option (list ArchiMateFolder) :=
  match folders with
  | [] => None
  | f :: rest =>
      match updateInFolderIn elementId updates f with
      | Some f' => Some (f' :: rest)
      | None =>
          match updateInFolder elementId updates rest with
          | Some rest' => Some (f :: rest')
          | None => None
          end
      end
  end.

Definition updateElementInModel (model : ArchiMateModel) (elementId : string)
    (updates : ElementUpdates) : ArchiMateModel :=
  match updateInFolder elementId updates (model_folders model) with
  | Some folders => setFolders model folders
  | None => model
  end.

End WriterOps.

(* ================================================================== *)
(** ** model/parser.ts, continued: queries on a model *)

Module ParserQueries.
Import JS Model.

(** [getAllElements] of parser.ts is [Model.getAllElements]. *)
Definition getElementById (model : ArchiMateModel) (id : string)
  : option ArchiMateElement :=
  find (fun e => el_id e =? id) (getAllElements model).

Definition getElementsByType (model : ArchiMateModel) (type : string)
  : list ArchiMateElement :=
  filter (fun e => el_type e =? type) (getAllElements model).

Inductive Direction : Type := incoming | outgoing | both.

Definition getRelationshipsForElement (model : ArchiMateModel) (elementId : string)
    (direction : Direction) : list ArchiMateRelationship :=
  filter (fun r =>
            match direction with
            | outgoing => rel_sourceId r =? elementId
            | incoming => rel_targetId r =? elementId
            | both => (rel_sourceId r =? elementId) || (rel_targetId r =? elementId)
            end)
         (model_relationships model).

(** The local function [findFolder] of [getFolderByType]; [findFolderIn]
    is one turn of its loop. *)
Fixpoint findFolderIn (type : string) (folder : ArchiMateFolder)
  : option ArchiMateFolder :=
  match folder with
  | mkFolder _ _ ftype _ subfolders =>
      if ftype =? type then Some folder
      else
        (fix findFolder (folders : list ArchiMateFolder) : option ArchiMateFolder :=
           match folders with
           | [] => None
           | f :: rest =>
               match findFolderIn type f with
               | Some found => Some found
               | None => findFolder rest
               end
           end) subfolders
  end.

Fixpoint findFolder (type : string) (folders : list ArchiMateFolder)
  : option ArchiMateFolder :=
  match folders with
  | [] => None
  | f :: rest =>
      match findFolderIn type f with
      | Some found => Some found
      | None => findFolder type rest
      end
  end.

Definition getFolderByType (model : ArchiMateModel) (type : string)
  : option ArchiMateFolder :=
  findFolder type (model_folders model).

End ParserQueries.

(* ================================================================== *)
(** ** Vocabulary of the properties *)

Module Queries.
Import JS Types Model ExchangeText.

(** A diagram object and everything nested below it, depth first. *)
Fixpoint flattenObject (o : DiagramObject) : list DiagramObject :=
  match o with
  | mkDiagramObject _ _ _ _ _ children => o :: flat_map flattenObject children
  end.

Definition diagramObjects (d : ArchiMateDiagram) : list DiagramObject :=
  flat_map flattenObject (diag_objects d).

Definition allDiagramObjects (m : ArchiMateModel) : list DiagramObject :=
  flat_map diagramObjects (model_diagrams m).

Definition allConnections (m : ArchiMateModel) : list DiagramConnection :=
  flat_map obj_sourceConnections (allDiagramObjects m).

Definition relationshipsReferencing (elementId : string) (m : ArchiMateModel)
  : list ArchiMateRelationship :=
  filter (fun r => (rel_sourceId r =? elementId) || (rel_targetId r =? elementId))
         (model_relationships m).

Definition objectsReferencing (elementId : string) (m : ArchiMateModel)
  : list DiagramObject :=
  filter (fun o => obj_elementId o =? elementId) (allDiagramObjects m).

Definition connectionsReferencing (relationshipId : string) (m : ArchiMateModel)
  : list DiagramConnection :=
  filter (fun c => conn_relationshipId c =? relationshipId) (allConnections m).

(** What the round-trip properties compare. *)
Definition elementCore (e : ArchiMateElement)
  : string * string * string * option string :=
  (el_id e, el_type e, el_name e, el_documentation e).

Definition relationshipCore (r : ArchiMateRelationship)
  : string * string * option string * option string * string * string :=
  (rel_id r, rel_type r, rel_name r, rel_documentation r,
   rel_sourceId r, rel_targetId r).

(** A diagram object without its incoming-connection ids: identifier,
    element reference, bounds, outgoing connections with their
    bendpoints, and the children, recursively. *)
Fixpoint eraseIncoming (o : DiagramObject) : DiagramObject :=
  match o with
  | mkDiagramObject id elementId bounds conns _ children =>
      mkDiagramObject id elementId bounds conns [] (map eraseIncoming children)
  end.

Definition diagramGeometry (d : ArchiMateDiagram)
  : string * string * list DiagramObject :=
  (diag_id d, diag_name d, map eraseIncoming (diag_objects d)).

Definition nodeCore (o : DiagramObject) : string * string * DiagramBounds :=
  (obj_id o, obj_elementId o, obj_bounds o).

Definition diagramCore (d : ArchiMateDiagram)
  : string * string * option string * list (string * string * DiagramBounds) :=
  (diag_id d, diag_name d, diag_documentation d, map nodeCore (diagramObjects d)).

(** *** Conditions of the round trips *)

(** An optional text that is not the empty string. *)
Definition textOk (d : option string) : bool :=
  match d with
  | Some s => truthy s
  | None => true
  end.

Definition elementOk (e : ArchiMateElement) : bool :=
  includes AllElementTypes (el_type e) && textOk (el_documentation e).

Definition relationshipOk (r : ArchiMateRelationship) : bool :=
  includes RelationshipTypes (rel_type r) &&
  textOk (rel_name r) && textOk (rel_documentation r).

Fixpoint folderOk (f : ArchiMateFolder) : bool :=
  match f with
  | mkFolder _ _ _ elements subfolders =>
      forallb elementOk elements && forallb folderOk subfolders
  end.

Definition isEmpty {A : Type} (l : list A) : bool :=
  match l with
  | [] => true
  | _ :: _ => false
  end.

(** A top-level folder as the hierarchical writer treats it: the folder
    tagged relations holds nothing of its own, the folder tagged diagrams
    holds no element of its own. *)
Definition topFolderOk (f : ArchiMateFolder) : bool :=
  if folder_type f =? "relations" then
    isEmpty (folder_elements f) && isEmpty (folder_subfolders f)
  else if folder_type f =? "diagrams" then
    isEmpty (folder_elements f) && forallb folderOk (folder_subfolders f)
  else folderOk f.

Definition countTagged (tag : string) (folders : list ArchiMateFolder) : nat :=
  List.length (filter (fun f => folder_type f =? tag) folders).

Definition hierarchicalOk (m : ArchiMateModel) : bool :=
  forallb topFolderOk (model_folders m) &&
  forallb relationshipOk (model_relationships m) &&
  (isEmpty (model_relationships m) ||
   (countTagged "relations" (model_folders m) =? 1)%nat) &&
  (isEmpty (model_diagrams m) ||
   (countTagged "diagrams" (model_folders m) =? 1)%nat).

Definition isNum (n : number) : bool :=
  match n with
  | Num _ => true
  | NaN => false
  end.

(** Coordinates that are safe integers or [NaN]. *)
Definition boundsSafe (b : DiagramBounds) : bool :=
  safeNumber (x b) && safeNumber (y b) &&
  safeNumber (width b) && safeNumber (height b).

Definition connectionSafe (c : DiagramConnection) : bool :=
  forallb (fun bp => safeNumber (bp_x bp) && safeNumber (bp_y bp))
          (conn_bendpoints c).

Fixpoint objectSafe (o : DiagramObject) : bool :=
  match o with
  | mkDiagramObject _ _ bounds conns _ children =>
      boundsSafe bounds && forallb connectionSafe conns &&
      forallb objectSafe children
  end.

(** Every coordinate of a diagram object or bendpoint of the model,
    nested objects included, is a safe integer or [NaN]. *)
Definition coordinatesSafe (m : ArchiMateModel) : bool :=
  forallb (fun d => forallb objectSafe (diag_objects d)) (model_diagrams m).

Definition nodeOk (o : DiagramObject) : bool :=
  isNum (x (obj_bounds o)) && isNum (y (obj_bounds o)) &&
  truthyNum (width (obj_bounds o)) && truthyNum (height (obj_bounds o)).

Definition diagramOk (d : ArchiMateDiagram) : bool :=
  textOk (diag_documentation d) && forallb nodeOk (diagramObjects d).

Definition exchangeOk (m : ArchiMateModel) : bool :=
  forallb elementOk (getAllElements m) &&
  forallb relationshipOk (model_relationships m) &&
  forallb diagramOk (model_diagrams m).

(** The texts and the coordinates that the flat round trip compares are
    plain texts and safe integers. *)
Definition elementTextOk (e : ArchiMateElement) : bool :=
  plainText (el_id e) && plainText (el_name e) &&
  optionalPlainText (el_documentation e).

Definition relationshipTextOk (r : ArchiMateRelationship) : bool :=
  plainText (rel_id r) && plainText (rel_sourceId r) &&
  plainText (rel_targetId r) &&
  optionalPlainText (rel_name r) && optionalPlainText (rel_documentation r).

Definition nodeTextOk (o : DiagramObject) : bool :=
  plainText (obj_id o) && plainText (obj_elementId o) &&
  boundsSafe (obj_bounds o).

Definition diagramTextOk (d : ArchiMateDiagram) : bool :=
  plainText (diag_id d) && plainText (diag_name d) &&
  optionalPlainText (diag_documentation d) &&
  forallb nodeTextOk (diagramObjects d).

Definition exchangeTextOk (m : ArchiMateModel) : bool :=
  forallb elementTextOk (getAllElements m) &&
  forallb relationshipTextOk (model_relationships m) &&
  forallb diagramTextOk (model_diagrams m).

End Queries.

(* ================================================================== *)
(** ** Checks over the enumerations *)

Module Checks.
Import JS Types Validation Model Tables Parser.

(** The Assignment rule with WorkPackage as the source, checked for one
    target kind. *)
Definition workPackageAssignmentRejected (targetKind : string) : bool :=
  match isValidRelationship "WorkPackage" targetKind "Assignment" with
  | Ok false => true
  | _ => false
  end.

(** The qualified name written for an element kind is read back as that
    kind, and is neither a relationship name nor the diagram name. *)
Definition elementTypeRoundTrips (t : string) : bool :=
  match tableGet ElementTypeToXmlType t with
  | Some xsi =>
      match nonEmpty (Some xsi) with
      | Some xsi' =>
          match nonEmpty (tableGet XmlTypeToElementType xsi') with
          | Some t' => (t' =? t) && negb (isRelationshipType (Some xsi)) &&
                       negb (isDiagramType (Some xsi))
          | None => false
          end
      | None => false
      end
  | None => false
  end.

Definition relationshipTypeRoundTrips (t : string) : bool :=
  match tableGet RelationshipTypeToXmlType t with
  | Some xsi =>
      match nonEmpty (Some xsi) with
      | Some xsi' =>
          match nonEmpty (tableGet XmlTypeToRelationshipType xsi') with
          | Some t' => t' =? t
          | None => false
          end
      | None => false
      end
  | None => false
  end.

(** The bare name written for a relationship kind is read back as that
    kind by the flat reader. *)
Definition relationshipTypeMapped (t : string) : bool :=
  match ExchangeReader.mapRelationshipType t with
  | Some t' => t' =? t
  | None => false
  end.

(** The folders have one tagged other: [getFolderForType] then finds a
    folder for every kind of the enumeration. *)
Definition hasOther (fs : list ArchiMateFolder) : Prop :=
  ExchangeReader.findIndex (fun t => t =? "other") (map folder_type fs) <> None.

End Checks.

(* ================================================================== *)
(** ** Sample models *)

Module Samples.
Import JS Model.

Definition customer : ArchiMateElement :=
  {| el_id := "e1"; el_type := "BusinessActor"; el_name := "Customer";
     el_documentation := Some "Buys things"; el_properties := [] |}.

Definition ordering : ArchiMateElement :=
  {| el_id := "e2"; el_type := "BusinessProcess"; el_name := "Ordering";
     el_documentation := None;
     el_properties := [ {| key := "owner"; value := "sales" |} ] |}.

Definition order : ArchiMateElement :=
  {| el_id := "e3"; el_type := "DataObject"; el_name := "Order";
     el_documentation := None; el_properties := [] |}.

Definition assigned : ArchiMateRelationship :=
  {| rel_id := "r1"; rel_type := "Assignment";
     rel_sourceId := "e1"; rel_targetId := "e2";
     rel_name := None; rel_documentation := None;
     rel_accessType := None; rel_influenceModifier := None;
     rel_properties := [] |}.

Definition reads : ArchiMateRelationship :=
  {| rel_id := "r2"; rel_type := "Access";
     rel_sourceId := "e2"; rel_targetId := "e3";
     rel_name := Some "reads"; rel_documentation := Some "Reads the order";
     rel_accessType := Some Read; rel_influenceModifier := None;
     rel_properties := [] |}.

Definition box (px py w h : Z) : DiagramBounds :=
  {| x := Num px; y := Num py; width := Num w; height := Num h |}.

Definition readsConnection : DiagramConnection :=
  {| conn_id := "c1"; conn_sourceId := "o2"; conn_targetId := "o3";
     conn_relationshipId := "r2";
     conn_bendpoints := [ {| bp_x := Num 40; bp_y := Num (-12) |};
                          {| bp_x := Num 0; bp_y := Num 7 |} ] |}.

(** The process is drawn nested inside the actor. *)
Definition orderingObject : DiagramObject :=
  mkDiagramObject "o2" "e2" (box 10 20 120 55) [readsConnection] [] [].

Definition customerObject : DiagramObject :=
  mkDiagramObject "o1" "e1" (box 0 0 300 200) [] [] [orderingObject].

Definition orderObject : DiagramObject :=
  mkDiagramObject "o3" "e3" (box 400 30 120 55) [] ["c1"] [].

Definition overview : ArchiMateDiagram :=
  {| diag_id := "d1"; diag_name := "Overview"; diag_viewpoint := None;
     diag_documentation := None;
     diag_objects := [customerObject; orderObject] |}.

(** A model on the standard folder skeleton. *)
Definition sampleModel : ArchiMateModel :=
  {| model_id := "m1"; model_name := "Sample"; model_version := "5.0.0";
     model_documentation := Some "A small model";
     model_folders :=
       [ mkFolder "f1" "Business" "business" [customer]
           [ mkFolder "f1a" "Processes" "" [ordering] [] ];
         mkFolder "f2" "Application" "application" [order] [];
         mkFolder "f3" "Relations" "relations" [] [];
         mkFolder "f4" "Views" "diagrams" [] [] ];
     model_relationships := [assigned; reads];
     model_diagrams := [overview] |}.

(** The same content with no folder tagged relations or diagrams. *)
Definition looseModel : ArchiMateModel :=
  {| model_id := "m2"; model_name := "Loose"; model_version := "5.0.0";
     model_documentation := None;
     model_folders :=
       [ mkFolder "f1" "Business" "business" [customer; ordering] [];
         mkFolder "f2" "Application" "application" [order] [] ];
     model_relationships := [assigned; reads];
     model_diagrams := [overview] |}.

(** The loose model before its relationships and its diagram were
    added. *)
Definition elementsOnlyModel : ArchiMateModel :=
  {| model_id := "m2"; model_name := "Loose"; model_version := "5.0.0";
     model_documentation := None;
     model_folders :=
       [ mkFolder "f1" "Business" "business" [customer; ordering] [];
         mkFolder "f2" "Application" "application" [order] [] ];
     model_relationships := [];
     model_diagrams := [] |}.

(** An element whose documentation is the empty string. *)
Definition blankDoc : ArchiMateElement :=
  {| el_id := "e9"; el_type := "Goal"; el_name := "Grow";
     el_documentation := Some ""; el_properties := [] |}.

Definition blankDocModel : ArchiMateModel :=
  {| model_id := "m3"; model_name := "Blank"; model_version := "5.0.0";
     model_documentation := None;
     model_folders :=
       [ mkFolder "f0" "Motivation" "motivation" [blankDoc] [];
         mkFolder "f3" "Relations" "relations" [] [];
         mkFolder "f4" "Views" "diagrams" [] [] ];
     model_relationships := [];
     model_diagrams := [] |}.

(** The same element without documentation. *)
Definition absentDocModel : ArchiMateModel :=
  {| model_id := "m3"; model_name := "Blank"; model_version := "5.0.0";
     model_documentation := None;
     model_folders :=
       [ mkFolder "f0" "Motivation" "motivation"
           [ {| el_id := "e9"; el_type := "Goal"; el_name := "Grow";
                el_documentation := None; el_properties := [] |} ] [];
         mkFolder "f3" "Relations" "relations" [] [];
         mkFolder "f4" "Views" "diagrams" [] [] ];
     model_relationships := [];
     model_diagrams := [] |}.

(** Elements whose identifier is numeric, the word false, or padded, and
    an element without a name. *)
Definition goalNamed (id name : string) : ArchiMateElement :=
  {| el_id := id; el_type := "Goal"; el_name := name;
     el_documentation := None; el_properties := [] |}.

Definition oddTextModel : ArchiMateModel :=
  {| model_id := "m6"; model_name := "Odd"; model_version := "5.0.0";
     model_documentation := None;
     model_folders :=
       [ mkFolder "f0" "Motivation" "motivation"
           [ goalNamed "007" "Grow"; goalNamed "0" "Save"; goalNamed "false" "Sell";
             goalNamed " e4 " "Keep"; goalNamed "e5" "" ] [] ];
     model_relationships := [];
     model_diagrams := [] |}.

(** An element with a padded name and a documentation of digits. *)
Definition paddedTextModel : ArchiMateModel :=
  {| model_id := "m7"; model_name := "Padded"; model_version := "5.0.0";
     model_documentation := None;
     model_folders :=
       [ mkFolder "f0" "Motivation" "motivation"
           [ {| el_id := "e6"; el_type := "Goal"; el_name := " Grow ";
                el_documentation := Some "007"; el_properties := [] |} ] [] ];
     model_relationships := [];
     model_diagrams := [] |}.

(** Two element folders, the Application folder first. *)
Definition applicationFirstModel : ArchiMateModel :=
  {| model_id := "m5"; model_name := "Ordered"; model_version := "5.0.0";
     model_documentation := None;
     model_folders :=
       [ mkFolder "f2" "Application" "application" [order] [];
         mkFolder "f1" "Business" "business" [customer] [] ];
     model_relationships := [];
     model_diagrams := [] |}.

(** A diagram object of width zero. *)
Definition flatObject : DiagramObject :=
  mkDiagramObject "o7" "e9" (box 5 5 0 55) [] [] [].

Definition zeroWidthModel : ArchiMateModel :=
  {| model_id := "m4"; model_name := "Zero"; model_version := "5.0.0";
     model_documentation := None;
     model_folders := [];
     model_relationships := [];
     model_diagrams :=
       [ {| diag_id := "d7"; diag_name := "Line"; diag_viewpoint := None;
            diag_documentation := None; diag_objects := [flatObject] |} ] |}.

(** An Access relationship element whose access code is not in the
    reader's table. *)
Definition accessElement (code : string) : Xml.XmlElement :=
  Xml.mkXmlElement (Some "archimate:AccessRelationship") None (Some "r5")
    (Some "e2") (Some "e3") (Some code) None None None [] None [] [] None.

(** A folder of the document with an element, a relationship, an
    element of an unknown type and a subfolder. *)
Definition mixedFolder : Xml.XmlFolder :=
  Xml.mkXmlFolder "Mixed" "f9" (Some "business")
    [ Xml.mkXmlElement (Some "archimate:BusinessActor") (Some "Customer") (Some "e1")
        None None None None None None [] None [] [] None;
      accessElement "1";
      Xml.mkXmlElement (Some "archimate:Unicorn") (Some "Odd") (Some "e8")
        None None None None None None [] None [] [] None ]
    [ Xml.mkXmlFolder "Below" "f9a" None
        [ Xml.mkXmlElement (Some "archimate:DataObject") (Some "Order") (Some "e3")
            None None None None None None [] None [] [] None ] [] ].

(** A document with one element, whose type is the name of a member that
    every table inherits. *)
Definition inheritedNameDocument : Xml.XmlModel :=
  {| Xml.archimate_model :=
       Some {| Xml.xm_name := "Odd"; Xml.xm_id := "m8"; Xml.xm_version := None;
               Xml.xm_documentation := None;
               Xml.xm_folder :=
                 [ Xml.mkXmlFolder "Business" "f1" (Some "business")
                     [ Xml.mkXmlElement (Some "constructor") (Some "Odd") (Some "e0")
                         None None None None None None [] None [] [] None ] [] ] |} |}.

(** A path library. *)
Definition joinWithSlash (a b : string) : string := (a ++ "/" ++ b)%string.

(** A file system with a directory where the model file is expected. *)
Definition directoryAtPath : FileSystem :=
  fun p =>
    if p =? "repo/model.archimate"
    then Some (Throw "EISDIR: illegal operation on a directory, read")
    else None.

(** A parser for which every text is a document with an empty root model
    element. *)
Definition parseAsEmptyModel (text : string) : Xml.XmlModel :=
  {| Xml.archimate_model :=
       Some {| Xml.xm_id := ""; Xml.xm_name := ""; Xml.xm_version := None;
               Xml.xm_documentation := None; Xml.xm_folder := [] |} |}.

(** A file holding text that breaks off, and a parser that rejects it. *)
Definition brokenFile : FileSystem :=
  fun p => if p =? "repo/model.archimate" then Some (Ok "<archimate:model") else None.

Definition rejectingParser (text : string) : result Xml.XmlModel :=
  if text =? "<archimate:model" then Throw "Unexpected end of model"
  else Ok (parseAsEmptyModel text).

End Samples.

(* ================================================================== *)
(** * Properties *)

(** ** Membership tests *)

Lemma includes_In (l : list string) (x : string) :
  includes l x = true <-> In x l.
Proof.
  unfold includes. rewrite existsb_exists. split.
  - intros [y [Hy Heq]]. apply String.eqb_eq in Heq. now subst.
  - intros H. exists x. split; [assumption | apply String.eqb_refl].
Qed.

Lemma includes_false_not_In (l : list string) (x : string) :
  includes l x = false -> ~ In x l.
Proof.
  intros H Hin. apply includes_In in Hin. congruence.
Qed.

Lemma not_In_includes_false (l : list string) (x : string) :
  ~ In x l -> includes l x = false.
Proof.
  intros H. destruct (includes l x) eqn:E; [| reflexivity].
  apply includes_In in E. contradiction.
Qed.

Lemma includes_app (l1 l2 : list string) (x : string) :
  includes (l1 ++ l2) x = includes l1 x || includes l2 x.
Proof. unfold includes. apply existsb_app. Qed.

(** [sub] lists only members of [sup]. *)
Definition sublistb (sub sup : list string) : bool := forallb (includes sup) sub.

Lemma sublistb_includes (sub sup : list string) (x : string) :
  sublistb sub sup = true -> includes sub x = true -> includes sup x = true.
Proof.
  unfold sublistb. rewrite forallb_forall. intros H Hx.
  apply H. now apply includes_In.
Qed.

Lemma forallb_In {A : Type} (p : A -> bool) (l : list A) (a : A) :
  forallb p l = true -> In a l -> p a = true.
Proof. rewrite forallb_forall. auto. Qed.

Module ValidationFacts.
Import Types Validation.

(** *** The layer classifier *)

Lemma layer_throws_iff (kind : string) :
  getLayerForElementType kind = Throw ("Unknown element type: " ++ kind)%string <->
  includes AllElementTypes kind = false.
Proof.
  unfold getLayerForElementType, AllElementTypes.
  rewrite !includes_app.
  destruct (includes MotivationElementTypes kind),
           (includes StrategyElementTypes kind),
           (includes BusinessElementTypes kind),
           (includes ApplicationElementTypes kind),
           (includes TechnologyElementTypes kind),
           (includes ImplementationElementTypes kind),
           (includes CompositeElementTypes kind);
    cbv beta iota zeta delta [orb];
    try (destruct (includes _ kind); cbv iota);
    split; intro H; try discriminate H; reflexivity.
Qed.

Lemma layer_total (kind : string) :
  In kind AllElementTypes -> exists l, getLayerForElementType kind = Ok l.
Proof.
  intros Hin.
  destruct (getLayerForElementType kind) as [l | msg] eqn:E.
  - now exists l.
  - exfalso.
    assert (Hmsg : getLayerForElementType kind =
                   Throw ("Unknown element type: " ++ kind)%string).
    { revert E. unfold getLayerForElementType. cbv zeta.
      repeat match goal with
             | |- context [if ?c then _ else _] => destruct c
             end; intros E; try discriminate E; reflexivity. }
    apply layer_throws_iff in Hmsg.
    apply includes_In in Hin. congruence.
Qed.

(** *** The category classifier *)

Lemma category_cases (kind : string) :
  In (getElementCategory kind)
     [ "ActiveStructure"; "BehaviorInternal"; "BehaviorExternal"; "Event";
       "PassiveStructure"; "Strategy"; "Motivation"; "ImplementationMigration";
       "Composite" ].
Proof.
  unfold getElementCategory. cbv zeta.
  repeat match goal with
         | |- context [if ?c then _ else _] => destruct c
         end; simpl; tauto.
Qed.

Lemma category_default (kind : string) :
  includes AllElementTypes kind = false -> getElementCategory kind = "Composite".
Proof.
  intros Hout.
  assert (Hsub : forall l, sublistb l AllElementTypes = true -> includes l kind = false).
  { intros l Hl. destruct (includes l kind) eqn:E; [| reflexivity].
    rewrite (sublistb_includes _ _ _ Hl E) in Hout. discriminate. }
  unfold getElementCategory. cbv zeta.
  rewrite !Hsub by (vm_compute; reflexivity).
  reflexivity.
Qed.

End ValidationFacts.

Module ValidationTheorems.
Import Types Validation Checks ValidationFacts.

(** C1.  [validateRelationship('DataObject', 'BusinessActor', 'Assignment')]
    returns a result that is not valid, and its suggestions are exactly
    Realization, Serving, Association, Flow, in the order of the eleven
    relationship kinds that [getValidRelationshipTypes] filters
    (Composition, Aggregation, Assignment, Realization, Serving, Access,
    Influence, Association, Triggering, Flow, Specialization). *)
Theorem validate_DataObject_BusinessActor_Assignment :
  validateRelationship "DataObject" "BusinessActor" "Assignment" =
    Ok {| valid := false;
          error := Some "Assignment is not a valid relationship between DataObject and BusinessActor";
          suggestions := Some [ "Realization"; "Serving"; "Association"; "Flow" ] |}
  /\ getValidRelationshipTypes "DataObject" "BusinessActor" =
       filterM (isValidRelationship "DataObject" "BusinessActor")
         [ "Composition"; "Aggregation"; "Assignment"; "Realization"; "Serving";
           "Access"; "Influence"; "Association"; "Triggering"; "Flow";
           "Specialization" ].
Proof.
  split.
  - vm_compute. reflexivity.
  - reflexivity.
Qed.

(** C6.  [getLayerForElementType] returns a layer for every kind of the
    enumeration and throws the unknown-element-type error for every kind
    outside it; [getElementCategory] never throws, returns one of the ten
    categories for every kind, and returns Composite for every kind
    outside the enumeration. *)
Theorem layer_and_category_totality (kind : string) :
  (In kind AllElementTypes -> exists l, getLayerForElementType kind = Ok l) /\
  (~ In kind AllElementTypes ->
     getLayerForElementType kind = Throw ("Unknown element type: " ++ kind)%string) /\
  In (getElementCategory kind)
     [ "ActiveStructure"; "Interface"; "BehaviorInternal"; "BehaviorExternal";
       "Event"; "PassiveStructure"; "Strategy"; "Motivation";
       "ImplementationMigration"; "Composite" ] /\
  (~ In kind AllElementTypes -> getElementCategory kind = "Composite").
Proof.
  repeat split.
  - apply layer_total.
  - intros Hout. apply layer_throws_iff. now apply not_In_includes_false.
  - pose proof (category_cases kind) as H. simpl in H |- *. tauto.
  - intros Hout. apply category_default. now apply not_In_includes_false.
Qed.

Lemma layer_and_category_totality_witness :
  (exists l, getLayerForElementType "BusinessActor" = Ok l) /\
  getLayerForElementType "Unicorn" = Throw "Unknown element type: Unicorn" /\
  getElementCategory "Unicorn" = "Composite".
Proof.
  assert (Hin : In "BusinessActor" AllElementTypes).
  { apply includes_In. vm_compute. reflexivity. }
  assert (Hout : ~ In "Unicorn" AllElementTypes).
  { apply includes_false_not_In. vm_compute. reflexivity. }
  destruct (layer_and_category_totality "BusinessActor") as [H1 _].
  destruct (layer_and_category_totality "Unicorn") as [_ [H2 [_ H3]]].
  split; [exact (H1 Hin) | split; [exact (H2 Hout) | exact (H3 Hout)]].
Defined.

(** C9.  For element kinds of the enumeration,
    [isValidRelationship(source, target, 'Specialization')] returns true
    if and only if the two kinds are equal. *)
Theorem specialization_valid_iff_same_kind (sourceKind targetKind : string) :
  In sourceKind AllElementTypes ->
  In targetKind AllElementTypes ->
  (exists b, isValidRelationship sourceKind targetKind "Specialization" = Ok b) /\
  (isValidRelationship sourceKind targetKind "Specialization" = Ok true <->
   sourceKind = targetKind).
Proof.
  intros Hs Ht.
  destruct (layer_total sourceKind Hs) as [ls Els].
  destruct (layer_total targetKind Ht) as [lt Elt].
  assert (E : isValidRelationship sourceKind targetKind "Specialization" =
              Ok (sourceKind =? targetKind)).
  { unfold isValidRelationship. rewrite Els, Elt. reflexivity. }
  rewrite E. split.
  - eexists. reflexivity.
  - split.
    + intros H. injection H as H. now apply String.eqb_eq.
    + intros ->. now rewrite String.eqb_refl.
Qed.

Lemma specialization_valid_iff_same_kind_witness :
  isValidRelationship "Goal" "Goal" "Specialization" = Ok true /\
  isValidRelationship "Goal" "Driver" "Specialization" <> Ok true.
Proof.
  assert (Hg : In "Goal" AllElementTypes) by (apply includes_In; vm_compute; reflexivity).
  assert (Hd : In "Driver" AllElementTypes) by (apply includes_In; vm_compute; reflexivity).
  split.
  - apply (proj2 (specialization_valid_iff_same_kind "Goal" "Goal" Hg Hg)). reflexivity.
  - intros H.
    apply (proj2 (specialization_valid_iff_same_kind "Goal" "Driver" Hg Hd)) in H.
    discriminate H.
Defined.

(** C10.  For every target kind of the enumeration,
    [isValidRelationship('WorkPackage', target, 'Assignment')] returns
    false: the category of WorkPackage is ImplementationMigration, which
    none of the three branches of the Assignment rule accepts. *)
Theorem workpackage_never_assignment_source (targetKind : string) :
  In targetKind AllElementTypes ->
  isValidRelationship "WorkPackage" targetKind "Assignment" = Ok false /\
  getElementCategory "WorkPackage" = "ImplementationMigration".
Proof.
  intros Ht. split; [| reflexivity].
  assert (Hall : forallb workPackageAssignmentRejected AllElementTypes = true)
    by (vm_compute; reflexivity).
  pose proof (forallb_In _ _ _ Hall Ht) as H.
  unfold workPackageAssignmentRejected in H.
  destruct (isValidRelationship "WorkPackage" targetKind "Assignment") as [[|]|];
    try discriminate H; reflexivity.
Qed.

Lemma workpackage_never_assignment_source_witness :
  isValidRelationship "WorkPackage" "BusinessRole" "Assignment" = Ok false.
Proof.
  apply (workpackage_never_assignment_source "BusinessRole").
  apply includes_In. vm_compute. reflexivity.
Defined.

End ValidationTheorems.

(* ================================================================== *)
(** ** Decimal printing and [parseInt] *)

Module JSFacts.
Import JS.

Lemma digitValue_digitChar (d : N) :
  (d < 10)%N -> digitValue (digitChar d) = Some d.
Proof.
  intros Hd.
  assert (H : (d = 0 \/ d = 1 \/ d = 2 \/ d = 3 \/ d = 4 \/
               d = 5 \/ d = 6 \/ d = 7 \/ d = 8 \/ d = 9)%N) by lia.
  repeat (destruct H as [-> | H]; [reflexivity |]).
  subst. reflexivity.
Qed.

Lemma mod10_lt (n : N) : (n mod 10 < 10)%N.
Proof. apply N.mod_lt. discriminate. Qed.

Lemma div10_bound (n : N) (f : nat) :
  (n < 2 ^ N.of_nat (S f))%N -> (n / 10 < 2 ^ N.of_nat f)%N.
Proof.
  intros H. apply N.Div0.div_lt_upper_bound.
  rewrite Nat2N.inj_succ, N.pow_succ_r' in H. lia.
Qed.

(** Reading back the digits of [n] multiplies the accumulator by a power
    of ten and adds [n]. *)
Lemma parseDigits_digitsAux (fuel : nat) :
  forall n : N, (n < 2 ^ N.of_nat fuel)%N ->
  exists k : N, forall (rest : string) (acc : N),
    parseDigits (digitsAux fuel n rest) acc = parseDigits rest (acc * k + n).
Proof.
  induction fuel as [| f IH]; intros n Hn.
  - exists 1%N. intros rest acc. simpl in *.
    replace (acc * 1 + n)%N with acc by lia. reflexivity.
  - simpl digitsAux. destruct (n / 10 =? 0)%N eqn:Hq.
    + exists 10%N. intros rest acc. simpl.
      rewrite (digitValue_digitChar _ (mod10_lt n)).
      apply N.eqb_eq in Hq.
      pose proof (N.div_mod n 10 ltac:(discriminate)) as Hdm.
      f_equal. lia.
    + destruct (IH (n / 10)%N (div10_bound n f Hn)) as [k Hk].
      exists (k * 10)%N. intros rest acc.
      rewrite Hk. simpl.
      rewrite (digitValue_digitChar _ (mod10_lt n)).
      pose proof (N.div_mod n 10 ltac:(discriminate)) as Hdm.
      f_equal. lia.
Qed.

Lemma digitsAux_head (fuel : nat) :
  forall (n : N) (rest : string),
  exists c s d, digitsAux (S fuel) n rest = String c s /\ digitValue c = Some d.
Proof.
  induction fuel as [| f IH]; intros n rest.
  - simpl. exists (digitChar (n mod 10)), rest, (n mod 10)%N.
    split; [now destruct (n / 10 =? 0)%N | apply digitValue_digitChar, mod10_lt].
  - change (digitsAux (S (S f)) n rest)
      with (if (n / 10 =? 0)%N then String (digitChar (n mod 10)) rest
            else digitsAux (S f) (n / 10) (String (digitChar (n mod 10)) rest)).
    destruct (n / 10 =? 0)%N.
    + exists (digitChar (n mod 10)), rest, (n mod 10)%N.
      split; [reflexivity | apply digitValue_digitChar, mod10_lt].
    + apply IH.
Qed.

Lemma parseUnsigned_digitsOfN (n : N) :
  parseUnsigned (digitsOfN n) = Some n.
Proof.
  unfold digitsOfN.
  destruct (digitsAux_head (N.to_nat (N.size n)) n "") as [c [s [d [Hd Hc]]]].
  unfold parseUnsigned. rewrite Hd, Hc, <- Hd.
  assert (Hn : (n < 2 ^ N.of_nat (S (N.to_nat (N.size n))))%N).
  { rewrite Nat2N.inj_succ, N2Nat.id, N.pow_succ_r'.
    pose proof (N.size_gt n). lia. }
  destruct (parseDigits_digitsAux _ n Hn) as [k Hk].
  rewrite Hk. simpl. reflexivity.
Qed.

Lemma digit_not_special (c : ascii) (d : N) :
  digitValue c = Some d ->
  isWhitespace c = false /\ Ascii.eqb c "-" = false /\ Ascii.eqb c "+" = false.
Proof.
  destruct c as [[] [] [] [] [] [] [] []]; vm_compute; intros H;
    try discriminate H; repeat split.
Qed.

Lemma digitsOfN_head (n : N) :
  exists c s d, digitsOfN n = String c s /\ digitValue c = Some d.
Proof. apply digitsAux_head. Qed.

Lemma safe_below_exponent (z : Z) :
  isSafeInteger z = true -> (Z.abs z <? exponentFrom)%Z = true.
Proof.
  unfold isSafeInteger, MAX_SAFE_INTEGER, exponentFrom. intros H.
  apply Z.leb_le in H. apply Z.ltb_lt. lia.
Qed.

(** [parseInt(String(n), 10)] is [n] for [NaN] and for every safe
    integer. *)
Lemma parseInt_String (n : number) :
  safeNumber n = true -> parseInt (String_ n) = n.
Proof.
  destruct n as [z |]; [| reflexivity].
  cbn [safeNumber]. intros Hsafe.
  unfold String_. cbv zeta. rewrite (safe_below_exponent z Hsafe).
  destruct (digitsOfN_head (Z.abs_N z)) as [c [s [d [Hd Hc]]]].
  destruct (digit_not_special c d Hc) as [Hw [Hm Hp]].
  destruct (z <? 0)%Z eqn:Hz.
  - unfold parseInt. simpl skipWhitespace. cbv beta iota zeta.
    change (Ascii.eqb "-" "-") with true. cbv iota.
    rewrite parseUnsigned_digitsOfN.
    apply Z.ltb_lt in Hz. f_equal. rewrite N2Z.inj_abs_N. lia.
  - unfold parseInt.
    assert (Hs : skipWhitespace (digitsOfN (Z.abs_N z)) = digitsOfN (Z.abs_N z)).
    { rewrite Hd. simpl. now rewrite Hw. }
    rewrite Hs. cbv zeta. rewrite Hd at 1. rewrite Hm, Hp.
    rewrite parseUnsigned_digitsOfN.
    apply Z.ltb_ge in Hz. f_equal. rewrite N2Z.inj_abs_N. lia.
Qed.

(** From 10^21 on the exponent notation is read back as its first
    digits only. *)
Lemma parseInt_String_exponent :
  String_ (Num exponentFrom) = "1e+21" /\
  parseInt (String_ (Num exponentFrom)) = Num 1 /\
  String_ (Num (-1500000000000000000000)) = "-1.5e+21" /\
  parseInt (String_ (Num (-1500000000000000000000))) = Num (-1) /\
  String_ (Num (exponentFrom - 1)) = "999999999999999999999".
Proof. vm_compute. repeat split; reflexivity. Qed.

Lemma strOr_nonEmpty (s : string) : strOr (nonEmpty (Some s)) "" = s.
Proof.
  simpl. unfold truthy. destruct (s =? "") eqn:E; simpl.
  - apply String.eqb_eq in E. now subst.
  - unfold truthy. now rewrite E.
Qed.

Lemma String_truthy (n : number) : truthy (String_ n) = true.
Proof.
  destruct n as [z |]; [| reflexivity].
  unfold String_. cbv zeta.
  destruct (z <? 0)%Z; [reflexivity |].
  destruct (digitsOfN_head (Z.abs_N z)) as [c [s [d [Hd _]]]].
  rewrite Hd.
  destruct (Z.abs z <? exponentFrom)%Z; [reflexivity |].
  unfold exponentForm.
  now destruct (reverse (dropZeros (reverse s "")) "" =? "").
Qed.

(** An attribute written as [String(n)] and read back with
    [parseInt(attr || default, 10)]. *)
Lemma parseInt_strOr_String (n : number) (d : string) :
  safeNumber n = true -> parseInt (strOr (Some (String_ n)) d) = n.
Proof.
  intros H. unfold strOr. rewrite String_truthy. now apply parseInt_String.
Qed.

End JSFacts.

(* ================================================================== *)
(** ** Cascading deletes *)

Module MutationFacts.
Import JS Model Writer Queries Samples.

(** After [removeElementFromModel] no relationship has the element as
    its source or target. *)
Lemma removeElement_no_relationship (m : ArchiMateModel) (elementId : string) :
  relationshipsReferencing elementId (removeElementFromModel m elementId) = [].
Proof.
  unfold relationshipsReferencing, removeElementFromModel. simpl.
  induction (model_relationships m) as [| r rs IH]; [reflexivity |].
  simpl.
  destruct (rel_sourceId r =? elementId) eqn:Es; simpl; [exact IH |].
  destruct (rel_targetId r =? elementId) eqn:Et; simpl; [exact IH |].
  rewrite Es, Et. simpl. exact IH.
Qed.

(** After [removeElementFromModel] no top-level object of any diagram
    references the element. *)
Lemma removeElement_no_top_level_object (m : ArchiMateModel) (elementId : string) :
  forall d o,
    In d (model_diagrams (removeElementFromModel m elementId)) ->
    In o (diag_objects d) ->
    obj_elementId o <> elementId.
Proof.
  intros d o Hd Ho. unfold removeElementFromModel in Hd. simpl in Hd.
  apply in_map_iff in Hd. destruct Hd as [d0 [<- _]].
  simpl in Ho. apply filter_In in Ho. destruct Ho as [_ Hne].
  apply negb_true_iff, String.eqb_neq in Hne. exact Hne.
Qed.

(** After [removeRelationshipFromModel] no relationship has the removed
    identifier and no top-level object holds a connection to it. *)
Lemma removeRelationship_top_level (m : ArchiMateModel) (relationshipId : string) :
  (forall r, In r (model_relationships (removeRelationshipFromModel m relationshipId)) ->
             rel_id r <> relationshipId) /\
  (forall d o c,
     In d (model_diagrams (removeRelationshipFromModel m relationshipId)) ->
     In o (diag_objects d) ->
     In c (obj_sourceConnections o) ->
     conn_relationshipId c <> relationshipId).
Proof.
  split.
  - intros r Hr. unfold removeRelationshipFromModel in Hr. simpl in Hr.
    apply filter_In in Hr. destruct Hr as [_ Hne].
    apply negb_true_iff, String.eqb_neq in Hne. exact Hne.
  - intros d o c Hd Ho Hc. unfold removeRelationshipFromModel in Hd. simpl in Hd.
    apply in_map_iff in Hd. destruct Hd as [d0 [<- _]].
    simpl in Ho. apply in_map_iff in Ho. destruct Ho as [o0 [<- _]].
    simpl in Hc. apply filter_In in Hc. destruct Hc as [_ Hne].
    apply negb_true_iff, String.eqb_neq in Hne. exact Hne.
Qed.

(** C4.  [removeElementFromModel] at the sample model and the element
    "e2", which is an end of both relationships and is drawn as a child
    of another diagram object: no relationship references "e2"
    afterwards, but the nested diagram object "o2" that references it is
    still in the diagram. *)
Theorem removeElement_keeps_nested_object :
  map rel_id (relationshipsReferencing "e2" sampleModel) = ["r1"; "r2"] /\
  map obj_id (objectsReferencing "e2" sampleModel) = ["o2"] /\
  relationshipsReferencing "e2" (removeElementFromModel sampleModel "e2") = [] /\
  map obj_id (objectsReferencing "e2" (removeElementFromModel sampleModel "e2")) = ["o2"].
Proof. repeat split. Qed.

(** C5.  [removeRelationshipFromModel] at the sample model and the
    relationship "r2", whose connection "c1" is held by a nested diagram
    object: the relationship is gone afterwards, but the connection that
    references it is still in the diagram. *)
Theorem removeRelationship_keeps_nested_connection :
  map conn_id (connectionsReferencing "r2" sampleModel) = ["c1"] /\
  map rel_id (model_relationships (removeRelationshipFromModel sampleModel "r2")) = ["r1"] /\
  map conn_id (connectionsReferencing "r2" (removeRelationshipFromModel sampleModel "r2"))
    = ["c1"].
Proof. repeat split. Qed.

End MutationFacts.

(* ================================================================== *)
(** ** The hierarchical reader: access codes and failures *)

Module ParserFacts.
Import JS Model Xml Tables Parser Samples.

(** The six listed access codes are decoded as the table says. *)
Lemma parseRelationship_listed_access_codes :
  map (fun code => option_map rel_accessType (parseRelationship (accessElement code)))
      [ "1"; "read"; "2"; "write"; "3"; "readWrite" ]
  = [ Some (Some Read); Some (Some Read); Some (Some Write); Some (Some Write);
      Some (Some ReadWrite); Some (Some ReadWrite) ].
Proof. reflexivity. Qed.

(** A code that is neither in the table nor the name of an inherited
    member leaves the access type undefined. *)
Lemma parseRelationship_unlisted_access_code (code : string) :
  ~ In code [ "1"; "2"; "3"; "read"; "write"; "readWrite" ] ->
  includes inheritedKeys code = false ->
  option_map rel_accessType (parseRelationship (accessElement code)) = Some None.
Proof.
  intros Hout Hown.
  assert (Hl : accessGet code = None).
  { unfold accessGet, accessMap. cbn [lookup].
    repeat match goal with
           | |- context [code =? ?k] =>
               destruct (String.eqb_spec code k) as [-> | _];
               [exfalso; apply Hout; simpl; tauto |]
           end.
    now rewrite Hown. }
  change (option_map rel_accessType (parseRelationship (accessElement code)))
    with (Some (match nonEmpty (Some code) with
                | Some c => accessGet c
                | None => None
                end)).
  unfold nonEmpty. destruct (truthy code); [rewrite Hl |]; reflexivity.
Qed.

(** At the name of an inherited member the table gives that member, and
    the relationship carries it as its access type. *)
Lemma parseRelationship_inherited_access_code :
  option_map rel_accessType (parseRelationship (accessElement "constructor"))
  = Some (Some (NotAnAccessType "function Object() { [native code] }")).
Proof. reflexivity. Qed.

(** C7.  [parseRelationship] at an Access relationship element whose
    accessType attribute is "4": the six listed codes aside, the code is
    looked up in the table and nothing is found, so the decoded access
    type is undefined, not ReadWrite. *)
Theorem parseRelationship_access_code_4 :
  option_map rel_accessType (parseRelationship (accessElement "4")) = Some None /\
  option_map rel_type (parseRelationship (accessElement "4")) = Some "Access" /\
  option_map rel_accessType (parseRelationship (accessElement "3")) = Some (Some ReadWrite).
Proof. repeat split. Qed.

(** C8, as amended.  Each reader of the hierarchical format throws the
    file-not-found error, naming the path, when nothing exists at the
    path; throws the error of the file system when the path exists but
    cannot be read, and the error of the XML parser when the text cannot
    be parsed; throws the invalid-document error when the parsed document
    has no root model element; and returns a model in every other case. *)
Theorem read_outcome_by_case
    (xmlParseListed xmlParse : string -> result XmlModel)
    (pathJoin : string -> string -> string)
    (fs : FileSystem) (modelPath : string) :
  let filePath := modelFilePath pathJoin modelPath in
  readOutcome fs filePath xmlParseListed
    (parseModel xmlParseListed pathJoin fs modelPath) /\
  readOutcome fs filePath xmlParse
    (parseModelComplete xmlParse pathJoin fs modelPath).
Proof.
  intros filePath.
  unfold readOutcome, parseModel, parseModelComplete, existsSync, readFile.
  fold filePath.
  destruct (fs filePath) as [[xmlContent | readError] |];
    [| split; reflexivity | split; reflexivity].
  cbn [negb bind]. split.
  - destruct (xmlParseListed xmlContent) as [parsed | parseError]; [| reflexivity].
    cbn [bind]. unfold parseModel_parsed.
    destruct (archimate_model parsed) as [root |]; [| reflexivity].
    match goal with
    | |- context [fold_left ?f ?l ?a] => destruct (fold_left f l a) as [[fs' rs'] ds']
    end.
    eexists. reflexivity.
  - destruct (xmlParse xmlContent) as [parsed | parseError]; [| reflexivity].
    cbn [bind]. unfold parseModelComplete_parsed.
    destruct (archimate_model parsed) as [root |]; [| reflexivity].
    destruct (processFolders (toArray (xm_folder root)) ([], [])) as [fs' [rs' ds']].
    eexists. reflexivity.
Qed.

(** C8, as stated, fails at a path that exists and cannot be read as a
    file, here a directory named like a model file: something exists at
    the path and the parser finds a root model element in every text,
    and yet both readers fail, with the error of the file system. *)
Lemma read_fails_on_unreadable_path :
  existsSync directoryAtPath "repo/model.archimate" = true /\
  (forall text, exists root, archimate_model (parseAsEmptyModel text) = Some root) /\
  parseModel (fun text => Ok (parseAsEmptyModel text)) joinWithSlash
    directoryAtPath "repo"
    = Throw "EISDIR: illegal operation on a directory, read" /\
  parseModelComplete (fun text => Ok (parseAsEmptyModel text)) joinWithSlash
    directoryAtPath "repo"
    = Throw "EISDIR: illegal operation on a directory, read".
Proof.
  split; [reflexivity |]. split; [| split; reflexivity].
  intros text. eexists. reflexivity.
Qed.

(** A file whose text the parser rejects: both readers fail with the
    parser's error. *)
Lemma read_fails_on_unparsable_text :
  parseModel rejectingParser joinWithSlash brokenFile "repo"
    = Throw "Unexpected end of model" /\
  parseModelComplete rejectingParser joinWithSlash brokenFile "repo"
    = Throw "Unexpected end of model".
Proof. split; reflexivity. Qed.

End ParserFacts.

(* ================================================================== *)
(** ** Round trip through the hierarchical codec *)

Module HierarchicalFacts.
Import JS JSFacts Types Model Xml Tables Writer Parser Queries Checks.

Lemma list_all_Forall {A : Type} (P : A -> Prop) (l : list A) :
  list_all A P l -> Forall P l.
Proof. induction 1; constructor; assumption. Qed.

Lemma strOr_Some_empty (s : string) : strOr (Some s) "" = s.
Proof.
  unfold strOr, truthy. destruct (String.eqb_spec s ""); simpl; congruence.
Qed.

Lemma nonEmpty_textOk (d : option string) :
  textOk d = true -> nonEmpty d = d.
Proof.
  destruct d as [s |]; simpl; [| reflexivity].
  intros H. now rewrite H.
Qed.

Lemma eqb_true_eq (a b : string) : (a =? b) = true -> a = b.
Proof. apply String.eqb_eq. Qed.

(** *** Name tables *)

Lemma element_types_round_trip :
  forallb elementTypeRoundTrips AllElementTypes = true.
Proof. vm_compute. reflexivity. Qed.

Lemma relationship_types_round_trip :
  forallb relationshipTypeRoundTrips RelationshipTypes = true.
Proof. vm_compute. reflexivity. Qed.

(** *** Elements and folders *)

Lemma parseProperties_buildProperties (props : list ArchiMateProperty) :
  parseProperties (buildProperties props) = props.
Proof.
  unfold parseProperties, buildProperties, toArray. rewrite map_map.
  rewrite <- (map_id props) at 2. apply map_ext.
  intros [k v]. reflexivity.
Qed.

Lemma parseElement_buildElement (e : ArchiMateElement) :
  elementOk e = true ->
  parseElement (buildElement e) = Some e /\
  isRelationshipType (xe_xsi_type (buildElement e)) = false /\
  isDiagramType (xe_xsi_type (buildElement e)) = false.
Proof.
  unfold elementOk. intros H. apply andb_prop in H. destruct H as [Ht Hd].
  apply includes_In in Ht.
  pose proof (forallb_In _ _ _ element_types_round_trip Ht) as Hrt.
  unfold elementTypeRoundTrips in Hrt.
  unfold parseElement. cbn [buildElement xe_xsi_type xe_id xe_name xe_documentation xe_property].
  destruct (tableGet ElementTypeToXmlType (el_type e)) as [xsi |]; [| discriminate].
  destruct (nonEmpty (Some xsi)) as [xsi' |]; [| discriminate].
  destruct (nonEmpty (tableGet XmlTypeToElementType xsi')) as [t' |]; [| discriminate].
  apply andb_prop in Hrt. destruct Hrt as [Hrt Hdg].
  apply andb_prop in Hrt. destruct Hrt as [Heq Hrl].
  apply eqb_true_eq in Heq. subst t'.
  apply negb_true_iff in Hrl. apply negb_true_iff in Hdg.
  repeat split; try assumption.
  rewrite !strOr_Some_empty, parseProperties_buildProperties, (nonEmpty_textOk _ Hd).
  destruct e. reflexivity.
Qed.

Lemma processElements_buildElements (es : list ArchiMateElement) (st : Collected) :
  forallb elementOk es = true ->
  processElements (map buildElement es) st = (es, st).
Proof.
  induction es as [| e es IH]; intros H; [reflexivity |].
  simpl in H. apply andb_prop in H. destruct H as [He Hes].
  destruct (parseElement_buildElement e He) as [Hp [Hr Hd]].
  destruct st as [rs ds].
  cbn [map processElements]. rewrite Hr, Hd, Hp, (IH Hes). reflexivity.
Qed.

(** The loop over the subfolders inside [processFolder] is
    [processFolders]. *)
Lemma processFolder_eq (name id : string) (type : option string)
    (element : list XmlElement) (folder : list XmlFolder) (st : Collected) :
  processFolder (mkXmlFolder name id type element folder) st =
    let '(elements, st1) := processElements (toArray element) st in
    let '(subfolders, st2) := processFolders (toArray folder) st1 in
    ({| folder_id := id;
        folder_name := name;
        folder_type := strOr type "";
        folder_elements := elements;
        folder_subfolders := subfolders |}, st2).
Proof.
  cbn [processFolder].
  destruct (processElements (toArray element) st) as [elements st1].
  match goal with
  | |- (let '(_, _) := ?F _ _ in _) = _ =>
      assert (Hsubs : forall l s, F l s = processFolders l s)
  end.
  { induction l as [| sub rest IH]; intros s; [reflexivity |].
    cbn [processFolders]. destruct (processFolder sub s) as [f s'].
    rewrite IH. reflexivity. }
  rewrite Hsubs. reflexivity.
Qed.

Lemma processFolder_buildFolder (f : ArchiMateFolder) :
  folderOk f = true ->
  forall st, processFolder (buildFolder f) st = (f, st).
Proof.
  induction f as [id name type elements subfolders IH].
  intros Hok st. cbn [folderOk] in Hok.
  apply andb_prop in Hok. destruct Hok as [Hes Hsubs].
  cbn [buildFolder]. rewrite processFolder_eq. unfold toArray.
  rewrite (processElements_buildElements _ _ Hes).
  assert (Hfs : forall s, processFolders (map buildFolder subfolders) s = (subfolders, s)).
  { apply list_all_Forall in IH. clear Hes.
    induction IH as [| sub rest Hsub _ IHrest]; intros s; [reflexivity |].
    cbn [forallb] in Hsubs. apply andb_prop in Hsubs. destruct Hsubs as [H1 H2].
    cbn [map processFolders]. rewrite (Hsub H1 s), (IHrest H2 s). reflexivity. }
  rewrite Hfs. f_equal. f_equal. apply strOr_nonEmpty.
Qed.

Lemma processFolders_buildFolders (fs : list ArchiMateFolder) (st : Collected) :
  forallb folderOk fs = true ->
  processFolders (map buildFolder fs) st = (fs, st).
Proof.
  induction fs as [| f fs IH]; intros H; [reflexivity |].
  cbn [forallb] in H. apply andb_prop in H. destruct H as [H1 H2].
  cbn [map processFolders].
  rewrite (processFolder_buildFolder f H1 st), (IH H2). reflexivity.
Qed.

(** *** Relationships *)

Lemma parseRelationship_buildRelationship (r : ArchiMateRelationship) :
  relationshipOk r = true ->
  exists r',
    parseRelationship (buildRelationship r) = Some r' /\
    relationshipCore r' = relationshipCore r /\
    isRelationshipType (xe_xsi_type (buildRelationship r)) = true.
Proof.
  unfold relationshipOk. intros H.
  apply andb_prop in H. destruct H as [H Hd].
  apply andb_prop in H. destruct H as [Ht Hn].
  apply includes_In in Ht.
  pose proof (forallb_In _ _ _ relationship_types_round_trip Ht) as Hrt.
  unfold relationshipTypeRoundTrips in Hrt.
  unfold parseRelationship, isRelationshipType.
  cbn [buildRelationship xe_xsi_type xe_id xe_name xe_documentation xe_property
       xe_source xe_target xe_accessType xe_modifier].
  destruct (tableGet RelationshipTypeToXmlType (rel_type r)) as [xsi |]; [| discriminate].
  destruct (nonEmpty (Some xsi)) as [xsi' |]; [| discriminate].
  destruct (nonEmpty (tableGet XmlTypeToRelationshipType xsi')) as [t' |]; [| discriminate].
  apply eqb_true_eq in Hrt. subst t'.
  eexists. split; [reflexivity |]. split; [| reflexivity].
  unfold relationshipCore.
  cbn [rel_id rel_type rel_name rel_documentation rel_sourceId rel_targetId].
  rewrite !strOr_Some_empty, (nonEmpty_textOk _ Hn), (nonEmpty_textOk _ Hd).
  reflexivity.
Qed.

Lemma processElements_relationships (rs : list ArchiMateRelationship) :
  forallb relationshipOk rs = true ->
  forall relationships diagrams,
    processElements (map buildRelationship rs) (relationships, diagrams) =
    ([], (relationships ++ pushEach parseRelationship (map buildRelationship rs),
          diagrams)).
Proof.
  induction rs as [| r rs IH]; intros H relationships diagrams.
  - cbn. now rewrite app_nil_r.
  - cbn [forallb] in H. apply andb_prop in H. destruct H as [H1 H2].
    destruct (parseRelationship_buildRelationship r H1) as [r' [Hp [_ Hi]]].
    cbn [map processElements pushEach]. rewrite Hi, Hp, (IH H2).
    now rewrite <- app_assoc.
Qed.

(** *** Diagrams *)

Lemma parseBounds_written (b : DiagramBounds) :
  boundsSafe b = true ->
  parseBounds (Some {| xb_x := Some (String_ (x b));
                       xb_y := Some (String_ (y b));
                       xb_width := Some (String_ (width b));
                       xb_height := Some (String_ (height b)) |}) = b.
Proof.
  unfold boundsSafe. intros H.
  apply andb_prop in H. destruct H as [H Hh].
  apply andb_prop in H. destruct H as [H Hw].
  apply andb_prop in H. destruct H as [Hx Hy].
  unfold parseBounds, boundsAttr. cbn [xb_x xb_y xb_width xb_height].
  rewrite !parseInt_strOr_String by assumption. destruct b. reflexivity.
Qed.

Lemma parseConnections_buildConnections (conns : list DiagramConnection) :
  forallb connectionSafe conns = true ->
  parseConnections (map buildConnection conns) = conns.
Proof.
  intros Hsafe.
  unfold parseConnections, toArray. rewrite map_map.
  rewrite <- (map_id conns) at 2. apply map_ext_in.
  intros [id src tgt rel bps] Hin.
  pose proof (forallb_In _ _ _ Hsafe Hin) as Hbps.
  unfold connectionSafe in Hbps. cbn [conn_bendpoints] in Hbps.
  cbn [buildConnection xc_id xc_source xc_target xc_archimateRelationship xc_bendpoint
       conn_id conn_sourceId conn_targetId conn_relationshipId conn_bendpoints].
  rewrite strOr_nonEmpty. f_equal.
  rewrite map_map. rewrite <- (map_id bps) at 2. apply map_ext_in.
  intros [bx by'] Hbp. cbn [xbp_x xbp_y bp_x bp_y].
  pose proof (forallb_In _ _ _ Hbps Hbp) as Hxy. cbn [bp_x bp_y] in Hxy.
  apply andb_prop in Hxy. destruct Hxy as [Hx Hy].
  now rewrite !parseInt_strOr_String by assumption.
Qed.

(** A written diagram is read as a diagram. *)
Lemma parseDiagram_buildDiagram (d : ArchiMateDiagram) :
  exists d', parseDiagram (buildDiagram d) = Some d'.
Proof. eexists. reflexivity. Qed.

Lemma parseDiagramObject_buildDiagramObject (o : DiagramObject) :
  objectSafe o = true ->
  eraseIncoming (parseDiagramObject (buildDiagramObject o)) = eraseIncoming o.
Proof.
  induction o as [id elementId bounds conns incoming children IH].
  cbn [objectSafe]. intros H.
  apply andb_prop in H. destruct H as [H Hch].
  apply andb_prop in H. destruct H as [Hb Hconns].
  cbn [buildDiagramObject parseDiagramObject eraseIncoming].
  rewrite strOr_Some_empty, strOr_nonEmpty, (parseBounds_written _ Hb),
          (parseConnections_buildConnections _ Hconns).
  f_equal. unfold toArray. rewrite !map_map.
  apply list_all_Forall in IH.
  induction IH as [| c cs Hc _ IHcs]; [reflexivity |].
  cbn [forallb] in Hch. apply andb_prop in Hch. destruct Hch as [H1 H2].
  cbn [map]. now rewrite (Hc H1), (IHcs H2).
Qed.

Lemma parseDiagram_buildDiagram_geometry (d : ArchiMateDiagram) :
  forallb objectSafe (diag_objects d) = true ->
  exists d',
    parseDiagram (buildDiagram d) = Some d' /\
    diagramGeometry d' = diagramGeometry d.
Proof.
  intros Hsafe. eexists. split; [reflexivity |].
  unfold diagramGeometry.
  cbn [buildDiagram xe_id xe_name xe_child diag_id diag_name diag_objects].
  rewrite !strOr_Some_empty. f_equal.
  unfold parseDiagramObjects, toArray. rewrite !map_map.
  apply map_ext_in. intros o Ho.
  apply parseDiagramObject_buildDiagramObject.
  exact (forallb_In _ _ _ Hsafe Ho).
Qed.

Lemma pushEach_diagrams (ds : list ArchiMateDiagram) :
  forallb (fun d => forallb objectSafe (diag_objects d)) ds = true ->
  map diagramGeometry (pushEach parseDiagram (map buildDiagram ds)) =
  map diagramGeometry ds.
Proof.
  induction ds as [| d ds IH]; intros H; [reflexivity |].
  cbn [forallb] in H. apply andb_prop in H. destruct H as [Hd Hds].
  destruct (parseDiagram_buildDiagram_geometry d Hd) as [d' [Hp Hg]].
  cbn [map pushEach]. rewrite Hp. cbn [map]. now rewrite Hg, (IH Hds).
Qed.

Lemma pushEach_relationships (rs : list ArchiMateRelationship) :
  forallb relationshipOk rs = true ->
  map relationshipCore (pushEach parseRelationship (map buildRelationship rs)) =
  map relationshipCore rs.
Proof.
  induction rs as [| r rs IH]; intros H; [reflexivity |].
  cbn [forallb] in H. apply andb_prop in H. destruct H as [H1 H2].
  destruct (parseRelationship_buildRelationship r H1) as [r' [Hp [Hc _]]].
  cbn [map pushEach]. rewrite Hp. cbn [map]. rewrite Hc, (IH H2). reflexivity.
Qed.

Lemma processElements_diagrams (ds : list ArchiMateDiagram) :
  forall relationships diagrams,
    processElements (map buildDiagram ds) (relationships, diagrams) =
    ([], (relationships,
          diagrams ++ pushEach parseDiagram (map buildDiagram ds))).
Proof.
  induction ds as [| d ds IH]; intros relationships diagrams.
  - cbn. now rewrite app_nil_r.
  - destruct (parseDiagram_buildDiagram d) as [d' Hp].
    cbn [map processElements pushEach]. rewrite Hp.
    change (isRelationshipType (xe_xsi_type (buildDiagram d))) with false.
    change (isDiagramType (xe_xsi_type (buildDiagram d))) with true.
    cbv iota. rewrite IH. now rewrite <- app_assoc.
Qed.

End HierarchicalFacts.

(* ================================================================== *)
(** ** The parser of the examples returns kept values as written *)

Module SampleParserFacts.
Import JS ExchangeText.

Lemma letter_not_special (c : ascii) :
  isLetter c = true -> isWhitespace c = false /\ digitValue c = None.
Proof.
  destruct c as [[] [] [] [] [] [] [] []]; vm_compute; intros H;
    try discriminate H; split; reflexivity.
Qed.

Lemma visible_not_whitespace (c : ascii) :
  isVisible c = true -> isWhitespace c = false.
Proof.
  destruct c as [[] [] [] [] [] [] [] []]; vm_compute; intros H;
    try discriminate H; reflexivity.
Qed.

Lemma reverse_reverse (s a b : string) :
  reverse (reverse s a) b = reverse a (s ++ b)%string.
Proof.
  revert a. induction s as [| c s IH]; intros a; [reflexivity |].
  cbn [reverse append]. now rewrite IH.
Qed.

Lemma string_append_nil (s : string) : (s ++ "")%string = s.
Proof. induction s as [| c s IH]; [reflexivity |]. cbn. now rewrite IH. Qed.

Lemma reverse_ends (s acc : string) :
  endsVisible s = true ->
  exists c r, reverse s acc = String c r /\ isVisible c = true.
Proof.
  revert acc. induction s as [| a s IH]; intros acc H; [discriminate |].
  destruct s as [| b t].
  - exists a, acc. now split.
  - cbn [reverse]. apply (IH (String a acc)). exact H.
Qed.

Lemma trim_unpadded (s : string) :
  HierarchicalText.startsVisible s = true -> endsVisible s = true -> trim s = s.
Proof.
  destruct s as [| c r]; [discriminate |].
  cbn [HierarchicalText.startsVisible]. intros Hc Hend.
  unfold trim. cbn [skipWhitespace]. rewrite (visible_not_whitespace c Hc).
  destruct (reverse_ends (String c r) "" Hend) as [c' [r' [Hrev Hv]]].
  rewrite Hrev. cbn [skipWhitespace]. rewrite (visible_not_whitespace c' Hv).
  rewrite <- Hrev, reverse_reverse. cbn [reverse]. apply string_append_nil.
Qed.

Lemma letter_visible (c : ascii) : isLetter c = true -> isVisible c = true.
Proof.
  destruct c as [[] [] [] [] [] [] [] []]; vm_compute; intros H;
    try discriminate H; reflexivity.
Qed.

Lemma plainText_parts (s : string) :
  plainText s = true ->
  HierarchicalText.startsVisible s = true /\ endsVisible s = true /\
  (s =? "true") = false /\ (s =? "false") = false /\ isDigits s = false.
Proof.
  destruct s as [| c r]; [discriminate |].
  cbn [plainText]. intros H.
  apply andb_prop in H. destruct H as [H Hfalse].
  apply andb_prop in H. destruct H as [H Htrue].
  apply andb_prop in H. destruct H as [Hc Hend].
  destruct (letter_not_special c Hc) as [_ Hd].
  apply negb_true_iff in Hfalse. apply negb_true_iff in Htrue.
  repeat split; try assumption.
  - exact (letter_visible c Hc).
  - unfold isDigits. cbn [allDigits]. rewrite Hd. apply andb_false_r.
Qed.

Lemma trim_plain (s : string) : plainText s = true -> trim s = s.
Proof.
  intros H. destruct (plainText_parts s H) as [Hs [He _]].
  now apply trim_unpadded.
Qed.

Lemma sampleAttributeText_plain (s : string) :
  plainText s = true -> sampleAttributeText s = s.
Proof.
  intros H. unfold sampleAttributeText. cbv zeta.
  destruct (plainText_parts s H) as [_ [_ [Ht [Hf Hd]]]].
  now rewrite (trim_plain s H), Ht, Hf, Hd.
Qed.

Lemma sampleNodeText_plain (s : string) :
  plainText s = true -> sampleNodeText s = Some s.
Proof.
  intros H. unfold sampleNodeText. cbv zeta.
  destruct (plainText_parts s H) as [_ [_ [_ [_ Hd]]]].
  rewrite (trim_plain s H), Hd.
  now destruct s.
Qed.

Lemma sampleAttributeValue_kept (s : string) :
  HierarchicalText.keptAttribute s = true ->
  HierarchicalText.sampleAttributeValue s = Some s.
Proof.
  unfold HierarchicalText.keptAttribute, HierarchicalText.sampleAttributeValue.
  intros H. apply orb_prop in H. destruct H as [H | H].
  - apply String.eqb_eq in H. subst s. reflexivity.
  - apply andb_prop in H. destruct H as [H Ht].
    apply andb_prop in H. destruct H as [Hs He].
    apply negb_true_iff in Ht. rewrite Ht.
    now rewrite (trim_unpadded s Hs He).
Qed.

End SampleParserFacts.

(* ================================================================== *)
(** ** The hierarchical codec through the XML text *)

Module HierarchicalTextFacts.
Import JS Model Xml ExchangeText HierarchicalText HierarchicalFacts.

Lemma map_kept {A : Type} (f : A -> A) (p : A -> bool) (l : list A) :
  (forall a, In a l -> p a = true -> f a = a) ->
  forallb p l = true -> map f l = l.
Proof.
  intros Hf Hp. rewrite <- (map_id l) at 2. apply map_ext_in.
  intros a Ha. apply (Hf a Ha). exact (forallb_In _ _ _ Hp Ha).
Qed.

Section ReadBack.

Variable attributeValue : string -> option string.
Variable nodeValue : string -> option string.

Hypothesis attributeValue_kept :
  forall s, keptAttribute s = true -> attributeValue s = Some s.
Hypothesis nodeValue_plain :
  forall s, plainText s = true -> nodeValue s = Some s.

Lemma readAttribute_kept (a : option string) :
  optionalKept a = true -> readAttribute attributeValue a = a.
Proof. destruct a as [s |]; [apply attributeValue_kept | reflexivity]. Qed.

Lemma readRequired_kept (s : string) :
  keptAttribute s = true -> readRequired attributeValue s = s.
Proof. intros H. unfold readRequired. now rewrite attributeValue_kept. Qed.

Lemma readNode_plain (d : option string) :
  optionalPlainText d = true -> readNode nodeValue d = d.
Proof. destruct d as [s |]; [apply nodeValue_plain | reflexivity]. Qed.

Lemma readProperty_kept (p : XmlProperty) :
  propertyKept p = true -> readProperty attributeValue p = p.
Proof.
  unfold propertyKept, readProperty. intros H.
  apply andb_prop in H. destruct H as [Hk Hv].
  rewrite !readRequired_kept by assumption. now destruct p.
Qed.

Lemma readBounds_kept (b : XmlBounds) :
  boundsKept b = true -> readBounds attributeValue b = b.
Proof.
  unfold boundsKept, readBounds. intros H.
  apply andb_prop in H. destruct H as [H Hh].
  apply andb_prop in H. destruct H as [H Hw].
  apply andb_prop in H. destruct H as [Hx Hy].
  rewrite !readAttribute_kept by assumption. now destruct b.
Qed.

Lemma readBendpoint_kept (bp : XmlBendpoint) :
  bendpointKept bp = true -> readBendpoint attributeValue bp = bp.
Proof.
  unfold bendpointKept, readBendpoint. intros H.
  apply andb_prop in H. destruct H as [Hx Hy].
  rewrite !readAttribute_kept by assumption. now destruct bp.
Qed.

Lemma readConnection_kept (c : XmlConnection) :
  connectionKept c = true -> readConnection attributeValue c = c.
Proof.
  unfold connectionKept, readConnection. intros H.
  apply andb_prop in H. destruct H as [H Hbps].
  apply andb_prop in H. destruct H as [H Hrel].
  apply andb_prop in H. destruct H as [H Htgt].
  apply andb_prop in H. destruct H as [H Hsrc].
  apply andb_prop in H. destruct H as [Htype Hid].
  rewrite !readAttribute_kept, !readRequired_kept by assumption.
  rewrite (map_kept _ bendpointKept)
    by (first [intros bp _; apply readBendpoint_kept | assumption]).
  now destruct c.
Qed.

Lemma readElement_kept (e : XmlElement) :
  elementKept e = true -> readElement attributeValue nodeValue e = e.
Proof.
  induction e as [xsiType name id source target accessType modifier
                  archimateElement documentation property bounds child IH
                  sourceConnection targetConnections].
  apply list_all_Forall in IH.
  cbn [elementKept readElement]. intros H.
  apply andb_prop in H. destruct H as [H Htc].
  apply andb_prop in H. destruct H as [H Hsc].
  apply andb_prop in H. destruct H as [H Hch].
  apply andb_prop in H. destruct H as [H Hb].
  apply andb_prop in H. destruct H as [H Hprops].
  apply andb_prop in H. destruct H as [H Hdoc].
  apply andb_prop in H. destruct H as [H Hae].
  apply andb_prop in H. destruct H as [H Hmod].
  apply andb_prop in H. destruct H as [H Hacc].
  apply andb_prop in H. destruct H as [H Htgt].
  apply andb_prop in H. destruct H as [H Hsrc].
  apply andb_prop in H. destruct H as [H Hid].
  apply andb_prop in H. destruct H as [Htype Hname].
  rewrite !readAttribute_kept, readNode_plain by assumption.
  rewrite (map_kept _ propertyKept)
    by (first [intros p _; apply readProperty_kept | assumption]).
  rewrite (map_kept _ connectionKept)
    by (first [intros c _; apply readConnection_kept | assumption]).
  rewrite (map_kept _ elementKept).
  - destruct bounds as [b |]; [| reflexivity].
    cbn [option_map]. now rewrite readBounds_kept.
  - intros c Hc. exact (proj1 (Forall_forall _ _) IH c Hc).
  - exact Hch.
Qed.

Lemma readFolder_kept (f : XmlFolder) :
  folderKept f = true -> readFolder attributeValue nodeValue f = f.
Proof.
  induction f as [name id type element folder IH].
  apply list_all_Forall in IH.
  cbn [folderKept readFolder]. intros H.
  apply andb_prop in H. destruct H as [H Hsub].
  apply andb_prop in H. destruct H as [H Helems].
  apply andb_prop in H. destruct H as [H Htype].
  apply andb_prop in H. destruct H as [Hname Hid].
  rewrite !readRequired_kept, readAttribute_kept by assumption.
  rewrite (map_kept _ elementKept)
    by (first [intros e _; apply readElement_kept | assumption]).
  rewrite (map_kept _ folderKept); [reflexivity | | exact Hsub].
  intros sub Hin. exact (proj1 (Forall_forall _ _) IH sub Hin).
Qed.

Lemma readBack_kept (doc : XmlModel) :
  documentKept doc = true -> readBack attributeValue nodeValue doc = doc.
Proof.
  unfold documentKept, readBack. destruct doc as [[root |]]; [| reflexivity].
  cbn [archimate_model option_map]. intros H.
  apply andb_prop in H. destruct H as [H Hfolders].
  apply andb_prop in H. destruct H as [H Hdoc].
  apply andb_prop in H. destruct H as [H Hver].
  apply andb_prop in H. destruct H as [Hname Hid].
  unfold readRoot.
  rewrite !readRequired_kept, readAttribute_kept, readNode_plain by assumption.
  rewrite (map_kept _ folderKept)
    by (first [intros f _; apply readFolder_kept | assumption]).
  now destruct root.
Qed.

End ReadBack.

End HierarchicalTextFacts.

Module HierarchicalRoundTrip.
Import JS JSFacts Types Model Xml Tables Writer Parser Queries Samples HierarchicalFacts.
Import ExchangeText HierarchicalText HierarchicalTextFacts SampleParserFacts.

Lemma countTagged_cons (tag : string) (f : ArchiMateFolder) (fs : list ArchiMateFolder) :
  countTagged tag (f :: fs) =
  if folder_type f =? tag then S (countTagged tag fs) else countTagged tag fs.
Proof.
  unfold countTagged. cbn [filter]. now destruct (folder_type f =? tag).
Qed.

Lemma concat_repeat_nil {A : Type} (n : nat) : List.concat (repeat (@nil A) n) = [].
Proof. induction n; [reflexivity | exact IHn]. Qed.

Lemma isEmpty_nil {A : Type} (l : list A) : isEmpty l = true -> l = [].
Proof. destruct l; [reflexivity | discriminate]. Qed.

(** What the reader collects from the folders the writer builds: the
    folders themselves, the written relationships once for every folder
    tagged relations and the written diagrams once for every folder
    tagged diagrams. *)
Lemma processFolders_buildTopFolders (m : ArchiMateModel) :
  forallb relationshipOk (model_relationships m) = true ->
  forall fs relationships diagrams,
    forallb topFolderOk fs = true ->
    processFolders (map (buildTopFolder m) fs) (relationships, diagrams) =
    (fs,
     (relationships ++
        List.concat (repeat (pushEach parseRelationship
                          (map buildRelationship (model_relationships m)))
                       (countTagged "relations" fs)),
      diagrams ++
        List.concat (repeat (pushEach parseDiagram (map buildDiagram (model_diagrams m)))
                       (countTagged "diagrams" fs)))).
Proof.
  intros Hrels.
  induction fs as [| f fs IH]; intros relationships diagrams Hok.
  - cbn. now rewrite !app_nil_r.
  - cbn [forallb] in Hok. apply andb_prop in Hok. destruct Hok as [Hf Hfs].
    rewrite !countTagged_cons. cbn [map processFolders].
    unfold buildTopFolder, topFolderOk in *.
    destruct f as [id name type elements subfolders].
    cbn [folder_type folder_elements folder_subfolders folder_id folder_name] in *.
    destruct (type =? "relations") eqn:Erel.
    + apply eqb_true_eq in Erel. subst type.
      apply andb_prop in Hf. destruct Hf as [He Hs].
      apply isEmpty_nil in He. apply isEmpty_nil in Hs. subst.
      rewrite processFolder_eq. unfold toArray.
      rewrite (processElements_relationships _ Hrels).
      cbn [processFolders]. rewrite (IH _ _ Hfs).
      change ("relations" =? "diagrams") with false. cbv iota.
      cbn [repeat List.concat]. now rewrite <- app_assoc.
    + destruct (type =? "diagrams") eqn:Edia.
      * apply eqb_true_eq in Edia. subst type.
        apply andb_prop in Hf. destruct Hf as [He Hs].
        apply isEmpty_nil in He. subst.
        rewrite processFolder_eq. unfold toArray.
        rewrite processElements_diagrams.
        rewrite (processFolders_buildFolders _ _ Hs).
        rewrite (IH _ _ Hfs).
        cbn [repeat List.concat]. now rewrite <- app_assoc.
      * rewrite (processFolder_buildFolder _ Hf), (IH _ _ Hfs). reflexivity.
Qed.

Lemma once_or_empty {A : Type} (l : list A) (n : nat) :
  isEmpty l || (n =? 1)%nat = true -> List.concat (repeat l n) = l.
Proof.
  intros H. apply orb_prop in H. destruct H as [H | H].
  - apply isEmpty_nil in H. subst. apply concat_repeat_nil.
  - apply Nat.eqb_eq in H. subst. cbn. apply app_nil_r.
Qed.

(** The reader [parseModel] hands the relations folder to
    [extractRelationships], whose body is empty: it returns no
    relationship, whatever the document. *)
Lemma parseModel_returns_no_relationship (parsed : XmlModel) (m : ArchiMateModel) :
  parseModel_parsed parsed = Ok m -> model_relationships m = [].
Proof.
  unfold parseModel_parsed.
  destruct (archimate_model parsed) as [root |]; [| discriminate].
  match goal with
  | |- context [fold_left ?step _ _] =>
      assert (Hinv : forall l acc,
                 snd (fst acc) = [] -> snd (fst (fold_left step l acc)) = [])
  end.
  { induction l as [| xf l IH]; intros [[fs rs] ds] Hacc; [exact Hacc |].
    cbn [fold_left]. apply IH. cbn in Hacc. subst rs.
    cbn. unfold extractRelationships. now destruct (_ =? "relations"). }
  match goal with
  | |- context [fold_left ?step ?xs ?a] =>
      specialize (Hinv xs a eq_refl); destruct (fold_left step xs a) as [[fs rs] ds]
  end.
  cbn in Hinv. subst rs. intros H. injection H as <-. reflexivity.
Qed.




(** Texts that are not kept: with a parser that trims values and reads a
    documentation of digits as a number, a padded name comes back
    trimmed and the documentation 007 comes back as 7. *)
Lemma padded_texts_read_back_changed :
  exists m',
    writeThenRead sampleAttributeValue sampleNodeValue paddedTextModel = Ok m' /\
    map elementCore (getAllElements paddedTextModel)
      = [("e6", "Goal", " Grow ", Some "007")] /\
    map elementCore (getAllElements m') = [("e6", "Goal", "Grow", Some "7")].
Proof.
  eexists. split; [vm_compute; reflexivity |]. repeat split.
Qed.

(** The relationships and the diagrams of a model without a folder
    tagged relations or diagrams, which the round trip above leaves out.
    Take a model with two element folders, two relationships and one
    diagram, as it results from adding the relationships and the diagram
    to a model that has the element folders only.  The writer emits
    relationships and diagrams inside the top-level folders with these
    tags and nowhere else: the document it builds holds none of them, it
    is the document built for the model before they were added, and the
    model read from it has no relationship and no diagram.  The flat
    writer, given the same model, writes both relationships and the
    diagram. *)
Lemma writeModel_drops_unfiled_relationships :
  looseModel =
    WriterOps.addDiagramToModel
      (WriterOps.addRelationshipToModel
         (WriterOps.addRelationshipToModel elementsOnlyModel assigned) reads)
      overview /\
  map rel_id (model_relationships looseModel) = ["r1"; "r2"] /\
  map diag_id (model_diagrams looseModel) = ["d1"] /\
  writeModel_xmlObj looseModel = writeModel_xmlObj elementsOnlyModel /\
  (exists m',
     parseModelComplete_parsed (writeModel_xmlObj looseModel) = Ok m' /\
     model_folders m' = model_folders looseModel /\
     model_relationships m' = [] /\
     model_diagrams m' = []) /\
  option_map
    (fun written =>
       (map Exchange.er_identifier (Exchange.em_relationships written),
        map Exchange.ev_identifier (ExchangeReader.viewList (Exchange.em_views written))))
    (Exchange.ed_model (ExchangeWriter.writeExchangeFormat_xmlObj looseModel))
  = Some ([Some "r1"; Some "r2"], [Some "d1"]).
Proof.
  split; [reflexivity |]. split; [reflexivity |]. split; [reflexivity |].
  split; [reflexivity |]. split; [| reflexivity].
  eexists. split; [vm_compute; reflexivity |]. repeat split.
Qed.

(** An element whose documentation is the empty string is read back
    without documentation. *)
Lemma blank_documentation_read_back_absent :
  exists m',
    parseModelComplete_parsed (writeModel_xmlObj blankDocModel) = Ok m' /\
    map el_documentation (getAllElements blankDocModel) = [Some ""] /\
    map el_documentation (getAllElements m') = [None].
Proof.
  eexists. split; [vm_compute; reflexivity |]. repeat split.
Qed.

End HierarchicalRoundTrip.

(* ================================================================== *)
(** ** Round trip through the flat codec *)

Module ExchangeFacts.
Import JS JSFacts Types Model Exchange ExchangeWriter ExchangeReader Queries Checks.
Import HierarchicalFacts.

Lemma strOr_Some_default (s : string) : strOr (Some s) (strOr None "") = s.
Proof. apply strOr_Some_empty. Qed.

Lemma getTextOpt_optLangText (d : option string) :
  getTextOpt (optLangText d) = nonEmpty d.
Proof.
  unfold getTextOpt, optLangText.
  destruct d as [s |]; [| reflexivity].
  cbn [nonEmpty]. destruct (truthy s) eqn:E; cbn [getText langText nonEmpty].
  - now rewrite E.
  - reflexivity.
Qed.

(** *** Elements *)

Lemma exchange_parseElement_buildElement (e : ArchiMateElement) :
  elementOk e = true ->
  exists e',
    parseElement (buildElement e) = Some e' /\
    elementCore e' = elementCore e.
Proof.
  unfold elementOk. intros H. apply andb_prop in H. destruct H as [Ht Hd].
  unfold parseElement, mapElementType.
  cbn [buildElement ee_identifier ee_xsi_type ee_type ee_name ee_documentation].
  rewrite strOr_Some_default, Ht.
  eexists. split; [reflexivity |].
  unfold elementCore. cbn [el_id el_type el_name el_documentation].
  rewrite strOr_Some_empty, getTextOpt_optLangText, (nonEmpty_textOk _ Hd).
  reflexivity.
Qed.

Lemma findIndex_lt {A : Type} (p : A -> bool) (l : list A) (i : nat) :
  findIndex p l = Some i -> (i < List.length l)%nat.
Proof.
  revert i. induction l as [| a l IH]; intros i H; [discriminate |].
  cbn [findIndex] in H. destruct (p a).
  - injection H as <-. cbn. lia.
  - destruct (findIndex p l) as [j |]; [| discriminate].
    injection H as <-. specialize (IH j eq_refl). cbn. lia.
Qed.

Lemma findIndex_by_type (g : string -> bool) (fs : list ArchiMateFolder) :
  findIndex (fun f => g (folder_type f)) fs = findIndex g (map folder_type fs).
Proof.
  induction fs as [| f fs IH]; [reflexivity |].
  cbn [findIndex map]. now rewrite IH.
Qed.

Lemma pushElement_types (i : nat) (e : ArchiMateElement) (fs : list ArchiMateFolder) :
  map folder_type (pushElement i e fs) = map folder_type fs.
Proof.
  revert i. induction fs as [| [id name type els subs] fs IH]; intros i.
  - now destruct i.
  - destruct i as [| j]; cbn [pushElement map]; [reflexivity |].
    now rewrite IH.
Qed.

Lemma pushElement_elements (i : nat) (e : ArchiMateElement) (fs : list ArchiMateFolder) :
  (i < List.length fs)%nat ->
  Permutation (flat_map collectFromFolder (pushElement i e fs))
              (e :: flat_map collectFromFolder fs).
Proof.
  revert i. induction fs as [| [id name type els subs] fs IH]; intros i Hi.
  - cbn in Hi. lia.
  - destruct i as [| j]; cbn [pushElement flat_map collectFromFolder].
    + rewrite <- !app_assoc. cbn [app].
      symmetry. apply Permutation_middle.
    + cbn in Hi. assert (Hj : (j < List.length fs)%nat) by lia.
      rewrite (IH j Hj). symmetry. apply Permutation_middle.
Qed.

Lemma getFolderForType_found (fs : list ArchiMateFolder) (t : string) :
  includes AllElementTypes t = true ->
  hasOther fs ->
  exists i, getFolderForType fs t = Ok (Some i) /\ (i < List.length fs)%nat.
Proof.
  intros Ht Hother. apply includes_In in Ht.
  destruct (ValidationFacts.layer_total t Ht) as [layer El].
  unfold getFolderForType. rewrite El. cbn [bind].
  destruct (findIndex (fun f => folder_type f =? LayerFolderTypes layer) fs)
    as [i |] eqn:Ei.
  - exists i. split; [reflexivity | exact (findIndex_lt _ _ _ Ei)].
  - unfold hasOther in Hother.
    rewrite <- (findIndex_by_type (fun t => t =? "other")) in Hother.
    destruct (findIndex (fun f => folder_type f =? "other") fs) as [i |] eqn:Eo;
      [| contradiction].
    exists i. split; [reflexivity | exact (findIndex_lt _ _ _ Eo)].
Qed.

Lemma placeElements_buildElements (es : list ArchiMateElement) :
  forallb elementOk es = true ->
  forall fs, hasOther fs ->
  exists fs',
    placeElements (map buildElement es) fs = Ok fs' /\
    Permutation (map elementCore (flat_map collectFromFolder fs'))
                (map elementCore (flat_map collectFromFolder fs) ++ map elementCore es).
Proof.
  induction es as [| e es IH]; intros Hok fs Hother.
  - exists fs. split; [reflexivity |]. now rewrite app_nil_r.
  - cbn [forallb] in Hok. apply andb_prop in Hok. destruct Hok as [He Hes].
    destruct (exchange_parseElement_buildElement e He) as [e' [Hp Hc]].
    assert (Ht : includes AllElementTypes (el_type e') = true).
    { unfold elementCore in Hc. injection Hc as _ Hty _ _.
      rewrite Hty. unfold elementOk in He. now apply andb_prop in He. }
    destruct (getFolderForType_found fs (el_type e') Ht Hother) as [i [Hg Hi]].
    assert (Hother' : hasOther (pushElement i e' fs)).
    { unfold hasOther. now rewrite pushElement_types. }
    destruct (IH Hes _ Hother') as [fs' [Hplace Hperm]].
    exists fs'. cbn [map placeElements]. rewrite Hp, Hg. cbn [bind].
    split; [exact Hplace |].
    rewrite Hperm.
    rewrite (Permutation_map elementCore (pushElement_elements i e' fs Hi)).
    cbn [map app]. rewrite Hc. apply Permutation_middle.
Qed.

(** *** Relationships *)

Lemma relationship_types_mapped :
  forallb relationshipTypeMapped RelationshipTypes = true.
Proof. vm_compute. reflexivity. Qed.

Lemma exchange_pushEach_relationships (rs : list ArchiMateRelationship) :
  forallb relationshipOk rs = true ->
  map relationshipCore (Parser.pushEach parseRelationship (map buildRelationship rs)) =
  map relationshipCore rs.
Proof.
  induction rs as [| r rs IH]; intros H; [reflexivity |].
  cbn [forallb] in H. apply andb_prop in H. destruct H as [Hr Hrs].
  unfold relationshipOk in Hr.
  apply andb_prop in Hr. destruct Hr as [Hr Hd].
  apply andb_prop in Hr. destruct Hr as [Ht Hn].
  apply includes_In in Ht.
  pose proof (forallb_In _ _ _ relationship_types_mapped Ht) as Hm.
  unfold relationshipTypeMapped in Hm.
  cbn [map Parser.pushEach]. unfold parseRelationship at 1.
  cbn [buildRelationship er_identifier er_xsi_type er_type er_source er_target
       er_name er_documentation].
  rewrite strOr_Some_default.
  destruct (mapRelationshipType (rel_type r)) as [t' |]; [| discriminate].
  apply eqb_true_eq in Hm. subst t'.
  cbn [map]. rewrite (IH Hrs). f_equal.
  unfold relationshipCore.
  cbn [rel_id rel_type rel_name rel_documentation rel_sourceId rel_targetId].
  rewrite !strOr_Some_empty, !getTextOpt_optLangText,
          (nonEmpty_textOk _ Hn), (nonEmpty_textOk _ Hd).
  reflexivity.
Qed.

(** *** Views *)

Lemma flat_map_map_out {A B C : Type} (f : A -> list B) (g : B -> C) (h : A -> list C)
    (l : list A) :
  Forall (fun a => h a = map g (f a)) l ->
  flat_map h l = map g (flat_map f l).
Proof.
  induction 1 as [| a l Ha _ IH]; [reflexivity |].
  cbn [flat_map]. now rewrite map_app, Ha, IH.
Qed.

Lemma collectNodes_flatten (o : DiagramObject) :
  collectNodes o = map buildDiagramNode (flattenObject o).
Proof.
  induction o as [id elementId bounds conns incoming children IH].
  cbn [collectNodes flattenObject map]. f_equal.
  apply flat_map_map_out. now apply list_all_Forall.
Qed.

Lemma numOr_zero (n : number) : isNum n = true -> numOr (Some n) (Num 0) = n.
Proof.
  destruct n as [z |]; [| discriminate]. intros _.
  unfold numOr, truthyNum. destruct (Z.eqb_spec z 0); cbn; congruence.
Qed.

Lemma numOr_truthy (n d : number) : truthyNum n = true -> numOr (Some n) d = n.
Proof. intros H. unfold numOr. now rewrite H. Qed.

Lemma parseDiagramObject_buildDiagramNode (o : DiagramObject) :
  nodeOk o = true ->
  nodeCore (parseDiagramObject (buildDiagramNode o)) = nodeCore o.
Proof.
  unfold nodeOk. intros H.
  apply andb_prop in H. destruct H as [H Hh].
  apply andb_prop in H. destruct H as [H Hw].
  apply andb_prop in H. destruct H as [Hx Hy].
  unfold nodeCore, parseDiagramObject.
  cbn [buildDiagramNode en_identifier en_elementRef en_x en_y en_w en_h
       obj_id obj_elementId obj_bounds].
  rewrite !strOr_Some_empty, (numOr_zero _ Hx), (numOr_zero _ Hy),
          (numOr_truthy _ _ Hw), (numOr_truthy _ _ Hh).
  destruct (obj_bounds o). reflexivity.
Qed.

Lemma flat_objects (objs : list DiagramObject) :
  Forall (fun o => obj_children o = []) objs ->
  flat_map flattenObject objs = objs.
Proof.
  induction 1 as [| o objs Ho _ IH]; [reflexivity |].
  cbn [flat_map]. rewrite IH.
  destruct o as [id elementId bounds conns incoming children].
  cbn in Ho. subst children. reflexivity.
Qed.

Lemma parseDiagram_buildView (d : ArchiMateDiagram) :
  diagramOk d = true ->
  diagramCore (parseDiagram (buildView d)) = diagramCore d.
Proof.
  unfold diagramOk. intros H. apply andb_prop in H. destruct H as [Hd Hn].
  unfold diagramCore, parseDiagram, ensureArray.
  cbn [buildView ev_identifier ev_name ev_documentation ev_node ev_connection
       diag_id diag_name diag_documentation].
  rewrite strOr_Some_empty, getTextOpt_optLangText, (nonEmpty_textOk _ Hd).
  cbn [getText langText]. f_equal.
  unfold diagramObjects at 1. cbn [diag_objects].
  rewrite flat_objects.
  2:{ apply Forall_forall. intros o Ho.
      apply in_map_iff in Ho. destruct Ho as [o0 [<- Ho0]].
      apply in_map_iff in Ho0. destruct Ho0 as [n [<- _]]. reflexivity. }
  rewrite (flat_map_map_out flattenObject buildDiagramNode collectNodes).
  2:{ apply Forall_forall. intros o _. apply collectNodes_flatten. }
  fold (diagramObjects d). rewrite !map_map.
  apply map_ext_in. intros o Ho.
  rewrite <- (parseDiagramObject_buildDiagramNode o (forallb_In _ _ _ Hn Ho)).
  reflexivity.
Qed.

End ExchangeFacts.

(* ================================================================== *)
(** ** The flat codec through the XML text *)

Module ExchangeTextFacts.
Import JS JSFacts Types Model Exchange ExchangeWriter ExchangeReader ExchangeText.
Import Queries Checks HierarchicalFacts ExchangeFacts.

Lemma element_kinds_plain : forallb plainText AllElementTypes = true.
Proof. vm_compute. reflexivity. Qed.

Lemma relationship_kinds_plain : forallb plainText RelationshipTypes = true.
Proof. vm_compute. reflexivity. Qed.

Lemma plainText_truthy (s : string) : plainText s = true -> truthy s = true.
Proof. destruct s; [discriminate | reflexivity]. Qed.

Lemma optionalPlainText_textOk (d : option string) :
  optionalPlainText d = true -> textOk d = true.
Proof. destruct d as [s |]; [apply plainText_truthy | reflexivity]. Qed.

Section ReadBack.

Variable attributeText : string -> string.
Variable attributeNumber : number -> number.
Variable nodeText : string -> option string.

Hypothesis attributeText_plain :
  forall s, plainText s = true -> attributeText s = s.
Hypothesis attributeNumber_safe :
  forall z, isSafeInteger z = true -> attributeNumber (Num z) = Num z.
Hypothesis nodeText_plain :
  forall s, plainText s = true -> nodeText s = Some s.

Lemma readAttribute_plain (s : string) :
  plainText s = true -> readAttribute attributeText (Some s) = Some s.
Proof. intros H. cbn. now rewrite attributeText_plain. Qed.

Lemma readText_langText (s : string) :
  plainText s = true ->
  readText attributeText nodeText (Some (langText s)) = Some (langText s).
Proof.
  intros H. unfold langText. cbn [readText].
  rewrite (readAttribute_plain "en") by reflexivity.
  now rewrite nodeText_plain.
Qed.

Lemma readText_optLangText (d : option string) :
  optionalPlainText d = true ->
  readText attributeText nodeText (optLangText d) = optLangText d.
Proof.
  destruct d as [s |]; [| reflexivity].
  cbn [optionalPlainText]. intros H. unfold optLangText. cbn [nonEmpty].
  rewrite (plainText_truthy s H). now apply readText_langText.
Qed.

Lemma readNumber_safe (n : number) :
  isNum n = true -> safeNumber n = true ->
  readNumber attributeNumber (Some n) = Some n.
Proof.
  destruct n as [z |]; [| discriminate]. intros _ H. cbn.
  now rewrite attributeNumber_safe.
Qed.

Lemma truthyNum_isNum (n : number) : truthyNum n = true -> isNum n = true.
Proof. now destruct n. Qed.

Lemma readElement_buildElement (e : ArchiMateElement) :
  elementOk e = true -> elementTextOk e = true ->
  readElement attributeText nodeText (buildElement e) = buildElement e.
Proof.
  unfold elementOk, elementTextOk. intros Hok Htext.
  apply andb_prop in Hok. destruct Hok as [Hkind _].
  apply andb_prop in Htext. destruct Htext as [Htext Hdoc].
  apply andb_prop in Htext. destruct Htext as [Hid Hname].
  apply includes_In in Hkind.
  pose proof (forallb_In _ _ _ element_kinds_plain Hkind) as Hk.
  unfold readElement, buildElement.
  cbn [ee_identifier ee_xsi_type ee_type ee_name ee_documentation].
  now rewrite !readAttribute_plain, readText_langText, readText_optLangText.
Qed.

Lemma readRelationship_buildRelationship (r : ArchiMateRelationship) :
  relationshipOk r = true -> relationshipTextOk r = true ->
  readRelationship attributeText nodeText (buildRelationship r) = buildRelationship r.
Proof.
  unfold relationshipOk, relationshipTextOk. intros Hok Htext.
  apply andb_prop in Hok. destruct Hok as [Hok _].
  apply andb_prop in Hok. destruct Hok as [Hkind _].
  apply andb_prop in Htext. destruct Htext as [Htext Hdoc].
  apply andb_prop in Htext. destruct Htext as [Htext Hname].
  apply andb_prop in Htext. destruct Htext as [Htext Htgt].
  apply andb_prop in Htext. destruct Htext as [Hid Hsrc].
  apply includes_In in Hkind.
  pose proof (forallb_In _ _ _ relationship_kinds_plain Hkind) as Hk.
  unfold readRelationship, buildRelationship.
  cbn [er_identifier er_xsi_type er_type er_source er_target er_name er_documentation].
  now rewrite !readAttribute_plain, !readText_optLangText.
Qed.

Lemma readNode_buildDiagramNode (o : DiagramObject) :
  nodeOk o = true -> nodeTextOk o = true ->
  readNode attributeText attributeNumber (buildDiagramNode o) = buildDiagramNode o.
Proof.
  unfold nodeOk, nodeTextOk, boundsSafe. intros Hok Htext.
  apply andb_prop in Hok. destruct Hok as [Hok Hh].
  apply andb_prop in Hok. destruct Hok as [Hok Hw].
  apply andb_prop in Hok. destruct Hok as [Hx Hy].
  apply andb_prop in Htext. destruct Htext as [Htext Hsafe].
  apply andb_prop in Htext. destruct Htext as [Hid Href].
  apply andb_prop in Hsafe. destruct Hsafe as [Hsafe Hsh].
  apply andb_prop in Hsafe. destruct Hsafe as [Hsafe Hsw].
  apply andb_prop in Hsafe. destruct Hsafe as [Hsx Hsy].
  apply truthyNum_isNum in Hw. apply truthyNum_isNum in Hh.
  unfold readNode, buildDiagramNode.
  cbn [en_identifier en_elementRef en_x en_y en_w en_h].
  now rewrite !readAttribute_plain, !readNumber_safe.
Qed.

(** What the round trip compares of a diagram depends on the
    identifier, the name, the documentation and the nodes of the view. *)
Lemma diagramCore_parseDiagram (v : ExView) :
  diagramCore (parseDiagram v) =
  (strOr (ev_identifier v) "", getText (ev_name v),
   getTextOpt (ev_documentation v),
   map nodeCore (map parseDiagramObject (ev_node v))).
Proof.
  unfold diagramCore, parseDiagram, ensureArray.
  cbn [diag_id diag_name diag_documentation]. f_equal.
  unfold diagramObjects. cbn [diag_objects].
  rewrite flat_objects.
  2:{ apply Forall_forall. intros o Ho.
      apply in_map_iff in Ho. destruct Ho as [o0 [<- Ho0]].
      apply in_map_iff in Ho0. destruct Ho0 as [n [<- _]]. reflexivity. }
  rewrite map_map. apply map_ext. intros o. reflexivity.
Qed.

Lemma parseDiagram_readView (d : ArchiMateDiagram) :
  diagramOk d = true -> diagramTextOk d = true ->
  diagramCore (parseDiagram
                 (readView attributeText attributeNumber nodeText (buildView d)))
  = diagramCore d.
Proof.
  intros Hok Htext.
  rewrite <- (parseDiagram_buildView d Hok).
  rewrite !diagramCore_parseDiagram.
  unfold diagramOk in Hok. apply andb_prop in Hok. destruct Hok as [_ Hnodes].
  unfold diagramTextOk in Htext.
  apply andb_prop in Htext. destruct Htext as [Htext Hnt].
  apply andb_prop in Htext. destruct Htext as [Htext Hdoc].
  apply andb_prop in Htext. destruct Htext as [Hid Hname].
  unfold readView, buildView.
  cbn [ev_identifier ev_viewpoint ev_name ev_documentation ev_node ev_connection].
  rewrite readAttribute_plain, readText_langText, readText_optLangText by assumption.
  f_equal. f_equal. f_equal.
  rewrite (flat_map_map_out flattenObject buildDiagramNode collectNodes).
  2:{ apply Forall_forall. intros o _. apply collectNodes_flatten. }
  fold (diagramObjects d). rewrite map_map.
  apply map_ext_in. intros o Ho.
  apply readNode_buildDiagramNode.
  - exact (forallb_In _ _ _ Hnodes Ho).
  - exact (forallb_In _ _ _ Hnt Ho).
Qed.

Lemma viewList_readViews (ds : list ArchiMateDiagram) :
  viewList
    (option_map (readViews attributeText attributeNumber nodeText)
       (if (0 <? List.length ds)%nat
        then Some {| evs_diagrams := Some (map buildView ds); evs_view := [] |}
        else None))
  = map (readView attributeText attributeNumber nodeText) (map buildView ds).
Proof. destruct ds; reflexivity. Qed.

End ReadBack.

End ExchangeTextFacts.

Module ExchangeRoundTrip.
Import JS Types Model Exchange ExchangeWriter ExchangeReader ExchangeText.
Import Queries Checks Samples ExchangeFacts ExchangeTextFacts SampleParserFacts.

Lemma createFolderStructure_hasOther : hasOther createFolderStructure.
Proof. vm_compute. discriminate. Qed.




(** Texts that are not plain: with a parser that trims values and reads
    digits as a number and false as a boolean, as the reader configures
    it, the identifiers 007, 0, false and a padded identifier are read
    back changed, and an element with the empty name comes back with the
    text of an object as its name. *)
Lemma odd_texts_read_back_changed :
  exists m',
    writeThenParse sampleAttributeText sampleAttributeNumber sampleNodeText
      oddTextModel = Ok m' /\
    map (fun e => (el_id e, el_name e)) (getAllElements oddTextModel)
      = [("007", "Grow"); ("0", "Save"); ("false", "Sell"); (" e4 ", "Keep");
         ("e5", "")] /\
    map (fun e => (el_id e, el_name e)) (getAllElements m')
      = [("7", "Grow"); ("", "Save"); ("", "Sell"); ("e4", "Keep");
         ("e5", "[object Object]")].
Proof.
  eexists. split; [vm_compute; reflexivity |]. repeat split.
Qed.

(** The flat reader files the elements by layer: their order can
    change. *)
Lemma flat_reader_reorders_elements :
  exists m',
    parseExchangeFormat_parsed (writeExchangeFormat_xmlObj applicationFirstModel)
      = Ok m' /\
    map el_id (getAllElements applicationFirstModel) = ["e3"; "e1"] /\
    map el_id (getAllElements m') = ["e1"; "e3"].
Proof.
  eexists. split; [vm_compute; reflexivity |]. repeat split.
Qed.

(** A diagram object of width zero is read back with the default width
    120. *)
Lemma zero_width_read_back_as_default :
  exists m',
    parseExchangeFormat_parsed (writeExchangeFormat_xmlObj zeroWidthModel) = Ok m' /\
    map (fun o => width (obj_bounds o)) (allDiagramObjects zeroWidthModel) = [Num 0] /\
    map (fun o => width (obj_bounds o)) (allDiagramObjects m') = [Num 120].
Proof.
  eexists. split; [vm_compute; reflexivity |]. repeat split.
Qed.

(** The hierarchical codec keeps the same width. *)
Lemma zero_width_kept_by_hierarchical_codec :
  exists m',
    Parser.parseModelComplete_parsed
      (Writer.writeModel_xmlObj
         {| model_id := "m4"; model_name := "Zero"; model_version := "5.0.0";
            model_documentation := None;
            model_folders := [ mkFolder "f4" "Views" "diagrams" [] [] ];
            model_relationships := [];
            model_diagrams := model_diagrams zeroWidthModel |}) = Ok m' /\
    map (fun o => width (obj_bounds o)) (allDiagramObjects m') = [Num 0].
Proof.
  eexists. split; [vm_compute; reflexivity |]. reflexivity.
Qed.

End ExchangeRoundTrip.

(* ================================================================== *)
(** * Further properties of the validation engine *)

Module ValidationChecks.
Import Types Validation.

Definition result_bool_eqb (a b : result bool) : bool :=
  match a, b with
  | Ok x, Ok y => Bool.eqb x y
  | Throw m, Throw n => m =? n
  | _, _ => false
  end.

Fixpoint list_string_eqb (a b : list string) : bool :=
  match a, b with
  | [], [] => true
  | x :: a', y :: b' => (x =? y) && list_string_eqb a' b'
  | _, _ => false
  end.

Definition compositeKinds : list string :=
  [ "Grouping"; "Location"; "Product";
    "Path"; "CommunicationNetwork"; "DistributionNetwork" ].

Definition compositeChecked (kind : string) : bool :=
  Bool.eqb (getElementCategory kind =? "Composite") (includes compositeKinds kind).

Definition compositionSymmetric (s t : string) : bool :=
  result_bool_eqb (isValidRelationship s t "Composition")
                  (isValidRelationship t s "Composition").

Definition targetsChecked (s : string) : bool :=
  match getValidTargetTypes s "Influence",
        getValidTargetTypes s "Specialization",
        getValidTargetTypes s "Association" with
  | Ok inf, Ok spec, Ok assoc =>
      list_string_eqb inf MotivationElementTypes &&
      list_string_eqb spec [s] &&
      list_string_eqb assoc AllElementTypes
  | _, _, _ => false
  end.

End ValidationChecks.

Module ValidationExtras.
Import Types Validation ValidationFacts ValidationChecks.

Lemma result_bool_eqb_eq (a b : result bool) :
  result_bool_eqb a b = true -> a = b.
Proof.
  destruct a as [x | m], b as [y | n]; cbn; intros H; try discriminate.
  - apply Bool.eqb_prop in H. now subst.
  - apply String.eqb_eq in H. now subst.
Qed.

Lemma list_string_eqb_eq (a b : list string) :
  list_string_eqb a b = true -> a = b.
Proof.
  revert b. induction a as [| x a IH]; intros [| y b] H; try discriminate H.
  - reflexivity.
  - cbn in H. apply andb_prop in H. destruct H as [H1 H2].
    apply String.eqb_eq in H1. subst. f_equal. now apply IH.
Qed.

Lemma filterM_throws_first {A : Type} (p : A -> result bool) (x : A) (xs : list A)
    (msg : string) :
  p x = Throw msg -> filterM p (x :: xs) = Throw msg.
Proof. intros H. cbn [filterM]. now rewrite H. Qed.

Lemma filterM_spec {A : Type} (p : A -> result bool) (l : list A) :
  (forall a, In a l -> exists b, p a = Ok b) ->
  exists r, filterM p l = Ok r /\ forall a, In a r <-> In a l /\ p a = Ok true.
Proof.
  induction l as [| x xs IH]; intros Hp.
  - exists []. split; [reflexivity |]. intros a. cbn. tauto.
  - destruct (Hp x (or_introl eq_refl)) as [b Hb].
    destruct (IH (fun a Ha => Hp a (or_intror Ha))) as [r [Hr Hin]].
    exists (if b then x :: r else r). cbn [filterM]. rewrite Hb, Hr.
    split; [reflexivity |].
    intros a. destruct b; cbn [In]; rewrite ?Hin.
    + split.
      * intros [<- | [H1 H2]]; [tauto | tauto].
      * intros [[<- | H1] H2]; [now left | right; tauto].
    + split.
      * intros [H1 H2]. tauto.
      * intros [[<- | H1] H2]; [congruence | tauto].
Qed.

(** *** When the engine answers and when it throws *)

Lemma isValidRelationship_answers (s t r : string) :
  In s AllElementTypes -> In t AllElementTypes ->
  exists b, isValidRelationship s t r = Ok b.
Proof.
  intros Hs Ht.
  destruct (layer_total s Hs) as [ls Els].
  destruct (layer_total t Ht) as [lt Elt].
  unfold isValidRelationship, isSameLayer. rewrite Els, Elt. cbn [bind].
  repeat match goal with
         | |- context [if ?c then _ else _] => destruct c
         end; eexists; reflexivity.
Qed.

(** X2.  [isValidRelationship] answers for every pair of kinds of the
    enumeration, whatever the relationship kind, and throws the
    unknown-element-type error otherwise, naming the source kind when it
    is unknown and the target kind when only the target is. *)
Theorem isValidRelationship_throws_on_unknown_kind (s t r : string) :
  (In s AllElementTypes -> In t AllElementTypes ->
     exists b, isValidRelationship s t r = Ok b) /\
  (~ In s AllElementTypes ->
     isValidRelationship s t r = Throw ("Unknown element type: " ++ s)%string) /\
  (In s AllElementTypes -> ~ In t AllElementTypes ->
     isValidRelationship s t r = Throw ("Unknown element type: " ++ t)%string).
Proof.
  split; [apply isValidRelationship_answers |]. split.
  - intros Hs. unfold isValidRelationship.
    rewrite (proj2 (layer_throws_iff s) (not_In_includes_false _ _ Hs)).
    reflexivity.
  - intros Hs Ht. destruct (layer_total s Hs) as [ls Els].
    unfold isValidRelationship.
    rewrite Els, (proj2 (layer_throws_iff t) (not_In_includes_false _ _ Ht)).
    reflexivity.
Qed.

Lemma isValidRelationship_throws_on_unknown_kind_witness :
  (exists b, isValidRelationship "Goal" "Driver" "Serving" = Ok b) /\
  isValidRelationship "Ghost" "Driver" "Serving" = Throw "Unknown element type: Ghost" /\
  isValidRelationship "Goal" "Ghost" "Serving" = Throw "Unknown element type: Ghost".
Proof.
  assert (Hg : In "Goal" AllElementTypes) by (apply includes_In; vm_compute; reflexivity).
  assert (Hd : In "Driver" AllElementTypes) by (apply includes_In; vm_compute; reflexivity).
  assert (Hx : ~ In "Ghost" AllElementTypes)
    by (apply includes_false_not_In; vm_compute; reflexivity).
  split; [| split].
  - exact (proj1 (isValidRelationship_throws_on_unknown_kind "Goal" "Driver" "Serving") Hg Hd).
  - exact (proj1 (proj2 (isValidRelationship_throws_on_unknown_kind "Ghost" "Driver" "Serving")) Hx).
  - exact (proj2 (proj2 (isValidRelationship_throws_on_unknown_kind "Goal" "Ghost" "Serving")) Hg Hx).
Defined.

(** X1.  Association is valid between any two kinds of the
    enumeration. *)
Theorem association_always_valid (s t : string) :
  In s AllElementTypes -> In t AllElementTypes ->
  isValidRelationship s t "Association" = Ok true.
Proof.
  intros Hs Ht.
  destruct (layer_total s Hs) as [ls Els].
  destruct (layer_total t Ht) as [lt Elt].
  unfold isValidRelationship. rewrite Els, Elt. reflexivity.
Qed.

Lemma association_always_valid_witness :
  isValidRelationship "Gap" "Meaning" "Association" = Ok true.
Proof.
  apply association_always_valid; apply includes_In; vm_compute; reflexivity.
Defined.

(** X3.  A relationship kind outside the eleven kinds is invalid between
    any two kinds of the enumeration: the engine answers false and does
    not throw. *)
Theorem unknown_relationship_kind_is_invalid (s t r : string) :
  In s AllElementTypes -> In t AllElementTypes ->
  ~ In r RelationshipTypes ->
  isValidRelationship s t r = Ok false.
Proof.
  intros Hs Ht Hr.
  destruct (layer_total s Hs) as [ls Els].
  destruct (layer_total t Ht) as [lt Elt].
  assert (Hne : forall k, In k RelationshipTypes -> (r =? k) = false).
  { intros k Hk. apply String.eqb_neq. intros ->. contradiction. }
  unfold isValidRelationship. rewrite Els, Elt. cbn [bind].
  rewrite !Hne by (apply includes_In; vm_compute; reflexivity).
  reflexivity.
Qed.

Lemma unknown_relationship_kind_is_invalid_witness :
  isValidRelationship "Goal" "Driver" "Friendship" = Ok false.
Proof.
  apply unknown_relationship_kind_is_invalid.
  - apply includes_In; vm_compute; reflexivity.
  - apply includes_In; vm_compute; reflexivity.
  - apply includes_false_not_In; vm_compute; reflexivity.
Defined.

(** X4.  Among the kinds of the enumeration, the category Composite is
    that of Grouping, Location and Product, which the classifier lists,
    and of Path, CommunicationNetwork and DistributionNetwork, which it
    lists nowhere and which take the fallback; no other kind has it. *)
Theorem composite_category_kinds (kind : string) :
  In kind AllElementTypes ->
  (getElementCategory kind = "Composite" <->
   In kind [ "Grouping"; "Location"; "Product";
             "Path"; "CommunicationNetwork"; "DistributionNetwork" ]).
Proof.
  intros Hk.
  assert (Hall : forallb compositeChecked AllElementTypes = true)
    by (vm_compute; reflexivity).
  pose proof (forallb_In _ _ _ Hall Hk) as H.
  unfold compositeChecked in H. apply Bool.eqb_prop in H.
  fold compositeKinds. rewrite <- includes_In, <- H.
  split; [intros ->; reflexivity | apply String.eqb_eq].
Qed.

Lemma composite_category_kinds_witness :
  getElementCategory "Path" = "Composite" /\ getElementCategory "Node" <> "Composite".
Proof.
  assert (Hp : In "Path" AllElementTypes) by (apply includes_In; vm_compute; reflexivity).
  assert (Hn : In "Node" AllElementTypes) by (apply includes_In; vm_compute; reflexivity).
  split.
  - apply (proj2 (composite_category_kinds "Path" Hp)). cbn. tauto.
  - intros H. apply (proj1 (composite_category_kinds "Node" Hn)) in H.
    cbn in H. repeat (destruct H as [H | H]; [discriminate H |]). exact H.
Defined.

(** X5.  Composition and Aggregation are decided by the same rule, and
    between kinds of the enumeration the rule is symmetric in the two
    ends. *)
Theorem composition_rule_symmetric (s t : string) :
  In s AllElementTypes -> In t AllElementTypes ->
  isValidRelationship s t "Aggregation" = isValidRelationship s t "Composition" /\
  isValidRelationship s t "Composition" = isValidRelationship t s "Composition".
Proof.
  intros Hs Ht. split; [reflexivity |].
  assert (Hall : forallb (fun a => forallb (compositionSymmetric a) AllElementTypes)
                         AllElementTypes = true)
    by (vm_compute; reflexivity).
  apply result_bool_eqb_eq.
  exact (forallb_In _ _ _ (forallb_In _ _ _ Hall Hs) Ht).
Qed.

Lemma composition_rule_symmetric_witness :
  isValidRelationship "Node" "DataObject" "Aggregation" =
    isValidRelationship "Node" "DataObject" "Composition" /\
  isValidRelationship "Node" "DataObject" "Composition" =
    isValidRelationship "DataObject" "Node" "Composition".
Proof.
  apply composition_rule_symmetric; apply includes_In; vm_compute; reflexivity.
Defined.

Lemma getValidRelationshipTypes_spec (s t : string) :
  In s AllElementTypes -> In t AllElementTypes ->
  exists l, getValidRelationshipTypes s t = Ok l /\
            forall k, In k l <-> In k RelationshipTypes /\ isValidRelationship s t k = Ok true.
Proof.
  intros Hs Ht. unfold getValidRelationshipTypes. cbv zeta.
  apply (filterM_spec (fun relType => isValidRelationship s t relType)).
  intros k _. now apply isValidRelationship_answers.
Qed.

(** X6.  For kinds of the enumeration [validateRelationship] returns a
    result that is valid exactly when [isValidRelationship] answers
    true.  When it is not valid, the suggestions are exactly the kinds
    of the eleven that are valid between the two ends; they always
    include Association, so the no-valid-relationship answer with empty
    suggestions is never given, and they never include the rejected
    kind. *)
Theorem validateRelationship_suggestions (s t r : string) :
  In s AllElementTypes -> In t AllElementTypes ->
  exists res,
    validateRelationship s t r = Ok res /\
    (valid res = true <-> isValidRelationship s t r = Ok true) /\
    (valid res = false ->
       exists l,
         suggestions res = Some l /\
         In "Association" l /\
         ~ In r l /\
         forall k, In k l <->
                   In k RelationshipTypes /\ isValidRelationship s t k = Ok true).
Proof.
  intros Hs Ht.
  destruct (isValidRelationship_answers s t r Hs Ht) as [b Hb].
  unfold validateRelationship. rewrite Hb. cbn [bind].
  destruct b.
  - eexists. split; [reflexivity |]. cbn. split; [tauto | discriminate].
  - destruct (getValidRelationshipTypes_spec s t Hs Ht) as [l [Hl Hin]].
    rewrite Hl. cbn [bind].
    assert (Hassoc : In "Association" l).
    { apply Hin. split; [cbn; tauto | now apply association_always_valid]. }
    destruct l as [| k0 l0]; [contradiction |].
    cbn [List.length Nat.eqb].
    eexists. split; [reflexivity |]. cbn [valid suggestions].
    split; [split; [discriminate | congruence] |].
    intros _. exists (k0 :: l0).
    split; [reflexivity |]. split; [exact Hassoc |]. split; [| exact Hin].
    intros Hr. apply Hin in Hr. destruct Hr as [_ Hr]. congruence.
Qed.

Lemma validateRelationship_suggestions_witness :
  exists res,
    validateRelationship "Goal" "Node" "Access" = Ok res /\
    (valid res = true <-> isValidRelationship "Goal" "Node" "Access" = Ok true) /\
    (valid res = false ->
       exists l,
         suggestions res = Some l /\
         In "Association" l /\
         ~ In "Access" l /\
         forall k, In k l <->
                   In k RelationshipTypes /\
                   isValidRelationship "Goal" "Node" k = Ok true).
Proof.
  apply validateRelationship_suggestions; apply includes_In; vm_compute; reflexivity.
Defined.

(** X7.  For a source kind of the enumeration [getValidTargetTypes]
    returns exactly the kinds of the enumeration that are valid targets;
    for a source kind outside it, it throws the unknown-element-type
    error. *)
Theorem getValidTargetTypes_spec (s r : string) :
  (In s AllElementTypes ->
     exists l, getValidTargetTypes s r = Ok l /\
               forall t, In t l <->
                         In t AllElementTypes /\ isValidRelationship s t r = Ok true) /\
  (~ In s AllElementTypes ->
     getValidTargetTypes s r = Throw ("Unknown element type: " ++ s)%string).
Proof.
  split.
  - intros Hs. unfold getValidTargetTypes. cbv zeta.
    apply (filterM_spec (fun targetType => isValidRelationship s targetType r)).
    intros t Ht. now apply isValidRelationship_answers.
  - intros Hs. unfold getValidTargetTypes. cbv zeta.
    change (MotivationElementTypes ++ StrategyElementTypes ++ BusinessElementTypes ++
            ApplicationElementTypes ++ TechnologyElementTypes ++
            ImplementationElementTypes ++ CompositeElementTypes)
      with ("Stakeholder" :: tl AllElementTypes).
    apply filterM_throws_first.
    exact (proj1 (proj2 (isValidRelationship_throws_on_unknown_kind s "Stakeholder" r)) Hs).
Qed.

Lemma getValidTargetTypes_spec_witness :
  (exists l, getValidTargetTypes "Artifact" "Realization" = Ok l /\
             forall t, In t l <->
                       In t AllElementTypes /\
                       isValidRelationship "Artifact" t "Realization" = Ok true) /\
  getValidTargetTypes "Ghost" "Realization" = Throw "Unknown element type: Ghost".
Proof.
  split.
  - apply (proj1 (getValidTargetTypes_spec "Artifact" "Realization")).
    apply includes_In; vm_compute; reflexivity.
  - apply (proj2 (getValidTargetTypes_spec "Ghost" "Realization")).
    apply includes_false_not_In; vm_compute; reflexivity.
Defined.

(** X8.  For every source kind of the enumeration the valid targets of
    Influence are the ten motivation kinds, the only valid target of
    Specialization is the source kind itself, and every kind is a valid
    target of Association, each list in the order of the enumeration. *)
Theorem valid_targets_of_three_kinds (s : string) :
  In s AllElementTypes ->
  getValidTargetTypes s "Influence" = Ok MotivationElementTypes /\
  getValidTargetTypes s "Specialization" = Ok [s] /\
  getValidTargetTypes s "Association" = Ok AllElementTypes.
Proof.
  intros Hs.
  assert (Hall : forallb targetsChecked AllElementTypes = true)
    by (vm_compute; reflexivity).
  pose proof (forallb_In _ _ _ Hall Hs) as H.
  unfold targetsChecked in H.
  destruct (getValidTargetTypes s "Influence") as [inf |]; [| discriminate].
  destruct (getValidTargetTypes s "Specialization") as [spec |]; [| discriminate].
  destruct (getValidTargetTypes s "Association") as [assoc |]; [| discriminate].
  apply andb_prop in H. destruct H as [H H3].
  apply andb_prop in H. destruct H as [H1 H2].
  apply list_string_eqb_eq in H1, H2, H3. clear Hall. subst.
  split; [reflexivity | split; reflexivity].
Qed.

Lemma valid_targets_of_three_kinds_witness :
  getValidTargetTypes "Device" "Influence" = Ok MotivationElementTypes /\
  getValidTargetTypes "Device" "Specialization" = Ok ["Device"] /\
  getValidTargetTypes "Device" "Association" = Ok AllElementTypes.
Proof.
  apply valid_targets_of_three_kinds. apply includes_In; vm_compute; reflexivity.
Defined.

(** X9.  When the layer of the source lies below the layer of the target
    (a greater level: Motivation 0, Strategy 1, Business 2, Application
    3, Technology and Physical 4, Implementation 5, Composite 6), both
    Realization and Serving are valid. *)
Theorem lower_layer_realizes_and_serves (s t : string) (ls lt : Layer) :
  getLayerForElementType s = Ok ls ->
  getLayerForElementType t = Ok lt ->
  (getLayerLevel ls > getLayerLevel lt)%Z ->
  isValidRelationship s t "Realization" = Ok true /\
  isValidRelationship s t "Serving" = Ok true.
Proof.
  intros Els Elt Hgt.
  assert (Hb : (getLayerLevel ls >? getLayerLevel lt)%Z = true)
    by (apply Z.gtb_lt; lia).
  split.
  - unfold isValidRelationship. rewrite Els, Elt. cbn [bind].
    change ("Realization" =? "Composition") with false.
    change ("Realization" =? "Aggregation") with false.
    change ("Realization" =? "Specialization") with false.
    change ("Realization" =? "Assignment") with false.
    change ("Realization" =? "Realization") with true.
    cbn [orb]. cbv iota. rewrite Hb.
    now destruct (_ && _).
  - unfold isValidRelationship. rewrite Els, Elt. cbn [bind].
    change ("Serving" =? "Composition") with false.
    change ("Serving" =? "Aggregation") with false.
    change ("Serving" =? "Specialization") with false.
    change ("Serving" =? "Assignment") with false.
    change ("Serving" =? "Realization") with false.
    change ("Serving" =? "Serving") with true.
    cbn [orb]. cbv iota. rewrite Hb.
    destruct (getElementCategory s =? "BehaviorExternal"); [reflexivity |].
    now destruct (_ && _).
Qed.

Lemma lower_layer_realizes_and_serves_witness :
  isValidRelationship "Node" "BusinessActor" "Realization" = Ok true /\
  isValidRelationship "Node" "BusinessActor" "Serving" = Ok true.
Proof.
  apply (lower_layer_realizes_and_serves "Node" "BusinessActor" Technology Business).
  - reflexivity.
  - reflexivity.
  - reflexivity.
Defined.

End ValidationExtras.

(* ================================================================== *)
(** * Further properties of the mutations and queries *)

Module MutationChecks.
Import JS Types Model WriterOps.

(** No relationship of the model and no connection of a top-level
    diagram object carries the identifier. *)
Definition relationshipIdUnused (id : string) (m : ArchiMateModel) : bool :=
  forallb (fun r => negb (rel_id r =? id)) (model_relationships m) &&
  forallb (fun d =>
             forallb (fun o =>
                        forallb (fun c => negb (conn_relationshipId c =? id))
                                (obj_sourceConnections o))
                     (diag_objects d))
          (model_diagrams m).

Definition folderTypeAgrees (kind : string) : bool :=
  match getLayerForElementType kind with
  | Ok layer => getFolderTypeForElement kind =? LayerFolderTypes layer
  | Throw _ => false
  end.

Definition skeletonTags : list string :=
  [ "motivation"; "strategy"; "business"; "application"; "technology";
    "implementation_migration"; "other" ].

(** At the name of an inherited member the folder table gives that
    member, which is the type of no folder of the skeleton. *)
Definition inheritedGivesNoFolder (key : string) : bool :=
  (getFolderTypeForElement key =? Tables.inheritedText key) &&
  negb (includes (skeletonTags ++ ["relations"; "diagrams"])
          (getFolderTypeForElement key)).

(** The folder [folder.elements.push(element)] leaves behind. *)
Definition pushed (element : ArchiMateElement) (folder : ArchiMateFolder)
  : ArchiMateFolder :=
  mkFolder (folder_id folder) (folder_name folder) (folder_type folder)
           (folder_elements folder ++ [element]) (folder_subfolders folder).

End MutationChecks.

Module MutationExtras.
Import JS Types Model Tables Writer WriterOps ParserQueries Queries MutationChecks.
Import HierarchicalFacts.

Lemma filter_flat_map {A B : Type} (p : B -> bool) (f : A -> list B) (l : list A) :
  filter p (flat_map f l) = flat_map (fun a => filter p (f a)) l.
Proof.
  induction l as [| a l IH]; [reflexivity |].
  cbn [flat_map]. now rewrite filter_app, IH.
Qed.

Lemma filter_idem {A : Type} (p : A -> bool) (l : list A) :
  filter p (filter p l) = filter p l.
Proof.
  induction l as [| a l IH]; [reflexivity |].
  cbn [filter]. destruct (p a) eqn:E; cbn [filter]; rewrite ?E, IH; reflexivity.
Qed.

Lemma find_filter_negb {A : Type} (p : A -> bool) (l : list A) :
  find p (filter (fun a => negb (p a)) l) = None.
Proof.
  induction l as [| a l IH]; [reflexivity |].
  cbn [filter]. destruct (p a) eqn:E; cbn [negb]; [exact IH |].
  cbn [find]. now rewrite E.
Qed.

Lemma filter_all {A : Type} (p : A -> bool) (l : list A) :
  forallb p l = true -> filter p l = l.
Proof.
  induction l as [| a l IH]; [reflexivity |].
  cbn. intros H. apply andb_prop in H. destruct H as [Ha Hl].
  now rewrite Ha, IH.
Qed.

(** *** Removing an element *)

Lemma collect_removeFromFolder (elementId : string) (f : ArchiMateFolder) :
  collectFromFolder (removeFromFolder elementId f) =
  filter (fun e => negb (el_id e =? elementId)) (collectFromFolder f).
Proof.
  induction f as [id name type elements subfolders IH].
  cbn [removeFromFolder collectFromFolder]. rewrite filter_app. f_equal.
  rewrite filter_flat_map, flat_map_concat_map, map_map, <- flat_map_concat_map.
  apply list_all_Forall in IH.
  induction IH as [| sub rest Hsub _ IHrest]; [reflexivity |].
  cbn [flat_map]. now rewrite Hsub, IHrest.
Qed.

(** X10.  After [removeElementFromModel] the elements of the model, at
    any folder depth, are the former ones without those carrying the
    identifier, in the same order; [getElementById] no longer finds the
    identifier, and [getRelationshipsForElement] returns nothing for it
    in any direction. *)
Theorem removeElement_removes_everywhere
    (m : ArchiMateModel) (elementId : string) (direction : Direction) :
  getAllElements (removeElementFromModel m elementId) =
    filter (fun e => negb (el_id e =? elementId)) (getAllElements m) /\
  getElementById (removeElementFromModel m elementId) elementId = None /\
  getRelationshipsForElement (removeElementFromModel m elementId) elementId direction = [].
Proof.
  assert (Hall : getAllElements (removeElementFromModel m elementId) =
                 filter (fun e => negb (el_id e =? elementId)) (getAllElements m)).
  { unfold getAllElements, removeElementFromModel. cbn [model_folders].
    rewrite filter_flat_map, flat_map_concat_map, map_map, <- flat_map_concat_map.
    apply flat_map_ext. intros f. apply collect_removeFromFolder. }
  split; [exact Hall |]. split.
  - unfold getElementById. rewrite Hall.
    apply (find_filter_negb (fun e => el_id e =? elementId)).
  - unfold getRelationshipsForElement, removeElementFromModel.
    cbn [model_relationships].
    induction (model_relationships m) as [| r rs IH]; [reflexivity |].
    cbn [filter].
    destruct (rel_sourceId r =? elementId) eqn:Es; cbn [negb andb]; [exact IH |].
    destruct (rel_targetId r =? elementId) eqn:Et; cbn [negb]; [exact IH |].
    cbn [filter]. rewrite Es, Et. now destruct direction.
Qed.

(** *** Idempotence of the cascading deletes *)

Lemma removeFromFolder_idem (elementId : string) (f : ArchiMateFolder) :
  removeFromFolder elementId (removeFromFolder elementId f) =
  removeFromFolder elementId f.
Proof.
  induction f as [id name type elements subfolders IH].
  cbn [removeFromFolder]. rewrite filter_idem, map_map. f_equal.
  apply list_all_Forall in IH.
  induction IH as [| sub rest Hsub _ IHrest]; [reflexivity |].
  cbn [map]. now rewrite Hsub, IHrest.
Qed.

(** X11.  Both cascading deletes are idempotent: removing the same
    element, or the same relationship, a second time changes nothing. *)
Theorem cascading_deletes_idempotent (m : ArchiMateModel) (id : string) :
  removeElementFromModel (removeElementFromModel m id) id = removeElementFromModel m id /\
  removeRelationshipFromModel (removeRelationshipFromModel m id) id =
    removeRelationshipFromModel m id.
Proof.
  split.
  - unfold removeElementFromModel.
    cbn [model_id model_name model_version model_documentation model_folders
         model_relationships model_diagrams].
    rewrite filter_idem, !map_map. f_equal.
    + apply map_ext. intros f. apply removeFromFolder_idem.
    + apply map_ext. intros d. unfold setObjects.
      cbn [diag_id diag_name diag_viewpoint diag_documentation diag_objects].
      now rewrite filter_idem.
  - unfold removeRelationshipFromModel.
    cbn [model_id model_name model_version model_documentation model_folders
         model_relationships model_diagrams].
    rewrite filter_idem, !map_map. f_equal.
    apply map_ext. intros d. unfold setObjects.
    cbn [diag_id diag_name diag_viewpoint diag_documentation diag_objects].
    f_equal. rewrite map_map. apply map_ext. intros o.
    unfold setSourceConnections.
    cbn [obj_id obj_elementId obj_bounds obj_sourceConnections
         obj_targetConnectionIds obj_children].
    now rewrite filter_idem.
Qed.

(** X12.  Adding a relationship whose identifier is used by no
    relationship of the model and by no connection of a top-level diagram
    object, and then removing it by that identifier, gives back the
    model. *)
Theorem add_then_remove_relationship (m : ArchiMateModel) (r : ArchiMateRelationship) :
  relationshipIdUnused (rel_id r) m = true ->
  removeRelationshipFromModel (addRelationshipToModel m r) (rel_id r) = m.
Proof.
  unfold relationshipIdUnused. intros H.
  apply andb_prop in H. destruct H as [Hrels Hconns].
  destruct m as [mid mname mver mdoc folders rels diagrams].
  unfold removeRelationshipFromModel, addRelationshipToModel.
  cbn [model_id model_name model_version model_documentation model_folders
       model_relationships model_diagrams] in *.
  f_equal.
  - rewrite filter_app, (filter_all _ _ Hrels). cbn [filter].
    rewrite String.eqb_refl. cbn [negb]. apply app_nil_r.
  - rewrite <- (map_id diagrams) at 2. apply map_ext_in. intros d Hd.
    pose proof (forallb_In _ _ _ Hconns Hd) as Hobjs.
    destruct d as [did dname dvp ddoc objs]. unfold setObjects.
    cbn [diag_id diag_name diag_viewpoint diag_documentation diag_objects] in *.
    f_equal.
    rewrite <- (map_id objs) at 2. apply map_ext_in. intros o Ho.
    pose proof (forallb_In _ _ _ Hobjs Ho) as Hcs.
    destruct o as [oid oel ob conns inc ch]. unfold setSourceConnections.
    cbn [obj_id obj_elementId obj_bounds obj_sourceConnections
         obj_targetConnectionIds obj_children] in *.
    now rewrite (filter_all _ _ Hcs).
Qed.

Lemma add_then_remove_relationship_witness :
  removeRelationshipFromModel
    (addRelationshipToModel Samples.sampleModel
       {| rel_id := "r9"; rel_type := "Flow"; rel_sourceId := "e2"; rel_targetId := "e3";
          rel_name := None; rel_documentation := None; rel_accessType := None;
          rel_influenceModifier := None; rel_properties := [] |}) "r9"
  = Samples.sampleModel.
Proof.
  apply (add_then_remove_relationship Samples.sampleModel
           {| rel_id := "r9"; rel_type := "Flow"; rel_sourceId := "e2";
              rel_targetId := "e3"; rel_name := None; rel_documentation := None;
              rel_accessType := None; rel_influenceModifier := None;
              rel_properties := [] |}).
  vm_compute. reflexivity.
Defined.

(** *** Updating an element *)

Lemma updateFirst_app (elementId : string) (u : ElementUpdates)
    (a b : list ArchiMateElement) :
  updateFirst elementId u (a ++ b) =
  match updateFirst elementId u a with
  | Some a' => Some (a' ++ b)
  | None => option_map (app a) (updateFirst elementId u b)
  end.
Proof.
  induction a as [| e a IH]; cbn [app updateFirst].
  - now destruct (updateFirst elementId u b).
  - destruct (el_id e =? elementId); [reflexivity |].
    rewrite IH. destruct (updateFirst elementId u a); [reflexivity |].
    now destruct (updateFirst elementId u b).
Qed.

(** The update of a folder list commutes with flattening it. *)
Lemma updateInFolderIn_collect (elementId : string) (u : ElementUpdates)
    (f : ArchiMateFolder) :
  option_map collectFromFolder (updateInFolderIn elementId u f) =
  updateFirst elementId u (collectFromFolder f).
Proof.
  induction f as [id name type elements subfolders IH].
  cbn [updateInFolderIn collectFromFolder]. rewrite updateFirst_app.
  destruct (updateFirst elementId u elements) as [elements' |]; [reflexivity |].
  apply list_all_Forall in IH.
  match goal with
  | |- option_map _ (match ?F subfolders with _ => _ end) = _ =>
      assert (Hsubs : option_map (flat_map collectFromFolder) (F subfolders) =
                      updateFirst elementId u (flat_map collectFromFolder subfolders));
      [| destruct (F subfolders) as [subs' |]; cbn [option_map] in *;
         rewrite <- Hsubs; reflexivity]
  end.
  induction IH as [| sub rest Hsub _ IHrest]; [reflexivity |].
  cbn [flat_map]. rewrite updateFirst_app, <- Hsub.
  destruct (updateInFolderIn elementId u sub) as [sub' |]; [reflexivity |].
  cbn [option_map]. rewrite <- IHrest.
  match goal with
  | |- context [match ?X with _ => _ end] => destruct X
  end; reflexivity.
Qed.

Lemma updateInFolder_collect (elementId : string) (u : ElementUpdates)
    (fs : list ArchiMateFolder) :
  option_map (flat_map collectFromFolder) (updateInFolder elementId u fs) =
  updateFirst elementId u (flat_map collectFromFolder fs).
Proof.
  induction fs as [| f fs IH]; [reflexivity |].
  cbn [updateInFolder flat_map].
  rewrite updateFirst_app, <- updateInFolderIn_collect.
  destruct (updateInFolderIn elementId u f) as [f' |]; [reflexivity |].
  cbn [option_map]. rewrite <- IH.
  now destruct (updateInFolder elementId u fs).
Qed.

Lemma updateFirst_None (elementId : string) (u : ElementUpdates)
    (l : list ArchiMateElement) :
  find (fun e => el_id e =? elementId) l = None -> updateFirst elementId u l = None.
Proof.
  induction l as [| e l IH]; [reflexivity |].
  cbn [find updateFirst]. destruct (el_id e =? elementId); [discriminate |].
  intros H. now rewrite (IH H).
Qed.

Lemma updateFirst_Some (elementId : string) (u : ElementUpdates)
    (l : list ArchiMateElement) (e : ArchiMateElement) :
  find (fun e => el_id e =? elementId) l = Some e ->
  exists l',
    updateFirst elementId u l = Some l' /\
    find (fun e => el_id e =? elementId) l' = Some (applyUpdates u e) /\
    map el_id l' = map el_id l /\
    map el_type l' = map el_type l /\
    forall other, other <> elementId ->
      find (fun e => el_id e =? other) l' = find (fun e => el_id e =? other) l.
Proof.
  induction l as [| x l IH]; [discriminate |].
  cbn [find updateFirst]. destruct (el_id x =? elementId) eqn:Ex.
  - intros H. injection H as <-. eexists. split; [reflexivity |].
    cbn [find map applyUpdates el_id el_type]. rewrite Ex.
    repeat split.
    intros other Hother.
    apply String.eqb_eq in Ex. rewrite Ex.
    now rewrite (proj2 (String.eqb_neq elementId other)) by congruence.
  - intros H. destruct (IH H) as [l' [Hu [Hf [Hi [Ht Ho]]]]].
    rewrite Hu. eexists. split; [reflexivity |].
    cbn [find map]. rewrite Ex, Hf, Hi, Ht.
    repeat split.
    intros other Hother. now rewrite (Ho other Hother).
Qed.

(** X13.  [updateElementInModel] changes nothing when no element has
    the identifier.  Otherwise it updates the element that
    [getElementById] finds, which afterwards is that element with the
    fields present in the update replaced; the identifiers and kinds of
    all elements, and what [getElementById] finds for any other
    identifier, stay as they were. *)
Theorem updateElement_then_get
    (m : ArchiMateModel) (elementId : string) (u : ElementUpdates) :
  (getElementById m elementId = None -> updateElementInModel m elementId u = m) /\
  (forall e, getElementById m elementId = Some e ->
     getElementById (updateElementInModel m elementId u) elementId =
       Some (applyUpdates u e) /\
     map el_id (getAllElements (updateElementInModel m elementId u)) =
       map el_id (getAllElements m) /\
     map el_type (getAllElements (updateElementInModel m elementId u)) =
       map el_type (getAllElements m) /\
     forall other, other <> elementId ->
       getElementById (updateElementInModel m elementId u) other =
         getElementById m other).
Proof.
  unfold getElementById, updateElementInModel, getAllElements.
  pose proof (updateInFolder_collect elementId u (model_folders m)) as Hc.
  split.
  - intros Hnone. rewrite (updateFirst_None _ u _ Hnone) in Hc.
    now destruct (updateInFolder elementId u (model_folders m)).
  - intros e Hsome.
    destruct (updateFirst_Some _ u _ _ Hsome) as [l' [Hu Hrest]].
    rewrite Hu in Hc.
    destruct (updateInFolder elementId u (model_folders m)) as [fs' |];
      [| discriminate].
    cbn [option_map] in Hc. injection Hc as Hc.
    cbn [setFolders model_folders]. rewrite Hc. exact Hrest.
Qed.

Lemma updateElement_then_get_witness :
  getElementById
    (updateElementInModel Samples.sampleModel "e2"
       {| up_name := Some "Order handling"; up_documentation := None;
          up_properties := None |}) "e2"
  = Some (applyUpdates {| up_name := Some "Order handling"; up_documentation := None;
                          up_properties := None |} Samples.ordering) /\
  updateElementInModel Samples.sampleModel "nobody"
    {| up_name := Some "x"; up_documentation := None; up_properties := None |}
  = Samples.sampleModel.
Proof.
  split.
  - apply (proj2 (updateElement_then_get Samples.sampleModel "e2"
                    {| up_name := Some "Order handling"; up_documentation := None;
                       up_properties := None |}) Samples.ordering).
    reflexivity.
  - apply (proj1 (updateElement_then_get Samples.sampleModel "nobody"
                    {| up_name := Some "x"; up_documentation := None;
                       up_properties := None |})).
    reflexivity.
Defined.

(** *** Adding an element *)

Lemma lookup_In {V : Type} (table : list (string * V)) (k : string) (v : V) :
  lookup table k = Some v -> In (k, v) table.
Proof.
  induction table as [| [k' v'] table IH]; [discriminate |].
  cbn [lookup]. destruct (String.eqb_spec k k') as [-> | _].
  - intros H. injection H as <-. now left.
  - intros H. right. now apply IH.
Qed.

(** X14.  The folder table of the writer agrees with the layer table of
    the type definitions: for a kind of the enumeration the folder type
    is the one [LayerFolderTypes] gives for its layer.  For any other
    kind it is other, unless the kind is the name of a member that the
    table inherits: then it is that member, which is the type of no
    folder of the skeleton. *)
Theorem getFolderTypeForElement_agrees_with_layer (kind : string) :
  (forall layer, getLayerForElementType kind = Ok layer ->
     getFolderTypeForElement kind = LayerFolderTypes layer) /\
  (~ In kind AllElementTypes -> includes Tables.inheritedKeys kind = false ->
     getFolderTypeForElement kind = "other") /\
  (includes Tables.inheritedKeys kind = true ->
     getFolderTypeForElement kind = Tables.inheritedText kind /\
     ~ In (getFolderTypeForElement kind)
          (skeletonTags ++ ["relations"; "diagrams"])).
Proof.
  split; [| split].
  - intros layer Hl.
    assert (Hk : In kind AllElementTypes).
    { apply includes_In. destruct (includes AllElementTypes kind) eqn:E; [reflexivity |].
      apply ValidationFacts.layer_throws_iff in E. congruence. }
    assert (Hall : forallb folderTypeAgrees AllElementTypes = true)
      by (vm_compute; reflexivity).
    pose proof (forallb_In _ _ _ Hall Hk) as H. clear Hall.
    unfold folderTypeAgrees in H. rewrite Hl in H. now apply String.eqb_eq.
  - intros Hout Hown. unfold getFolderTypeForElement, Tables.tableGet.
    destruct (Tables.lookup folderMap kind) as [v |] eqn:E;
      [| rewrite Hown; reflexivity].
    exfalso. apply Hout. apply lookup_In in E.
    apply (in_map fst) in E. cbn [fst] in E.
    apply includes_In.
    apply (sublistb_includes (map fst folderMap) AllElementTypes);
      [vm_compute; reflexivity | now apply includes_In].
  - intros Hin. apply includes_In in Hin.
    assert (Hall : forallb inheritedGivesNoFolder Tables.inheritedKeys = true)
      by (vm_compute; reflexivity).
    pose proof (forallb_In _ _ _ Hall Hin) as H. clear Hall.
    unfold inheritedGivesNoFolder in H. apply andb_prop in H. destruct H as [H1 H2].
    split; [now apply String.eqb_eq |].
    apply includes_false_not_In. now apply negb_true_iff.
Qed.

Lemma getFolderTypeForElement_agrees_with_layer_witness :
  getFolderTypeForElement "Equipment" = "technology" /\
  getFolderTypeForElement "Unicorn" = "other" /\
  getFolderTypeForElement "constructor" = "function Object() { [native code] }".
Proof.
  split; [| split].
  - apply (proj1 (getFolderTypeForElement_agrees_with_layer "Equipment") Physical).
    reflexivity.
  - apply (proj1 (proj2 (getFolderTypeForElement_agrees_with_layer "Unicorn"))).
    + apply includes_false_not_In. vm_compute. reflexivity.
    + reflexivity.
  - apply (proj2 (proj2 (getFolderTypeForElement_agrees_with_layer "constructor"))).
    reflexivity.
Defined.

Lemma addToFolderIn_eq (ft : string) (e : ArchiMateElement) (id name type : string)
    (elements : list ArchiMateElement) (subfolders : list ArchiMateFolder) :
  addToFolderIn ft e (mkFolder id name type elements subfolders) =
  if type =? ft
  then Some (mkFolder id name type (elements ++ [e]) subfolders)
  else match addToFolder ft e subfolders with
       | Some subfolders' => Some (mkFolder id name type elements subfolders')
       | None => None
       end.
Proof.
  cbn [addToFolderIn]. destruct (type =? ft); [reflexivity |].
  match goal with
  | |- match ?F subfolders with _ => _ end = _ =>
      assert (H : forall l, F l = addToFolder ft e l);
      [| now rewrite H]
  end.
  induction l as [| f rest IH]; [reflexivity |].
  cbn [addToFolder]. now rewrite IH.
Qed.

Lemma findFolderIn_eq (ft : string) (id name type : string)
    (elements : list ArchiMateElement) (subfolders : list ArchiMateFolder) :
  findFolderIn ft (mkFolder id name type elements subfolders) =
  if type =? ft then Some (mkFolder id name type elements subfolders)
  else findFolder ft subfolders.
Proof.
  cbn [findFolderIn]. destruct (type =? ft); [reflexivity |].
  induction subfolders as [| f rest IH]; [reflexivity |].
  cbn [findFolder]. now rewrite IH.
Qed.

(** What [addToFolder] does to one folder, in terms of the folder
    [findFolder] returns. *)
Definition addedIn (ft : string) (e : ArchiMateElement) (f : ArchiMateFolder) : Prop :=
  match findFolderIn ft f with
  | None => addToFolderIn ft e f = None
  | Some g =>
      exists f',
        addToFolderIn ft e f = Some f' /\
        findFolderIn ft f' = Some (pushed e g) /\
        Permutation (collectFromFolder f') (e :: collectFromFolder f)
  end.

Definition addedTo (ft : string) (e : ArchiMateElement) (fs : list ArchiMateFolder)
  : Prop :=
  match findFolder ft fs with
  | None => addToFolder ft e fs = None
  | Some g =>
      exists fs',
        addToFolder ft e fs = Some fs' /\
        findFolder ft fs' = Some (pushed e g) /\
        Permutation (flat_map collectFromFolder fs') (e :: flat_map collectFromFolder fs)
  end.

Lemma addedTo_of_addedIn (ft : string) (e : ArchiMateElement) (fs : list ArchiMateFolder) :
  Forall (addedIn ft e) fs -> addedTo ft e fs.
Proof.
  induction 1 as [| f rest Hf _ IH]; [reflexivity |].
  unfold addedTo, addedIn in *. cbn [findFolder addToFolder flat_map].
  destruct (findFolderIn ft f) as [g |] eqn:Ef.
  - destruct Hf as [f' [Ha [Hfind Hperm]]]. rewrite Ha.
    eexists. split; [reflexivity |]. cbn [findFolder flat_map]. rewrite Hfind.
    split; [reflexivity |]. now rewrite Hperm.
  - rewrite Hf. destruct (findFolder ft rest) as [g |].
    + destruct IH as [rest' [Ha [Hfind Hperm]]]. rewrite Ha.
      eexists. split; [reflexivity |]. cbn [findFolder flat_map]. rewrite Ef, Hfind.
      split; [reflexivity |]. rewrite Hperm. symmetry. apply Permutation_middle.
    + now rewrite IH.
Qed.

Lemma addedIn_all (ft : string) (e : ArchiMateElement) (f : ArchiMateFolder) :
  addedIn ft e f.
Proof.
  induction f as [id name type elements subfolders IH].
  apply list_all_Forall in IH. apply addedTo_of_addedIn in IH.
  unfold addedIn, addedTo in *.
  rewrite findFolderIn_eq, addToFolderIn_eq.
  destruct (type =? ft) eqn:Et.
  - eexists. split; [reflexivity |]. rewrite findFolderIn_eq, Et.
    split; [reflexivity |].
    cbn [collectFromFolder]. rewrite <- app_assoc. cbn [app].
    symmetry. apply Permutation_middle.
  - destruct (findFolder ft subfolders) as [g |].
    + destruct IH as [subs' [Ha [Hfind Hperm]]]. rewrite Ha.
      eexists. split; [reflexivity |]. rewrite findFolderIn_eq, Et.
      split; [exact Hfind |].
      cbn [collectFromFolder]. rewrite Hperm. symmetry. apply Permutation_middle.
    + now rewrite IH.
Qed.


(** X16.  On the model [createEmptyModel] returns, [addElementToModel]
    places an element of any kind, of the enumeration or not, that is
    not the name of a member the folder table inherits: the model then
    holds exactly that element, and [getElementById] finds it.  An
    element whose kind is such a name is not placed: the model is
    returned as it was. *)
Theorem createEmptyModel_places_every_element
    (generated : nat -> string) (name id : string) (e : ArchiMateElement) :
  (includes Tables.inheritedKeys (el_type e) = false ->
   getAllElements (addElementToModel (createEmptyModel generated name id) e) = [e] /\
   getElementById (addElementToModel (createEmptyModel generated name id) e) (el_id e)
     = Some e) /\
  (includes Tables.inheritedKeys (el_type e) = true ->
   addElementToModel (createEmptyModel generated name id) e
     = createEmptyModel generated name id).
Proof.
  split.
  - intros Hown.
    assert (Hft : In (getFolderTypeForElement (el_type e)) skeletonTags).
    { unfold getFolderTypeForElement, Tables.tableGet.
      destruct (Tables.lookup folderMap (el_type e)) as [v |] eqn:E.
      - apply lookup_In in E. apply (in_map snd) in E. cbn [snd] in E.
        assert (Hv : In v skeletonTags).
        { apply includes_In.
          apply (sublistb_includes (map snd folderMap) skeletonTags);
            [vm_compute; reflexivity | now apply includes_In]. }
        assert (Ht : truthy v = true).
        { unfold skeletonTags in Hv. cbn [In] in Hv.
          repeat (destruct Hv as [<- | Hv]; [reflexivity |]). contradiction. }
        unfold strOr. now rewrite Ht.
      - rewrite Hown. cbn. tauto. }
    assert (Hall : getAllElements
                     (addElementToModel (createEmptyModel generated name id) e)
                   = [e]).
    { unfold addElementToModel. unfold skeletonTags in Hft. cbn [In] in Hft.
      repeat (destruct Hft as [Hft | Hft]; [rewrite <- Hft; reflexivity |]).
      contradiction. }
    split; [exact Hall |].
    unfold getElementById. rewrite Hall. cbn [find]. now rewrite String.eqb_refl.
  - intros Hin. apply includes_In in Hin.
    unfold addElementToModel.
    unfold Tables.inheritedKeys in Hin. cbn [In] in Hin.
    repeat (destruct Hin as [Hin | Hin]; [rewrite <- Hin; reflexivity |]).
    contradiction.
Qed.

Lemma createEmptyModel_places_every_element_witness :
  getAllElements
    (addElementToModel (createEmptyModel (fun _ => "id-1") "New" "m0") Samples.order)
    = [Samples.order] /\
  addElementToModel (createEmptyModel (fun _ => "id-1") "New" "m0")
    {| el_id := "e0"; el_type := "toString"; el_name := "Odd";
       el_documentation := None; el_properties := [] |}
    = createEmptyModel (fun _ => "id-1") "New" "m0".
Proof.
  split.
  - apply (proj1 (createEmptyModel_places_every_element
                    (fun _ => "id-1") "New" "m0" Samples.order)).
    reflexivity.
  - apply (proj2 (createEmptyModel_places_every_element
                    (fun _ => "id-1") "New" "m0"
                    {| el_id := "e0"; el_type := "toString"; el_name := "Odd";
                       el_documentation := None; el_properties := [] |})).
    reflexivity.
Defined.

End MutationExtras.

(* ================================================================== *)
(** * Further properties of the hierarchical codec *)

Module CodecChecks.
Import JS Types Model Xml Tables Parser Queries.

(** The relationships of a folder of the document and of the folders
    below it, depth first: a folder's own elements before its
    subfolders. *)
Fixpoint relationshipsBelow (xmlFolder : XmlFolder) : list ArchiMateRelationship :=
  match xmlFolder with
  | mkXmlFolder _ _ _ element folder =>
      pushEach parseRelationship element ++ flat_map relationshipsBelow folder
  end.

Definition taggedDiagrams (xmlFolder : XmlFolder) : bool :=
  strOr (xf_type xmlFolder) "" =? "diagrams".

(** The type attribute of a document element is not the name of a member
    that the name tables inherit; the same for every element of a folder
    and of the folders below it. *)
Definition typeNotInherited (elem : XmlElement) : bool :=
  match xe_xsi_type elem with
  | Some t => negb (includes inheritedKeys t)
  | None => true
  end.

Fixpoint typesNotInherited (xmlFolder : XmlFolder) : bool :=
  match xmlFolder with
  | mkXmlFolder _ _ _ element folder =>
      forallb typeNotInherited element && forallb typesNotInherited folder
  end.

(** The qualifiers of a relationship fit its kind: an access type only
    on Access, an influence modifier, not empty, only on Influence. *)
Definition qualifiersOk (r : ArchiMateRelationship) : bool :=
  match rel_accessType r with
  | Some _ => rel_type r =? "Access"
  | None => true
  end &&
  match rel_influenceModifier r with
  | Some s => (rel_type r =? "Influence") && truthy s
  | None => true
  end.

Fixpoint noSpace (s : string) : bool :=
  match s with
  | EmptyString => true
  | String c r => negb (Ascii.eqb c " ") && noSpace r
  end.

(** Identifiers that are not empty and hold no space. *)
Definition idsOk (ids : list string) : bool :=
  forallb (fun s => truthy s && noSpace s) ids.

(** A diagram object whose coordinates, and those of the bendpoints of
    its connections, are safe integers or [NaN], and whose
    incoming-connection identifiers are not empty and hold no space; the
    same for the objects nested in it. *)
Fixpoint objectOk (o : DiagramObject) : bool :=
  match o with
  | mkDiagramObject _ _ bounds conns incoming children =>
      boundsSafe bounds && forallb connectionSafe conns &&
      idsOk incoming && forallb objectOk children
  end.

Definition diagramFullyOk (d : ArchiMateDiagram) : bool :=
  textOk (diag_documentation d) &&
  match diag_viewpoint d with
  | None => true
  | Some _ => false
  end &&
  forallb objectOk (diag_objects d).

(** The access type, when there is one, is one of the three of the
    type. *)
Definition accessListed (r : ArchiMateRelationship) : bool :=
  match rel_accessType r with
  | Some (NotAnAccessType _) => false
  | _ => true
  end.

Definition modelFullyOk (m : ArchiMateModel) : bool :=
  hierarchicalOk m &&
  truthy (model_version m) &&
  textOk (model_documentation m) &&
  forallb (fun r => qualifiersOk r && accessListed r) (model_relationships m) &&
  forallb diagramFullyOk (model_diagrams m).

Definition kindListed (e : ArchiMateElement) : bool :=
  includes AllElementTypes (el_type e).

Definition relationshipKindListed (r : ArchiMateRelationship) : bool :=
  includes RelationshipTypes (rel_type r).

End CodecChecks.

Module HierarchicalExtras.
Import JS JSFacts Types Model Xml Tables Writer Parser Queries Checks CodecChecks.
Import HierarchicalFacts HierarchicalRoundTrip.

(** *** What each kind of document element is parsed as *)

Lemma tableGet_own (table : list (string * string)) (k v : string) :
  includes inheritedKeys k = false ->
  tableGet table k = Some v -> lookup table k = Some v.
Proof.
  intros Hown. unfold tableGet.
  destruct (lookup table k) as [w |]; [trivial |]. now rewrite Hown.
Qed.

Lemma tableGet_truthy (table : list (string * string)) (k v : string) :
  forallb (fun entry => truthy (snd entry)) table = true ->
  tableGet table k = Some v -> truthy v = true.
Proof.
  intros Hall. unfold tableGet.
  destruct (lookup table k) as [w |] eqn:E.
  - intros H. injection H as <-. apply MutationExtras.lookup_In in E.
    exact (forallb_In _ _ _ Hall E).
  - destruct (includes inheritedKeys k) eqn:Ek; [| discriminate].
    intros H. injection H as <-. apply includes_In in Ek.
    assert (Hkeys : forallb (fun key => truthy (inheritedText key)) inheritedKeys = true)
      by (vm_compute; reflexivity).
    exact (forallb_In _ _ _ Hkeys Ek).
Qed.

Lemma relationship_name_not_element (t v : string) :
  lookup XmlTypeToRelationshipType t = Some v ->
  tableGet XmlTypeToElementType t = None /\
  (t =? "archimate:ArchimateDiagramModel") = false.
Proof.
  intros H. apply MutationExtras.lookup_In in H.
  unfold XmlTypeToRelationshipType in H. cbn [In] in H.
  repeat (destruct H as [H | H]; [injection H as <- <-; repeat split |]).
  contradiction.
Qed.

Lemma inherited_name_not_diagram (t : string) :
  includes inheritedKeys t = true ->
  (t =? "archimate:ArchimateDiagramModel") = false.
Proof.
  intros H. apply includes_In in H. unfold inheritedKeys in H. cbn [In] in H.
  repeat (destruct H as [<- | H]; [reflexivity |]). contradiction.
Qed.

Lemma isRelationshipType_parse (elem : XmlElement) :
  isRelationshipType (xe_xsi_type elem) = true ->
  (exists r, parseRelationship elem = Some r) /\
  isDiagramType (xe_xsi_type elem) = false /\
  (typeNotInherited elem = true -> parseElement elem = None).
Proof.
  unfold isRelationshipType, parseRelationship, parseElement, isDiagramType,
         typeNotInherited, nonEmpty.
  destruct (xe_xsi_type elem) as [t |]; [| discriminate].
  destruct (truthy t) eqn:Et; [| discriminate].
  destruct (tableGet XmlTypeToRelationshipType t) as [v |] eqn:El; [| discriminate].
  assert (Hv : truthy v = true).
  { apply (tableGet_truthy XmlTypeToRelationshipType t v);
      [vm_compute; reflexivity | exact El]. }
  rewrite Hv. intros _.
  split; [eexists; reflexivity |].
  destruct (includes inheritedKeys t) eqn:Ek.
  - split; [now apply inherited_name_not_diagram | discriminate].
  - apply (tableGet_own _ _ _ Ek) in El.
    destruct (relationship_name_not_element t v El) as [He Hd].
    rewrite He, Hd. split; reflexivity.
Qed.

Lemma not_relationshipType_parse (elem : XmlElement) :
  isRelationshipType (xe_xsi_type elem) = false ->
  parseRelationship elem = None.
Proof.
  unfold isRelationshipType, parseRelationship.
  destruct (nonEmpty (xe_xsi_type elem)) as [t |]; [| reflexivity].
  now destruct (nonEmpty (tableGet XmlTypeToRelationshipType t)).
Qed.

Lemma isDiagramType_parse (elem : XmlElement) :
  isDiagramType (xe_xsi_type elem) = true ->
  (exists d, parseDiagram elem = Some d) /\ parseElement elem = None.
Proof.
  intros H. unfold parseDiagram. rewrite H. cbn [negb].
  split; [eexists; reflexivity |].
  unfold isDiagramType in H. unfold parseElement.
  destruct (xe_xsi_type elem) as [t |]; [| discriminate].
  apply String.eqb_eq in H. subst t. reflexivity.
Qed.

Lemma not_diagramType_parse (elem : XmlElement) :
  isDiagramType (xe_xsi_type elem) = false -> parseDiagram elem = None.
Proof. intros H. unfold parseDiagram. now rewrite H. Qed.

Lemma processElements_split (elements : list XmlElement) :
  forallb typeNotInherited elements = true ->
  forall relationships diagrams,
    processElements elements (relationships, diagrams) =
    (pushEach parseElement elements,
     (relationships ++ pushEach parseRelationship elements,
      diagrams ++ pushEach parseDiagram elements)).
Proof.
  induction elements as [| elem rest IH]; intros Hown relationships diagrams.
  - cbn. now rewrite !app_nil_r.
  - cbn [forallb] in Hown. apply andb_prop in Hown. destruct Hown as [Helem Hrest].
    cbn [processElements pushEach].
    destruct (isRelationshipType (xe_xsi_type elem)) eqn:Er.
    + destruct (isRelationshipType_parse elem Er) as [[r Hr] [Hd He]].
      rewrite Hr, (He Helem), (not_diagramType_parse elem Hd), (IH Hrest).
      now rewrite <- app_assoc.
    + rewrite (not_relationshipType_parse elem Er).
      destruct (isDiagramType (xe_xsi_type elem)) eqn:Ed.
      * destruct (isDiagramType_parse elem Ed) as [[d Hd] He].
        rewrite Hd, He, (IH Hrest). now rewrite <- app_assoc.
      * rewrite (not_diagramType_parse elem Ed).
        destruct (parseElement elem); rewrite (IH Hrest); reflexivity.
Qed.

Lemma processFolder_split (xmlFolder : XmlFolder) :
  typesNotInherited xmlFolder = true ->
  forall relationships diagrams,
    processFolder xmlFolder (relationships, diagrams) =
    (parseFolder xmlFolder,
     (relationships ++ relationshipsBelow xmlFolder,
      diagrams ++ extractDiagrams xmlFolder)).
Proof.
  induction xmlFolder as [name id type element folder IH].
  cbn [typesNotInherited]. intros Hown relationships diagrams.
  apply andb_prop in Hown. destruct Hown as [Helems Hsub].
  rewrite processFolder_eq. unfold toArray.
  rewrite (processElements_split _ Helems).
  cbn [parseFolder relationshipsBelow extractDiagrams]. unfold toArray.
  apply list_all_Forall in IH.
  assert (Hsubs : forall rs ds,
             processFolders folder (rs, ds) =
             (map parseFolder folder,
              (rs ++ flat_map relationshipsBelow folder,
               ds ++ flat_map extractDiagrams folder))).
  { induction IH as [| sub rest Hsub1 _ IHrest]; intros rs ds.
    - cbn. now rewrite !app_nil_r.
    - cbn [forallb] in Hsub. apply andb_prop in Hsub. destruct Hsub as [H1 H2].
      cbn [processFolders map flat_map]. rewrite (Hsub1 H1), (IHrest H2).
      now rewrite <- !app_assoc. }
  rewrite Hsubs. now rewrite <- !app_assoc.
Qed.

Lemma processFolders_split (folders : list XmlFolder) :
  forallb typesNotInherited folders = true ->
  forall relationships diagrams,
    processFolders folders (relationships, diagrams) =
    (map parseFolder folders,
     (relationships ++ flat_map relationshipsBelow folders,
      diagrams ++ flat_map extractDiagrams folders)).
Proof.
  induction folders as [| f rest IH]; intros Hown relationships diagrams.
  - cbn. now rewrite !app_nil_r.
  - cbn [forallb] in Hown. apply andb_prop in Hown. destruct Hown as [H1 H2].
    cbn [processFolders map flat_map].
    rewrite (processFolder_split _ H1), (IH H2).
    now rewrite <- !app_assoc.
Qed.

(** X17.  On a document in which no type attribute is the name of a
    member that the name tables inherit, [parseModelComplete] collects
    the relationships and the diagrams of every folder of the document,
    at any depth and whatever the folder's tag, in document order; each
    folder keeps only its elements.  [parseModel] builds the same
    folders, returns no relationship, and collects diagrams only below
    the top-level folders tagged diagrams. *)
Theorem readers_collect (root : XmlModelRoot) :
  forallb typesNotInherited (xm_folder root) = true ->
  exists complete simple,
    parseModelComplete_parsed {| archimate_model := Some root |} = Ok complete /\
    parseModel_parsed {| archimate_model := Some root |} = Ok simple /\
    model_folders complete = map parseFolder (xm_folder root) /\
    model_relationships complete = flat_map relationshipsBelow (xm_folder root) /\
    model_diagrams complete = flat_map extractDiagrams (xm_folder root) /\
    model_folders simple = model_folders complete /\
    model_relationships simple = [] /\
    model_diagrams simple =
      flat_map extractDiagrams (filter taggedDiagrams (xm_folder root)).
Proof.
  intros Hown.
  unfold parseModelComplete_parsed, parseModel_parsed, toArray.
  cbn [archimate_model]. rewrite (processFolders_split _ Hown). cbn [app].
  match goal with
  | |- context [fold_left ?step _ _] =>
      assert (Hfold : forall l fs ds,
                 fold_left step l (fs, [], ds) =
                 (fs ++ map parseFolder l, [],
                  ds ++ flat_map extractDiagrams (filter taggedDiagrams l)))
  end.
  { induction l as [| xf l IH]; intros fs ds.
    - cbn. now rewrite !app_nil_r.
    - cbn [fold_left filter]. unfold taggedDiagrams at 1.
      replace (strOr (xf_type xf) "") with (folder_type (parseFolder xf))
        by (destruct xf; reflexivity).
      change (extractRelationships (parseFolder xf) [])
        with (@nil ArchiMateRelationship).
      destruct (folder_type (parseFolder xf) =? "relations");
        destruct (folder_type (parseFolder xf) =? "diagrams");
        rewrite IH; cbn [map flat_map]; now rewrite <- !app_assoc. }
  rewrite Hfold. cbn [app].
  eexists. eexists. split; [reflexivity |]. split; [reflexivity |].
  cbn [model_folders model_relationships model_diagrams].
  repeat split.
Qed.

Lemma readers_collect_witness :
  exists complete simple,
    parseModelComplete_parsed (writeModel_xmlObj Samples.sampleModel) = Ok complete /\
    parseModel_parsed (writeModel_xmlObj Samples.sampleModel) = Ok simple /\
    map rel_id (model_relationships complete) = ["r1"; "r2"] /\
    map diag_id (model_diagrams complete) = ["d1"] /\
    model_folders simple = model_folders complete /\
    model_relationships simple = [] /\
    map diag_id (model_diagrams simple) = ["d1"].
Proof.
  destruct (readers_collect
              {| xm_name := "Sample"; xm_id := "m1"; xm_version := Some "5.0.0";
                 xm_documentation := Some "A small model";
                 xm_folder := map (buildTopFolder Samples.sampleModel)
                                  (model_folders Samples.sampleModel) |})
    as [complete [simple [Hc [Hs [_ [Hr [Hd [Hf [Hsr Hsd]]]]]]]]];
    [vm_compute; reflexivity |].
  exists complete, simple.
  split; [exact Hc |]. split; [exact Hs |].
  rewrite Hr, Hd, Hsd.
  split; [reflexivity |]. split; [reflexivity |]. split; [exact Hf |].
  split; [exact Hsr | reflexivity].
Defined.

(** A document element whose type is the name of an inherited member is
    a relationship for [parseModelComplete] and an element for
    [parseModel]: the two readers then build different folders. *)
Lemma readers_differ_on_inherited_name :
  exists complete simple,
    parseModelComplete_parsed Samples.inheritedNameDocument = Ok complete /\
    parseModel_parsed Samples.inheritedNameDocument = Ok simple /\
    map rel_type (model_relationships complete)
      = ["function Object() { [native code] }"] /\
    getAllElements complete = [] /\
    map el_type (getAllElements simple)
      = ["function Object() { [native code] }"].
Proof.
  eexists. eexists. split; [reflexivity |]. split; [reflexivity |].
  repeat split.
Qed.

(** *** Kinds and qualifiers of what the reader returns *)

Lemma nonEmpty_Some (a : option string) (s : string) :
  nonEmpty a = Some s -> a = Some s /\ truthy s = true.
Proof.
  destruct a as [t |]; cbn; [| discriminate].
  destruct (truthy t) eqn:E; [| discriminate].
  intros H. injection H as <-. now split.
Qed.

Lemma pushEach_forallb {A B : Type} (f : A -> option B) (p : B -> bool)
    (q : A -> bool) (l : list A) :
  (forall a b, q a = true -> f a = Some b -> p b = true) ->
  forallb q l = true ->
  forallb p (pushEach f l) = true.
Proof.
  intros H. induction l as [| a l IH]; intros Hq; [reflexivity |].
  cbn [forallb] in Hq. apply andb_prop in Hq. destruct Hq as [Ha Hl].
  cbn [pushEach]. destruct (f a) as [b |] eqn:E; [| exact (IH Hl)].
  cbn [forallb]. now rewrite (H a b Ha E), (IH Hl).
Qed.

Lemma forallb_flat_map {A B : Type} (f : A -> list B) (p : B -> bool) (l : list A) :
  Forall (fun a => forallb p (f a) = true) l ->
  forallb p (flat_map f l) = true.
Proof.
  induction 1 as [| a l Ha _ IH]; [reflexivity |].
  cbn [flat_map]. now rewrite forallb_app, Ha, IH.
Qed.

Lemma typeNotInherited_own (elem : XmlElement) (xsi : string) :
  typeNotInherited elem = true ->
  nonEmpty (xe_xsi_type elem) = Some xsi ->
  includes inheritedKeys xsi = false.
Proof.
  unfold typeNotInherited. intros Hown Hx.
  apply nonEmpty_Some in Hx. destruct Hx as [Hx _]. rewrite Hx in Hown.
  now apply negb_true_iff.
Qed.

Lemma parseElement_kind (elem : XmlElement) (e : ArchiMateElement) :
  typeNotInherited elem = true ->
  parseElement elem = Some e -> kindListed e = true.
Proof.
  intros Hown. unfold parseElement.
  destruct (nonEmpty (xe_xsi_type elem)) as [xsi |] eqn:Ex; [| discriminate].
  pose proof (typeNotInherited_own elem xsi Hown Ex) as Hk.
  destruct (nonEmpty (tableGet XmlTypeToElementType xsi)) as [t |] eqn:Et;
    [| discriminate].
  intros H. injection H as <-. unfold kindListed. cbn [el_type].
  apply nonEmpty_Some in Et. destruct Et as [Et _].
  apply (tableGet_own _ _ _ Hk) in Et.
  apply MutationExtras.lookup_In in Et. apply (in_map snd) in Et. cbn [snd] in Et.
  apply (sublistb_includes (map snd XmlTypeToElementType) AllElementTypes);
    [vm_compute; reflexivity | now apply includes_In].
Qed.

Lemma parseRelationship_kind (elem : XmlElement) (r : ArchiMateRelationship) :
  typeNotInherited elem = true ->
  parseRelationship elem = Some r ->
  relationshipKindListed r && qualifiersOk r = true.
Proof.
  intros Hown. unfold parseRelationship.
  destruct (nonEmpty (xe_xsi_type elem)) as [xsi |] eqn:Ex; [| discriminate].
  pose proof (typeNotInherited_own elem xsi Hown Ex) as Hk.
  destruct (nonEmpty (tableGet XmlTypeToRelationshipType xsi)) as [t |] eqn:Et;
    [| discriminate].
  intros H. injection H as <-.
  unfold relationshipKindListed, qualifiersOk.
  cbn [rel_type rel_accessType rel_influenceModifier].
  apply nonEmpty_Some in Et. destruct Et as [Et _].
  apply (tableGet_own _ _ _ Hk) in Et.
  apply MutationExtras.lookup_In in Et. apply (in_map snd) in Et. cbn [snd] in Et.
  rewrite (sublistb_includes (map snd XmlTypeToRelationshipType) RelationshipTypes t)
    by (first [vm_compute; reflexivity | now apply includes_In]).
  cbn [andb].
  assert (Hm : match nonEmpty (xe_modifier elem) with
               | Some s => truthy s
               | None => true
               end = true).
  { destruct (nonEmpty (xe_modifier elem)) as [s |] eqn:Em; [| reflexivity].
    apply nonEmpty_Some in Em. exact (proj2 Em). }
  destruct (t =? "Access"), (t =? "Influence"),
           (nonEmpty (xe_modifier elem)), (nonEmpty (xe_accessType elem));
    cbn [andb]; rewrite ?Hm;
    repeat match goal with
           | |- context [match ?x with Some _ => _ | None => _ end] => destruct x
           end; reflexivity.
Qed.

(** X18.  On a folder of the document in which no type attribute is the
    name of a member that the name tables inherit, every element the
    hierarchical reader puts in a folder has a kind of the element
    enumeration, and every relationship it returns has one of the eleven
    kinds, carries an access type only if it is an Access relationship
    and an influence modifier, not empty, only if it is an Influence
    relationship.  Document elements of any other type are left out. *)
Theorem reader_returns_listed_kinds (xmlFolder : XmlFolder) :
  typesNotInherited xmlFolder = true ->
  forallb kindListed (collectFromFolder (parseFolder xmlFolder)) = true /\
  forallb (fun r => relationshipKindListed r && qualifiersOk r)
          (relationshipsBelow xmlFolder) = true.
Proof.
  induction xmlFolder as [name id type element folder IH].
  apply list_all_Forall in IH.
  cbn [typesNotInherited]. intros Hown.
  apply andb_prop in Hown. destruct Hown as [Helems Hsub].
  assert (Hsubs : Forall (fun sub =>
             forallb kindListed (collectFromFolder (parseFolder sub)) = true /\
             forallb (fun r => relationshipKindListed r && qualifiersOk r)
                     (relationshipsBelow sub) = true) folder).
  { apply Forall_forall. intros sub Hin.
    apply (proj1 (Forall_forall _ _) IH sub Hin).
    exact (forallb_In _ _ _ Hsub Hin). }
  cbn [parseFolder collectFromFolder relationshipsBelow]. unfold toArray.
  rewrite !forallb_app. split.
  - rewrite (pushEach_forallb _ _ _ _ parseElement_kind Helems). cbn [andb].
    rewrite flat_map_concat_map, map_map, <- flat_map_concat_map.
    apply forallb_flat_map. apply (Forall_impl _ (fun a H => proj1 H) Hsubs).
  - rewrite (pushEach_forallb _ _ _ _ parseRelationship_kind Helems). cbn [andb].
    apply forallb_flat_map. apply (Forall_impl _ (fun a H => proj2 H) Hsubs).
Qed.

Lemma reader_returns_listed_kinds_witness :
  forallb kindListed
    (collectFromFolder (parseFolder Samples.mixedFolder)) = true /\
  forallb (fun r => relationshipKindListed r && qualifiersOk r)
    (relationshipsBelow Samples.mixedFolder) = true.
Proof.
  apply reader_returns_listed_kinds. reflexivity.
Defined.

(** An element of the document whose type is the name of an inherited
    member is read as an element of a kind outside the enumeration. *)
Lemma parseElement_inherited_name :
  option_map el_type
    (parseElement (Xml.mkXmlElement (Some "constructor") (Some "Odd") (Some "e0")
                     None None None None None None [] None [] [] None))
  = Some "function Object() { [native code] }" /\
  includes AllElementTypes "function Object() { [native code] }" = false.
Proof. split; reflexivity. Qed.

(** *** Exact round trip *)

Lemma parseRelationship_buildRelationship_exact (r : ArchiMateRelationship) :
  relationshipOk r && (qualifiersOk r && accessListed r) = true ->
  parseRelationship (buildRelationship r) = Some r.
Proof.
  intros H. apply andb_prop in H. destruct H as [Hok Hq].
  apply andb_prop in Hq. destruct Hq as [Hq Hlisted].
  unfold accessListed in Hlisted.
  unfold relationshipOk in Hok.
  apply andb_prop in Hok. destruct Hok as [Hok Hd].
  apply andb_prop in Hok. destruct Hok as [Ht Hn].
  apply includes_In in Ht.
  pose proof (forallb_In _ _ _ relationship_types_round_trip Ht) as Hrt.
  unfold relationshipTypeRoundTrips in Hrt.
  unfold qualifiersOk in Hq. apply andb_prop in Hq. destruct Hq as [Ha Hi].
  destruct r as [id type src tgt name doc access influence props].
  unfold parseRelationship.
  cbn [buildRelationship xe_xsi_type xe_id xe_name xe_documentation xe_property
       xe_source xe_target xe_accessType xe_modifier
       rel_id rel_type rel_sourceId rel_targetId rel_name rel_documentation
       rel_accessType rel_influenceModifier rel_properties] in *.
  destruct (tableGet RelationshipTypeToXmlType type) as [xsi |]; [| discriminate].
  destruct (nonEmpty (Some xsi)) as [xsi' |]; [| discriminate].
  destruct (nonEmpty (tableGet XmlTypeToRelationshipType xsi')) as [t' |]; [| discriminate].
  apply eqb_true_eq in Hrt. subst t'.
  rewrite !strOr_Some_empty, (nonEmpty_textOk _ Hn), (nonEmpty_textOk _ Hd),
          parseProperties_buildProperties.
  f_equal. f_equal.
  - destruct access as [a |].
    + rewrite Ha. destruct a; [reflexivity | reflexivity | reflexivity | discriminate].
    + now destruct (type =? "Access").
  - destruct influence as [s |].
    + apply andb_prop in Hi. destruct Hi as [Hi Hs]. rewrite Hi.
      cbn [nonEmpty]. rewrite Hs. cbn [nonEmpty]. now rewrite Hs.
    + now destruct (type =? "Influence").
Qed.

Lemma append_nil_r (s : string) : (s ++ "")%string = s.
Proof. induction s as [| c s IH]; [reflexivity |]. cbn. now rewrite IH. Qed.

Lemma append_assoc (a b c : string) : ((a ++ b) ++ c)%string = (a ++ (b ++ c))%string.
Proof. induction a as [| x a IH]; [reflexivity |]. cbn. now rewrite IH. Qed.

(** Splitting runs through a piece without a space. *)
Lemma splitAux_noSpace (s rest cur : string) :
  noSpace s = true ->
  splitAux " " (s ++ rest) cur = splitAux " " rest (cur ++ s).
Proof.
  revert cur. induction s as [| c s IH]; intros cur Hs.
  - cbn. now rewrite append_nil_r.
  - cbn [noSpace] in Hs. apply andb_prop in Hs. destruct Hs as [Hc Hs].
    apply negb_true_iff in Hc.
    cbn [append splitAux]. rewrite Hc, (IH _ Hs), append_assoc. reflexivity.
Qed.

Lemma split_join (ids : list string) :
  idsOk ids = true -> split " " (join " " ids) = match ids with [] => [""] | _ => ids end.
Proof.
  unfold split. induction ids as [| p rest IH]; intros H; [reflexivity |].
  cbn [idsOk forallb] in H. apply andb_prop in H. destruct H as [Hp Hrest].
  apply andb_prop in Hp. destruct Hp as [_ Hp].
  destruct rest as [| q rest'].
  - cbn [join]. rewrite <- (append_nil_r p) at 1.
    rewrite (splitAux_noSpace p "" "" Hp). reflexivity.
  - change (join " " (p :: q :: rest')) with (p ++ " " ++ join " " (q :: rest'))%string.
    rewrite (splitAux_noSpace p _ "" Hp). cbn [append splitAux].
    change (Ascii.eqb " " " ") with true. cbv iota.
    f_equal. exact (IH Hrest).
Qed.

Lemma join_truthy (p : string) (rest : list string) :
  truthy p = true -> truthy (join " " (p :: rest)) = true.
Proof.
  destruct p as [| c p]; [discriminate |]. intros _.
  destruct rest; reflexivity.
Qed.

Lemma parseDiagramObject_buildDiagramObject_exact (o : DiagramObject) :
  objectOk o = true -> parseDiagramObject (buildDiagramObject o) = o.
Proof.
  induction o as [id elementId bounds conns incoming children IH].
  cbn [objectOk]. intros H. apply andb_prop in H. destruct H as [H Hch].
  apply andb_prop in H. destruct H as [H Hids].
  apply andb_prop in H. destruct H as [Hb Hconns].
  cbn [buildDiagramObject parseDiagramObject].
  rewrite strOr_Some_empty, strOr_nonEmpty, (parseBounds_written _ Hb),
          (parseConnections_buildConnections _ Hconns).
  f_equal.
  - destruct incoming as [| p rest]; [reflexivity |].
    cbn [List.length Nat.ltb Nat.leb].
    assert (Hp : truthy p = true).
    { cbn [idsOk forallb] in Hids. apply andb_prop in Hids. destruct Hids as [Hp _].
      now apply andb_prop in Hp. }
    cbn [nonEmpty]. rewrite (join_truthy p rest Hp).
    exact (split_join (p :: rest) Hids).
  - unfold toArray. rewrite map_map.
    apply list_all_Forall in IH.
    rewrite <- (map_id children) at 2.
    induction IH as [| c cs Hc _ IHcs]; [reflexivity |].
    cbn [forallb] in Hch. apply andb_prop in Hch. destruct Hch as [H1 H2].
    cbn [map]. now rewrite (Hc H1), (IHcs H2).
Qed.

Lemma parseDiagram_buildDiagram_exact (d : ArchiMateDiagram) :
  diagramFullyOk d = true -> parseDiagram (buildDiagram d) = Some d.
Proof.
  unfold diagramFullyOk. intros H.
  apply andb_prop in H. destruct H as [H Hobjs].
  apply andb_prop in H. destruct H as [Hdoc Hvp].
  destruct d as [id name viewpoint doc objects].
  cbn [diag_documentation diag_viewpoint diag_objects] in *.
  destruct viewpoint; [discriminate |].
  unfold parseDiagram.
  cbn [buildDiagram xe_xsi_type xe_id xe_name xe_documentation xe_child
       isDiagramType negb diag_id diag_name diag_documentation diag_objects].
  change ("archimate:ArchimateDiagramModel" =? "archimate:ArchimateDiagramModel")
    with true.
  cbn [negb]. cbv iota. rewrite !strOr_Some_empty, (nonEmpty_textOk _ Hdoc).
  f_equal. f_equal.
  unfold parseDiagramObjects, toArray. rewrite map_map.
  rewrite <- (map_id objects) at 2. apply map_ext_in. intros o Ho.
  apply parseDiagramObject_buildDiagramObject_exact.
  exact (forallb_In _ _ _ Hobjs Ho).
Qed.

Lemma pushEach_exact {A B : Type} (f : A -> option B) (g : B -> A) (p : B -> bool)
    (l : list B) :
  (forall b, p b = true -> f (g b) = Some b) ->
  forallb p l = true ->
  pushEach f (map g l) = l.
Proof.
  intros Hf. induction l as [| b l IH]; intros H; [reflexivity |].
  cbn [forallb] in H. apply andb_prop in H. destruct H as [Hb Hl].
  cbn [map pushEach]. now rewrite (Hf b Hb), (IH Hl).
Qed.

(** X19.  The hierarchical codec has a fixed point between the model and
    the document object.  Take a model whose elements and relationships
    have kinds of the enumerations and no empty-string documentation or
    relationship name, whose top-level folder tagged relations holds
    nothing of its own and whose top-level folder tagged diagrams holds
    no element of its own, and which has exactly one folder of each of
    these two tags unless it has no relationship, respectively no
    diagram.  If, besides, the version and every documentation are not
    empty strings, relationship qualifiers fit the relationship kind and
    the access type is one of the three, diagrams carry no viewpoint,
    every coordinate of a diagram object or bendpoint is a safe integer
    or NaN, and incoming-connection identifiers are not empty and hold no
    space, then reading the document object that the writer builds gives
    back exactly the model. *)
Theorem hierarchical_fixed_point (m : ArchiMateModel) :
  modelFullyOk m = true ->
  parseModelComplete_parsed (writeModel_xmlObj m) = Ok m.
Proof.
  unfold modelFullyOk. intros H.
  apply andb_prop in H. destruct H as [H Hdiags].
  apply andb_prop in H. destruct H as [H Hquals].
  apply andb_prop in H. destruct H as [H Hdoc].
  apply andb_prop in H. destruct H as [Hok Hver].
  unfold hierarchicalOk in Hok.
  apply andb_prop in Hok. destruct Hok as [Hok Hdiag].
  apply andb_prop in Hok. destruct Hok as [Hok Hrel].
  apply andb_prop in Hok. destruct Hok as [Hfolders Hrels].
  assert (Hrs : pushEach parseRelationship
                  (map buildRelationship (model_relationships m)) =
                model_relationships m).
  { apply (pushEach_exact _ _
             (fun r => relationshipOk r && (qualifiersOk r && accessListed r))).
    - apply parseRelationship_buildRelationship_exact.
    - apply forallb_forall. intros r Hr.
      now rewrite (forallb_In _ _ _ Hrels Hr), (forallb_In _ _ _ Hquals Hr). }
  assert (Hds : pushEach parseDiagram (map buildDiagram (model_diagrams m)) =
                model_diagrams m).
  { apply (pushEach_exact _ _ diagramFullyOk);
      [apply parseDiagram_buildDiagram_exact | exact Hdiags]. }
  unfold parseModelComplete_parsed, writeModel_xmlObj, toArray.
  cbn [archimate_model xm_folder xm_id xm_name xm_version xm_documentation].
  rewrite (processFolders_buildTopFolders m Hrels _ [] [] Hfolders).
  cbn [app]. rewrite Hrs, Hds.
  rewrite !once_or_empty by assumption.
  unfold strOr. rewrite Hver, (nonEmpty_textOk _ Hdoc).
  destruct m. reflexivity.
Qed.

Lemma hierarchical_fixed_point_witness :
  parseModelComplete_parsed (writeModel_xmlObj Samples.sampleModel)
    = Ok Samples.sampleModel.
Proof.
  apply hierarchical_fixed_point. vm_compute. reflexivity.
Defined.

(** A coordinate from 10^21 on is written in exponent notation and read
    back as its first digit. *)
Lemma large_coordinate_read_back_changed :
  obj_bounds
    (parseDiagramObject
       (buildDiagramObject
          (mkDiagramObject "o9" "e1"
             {| x := Num 1000000000000000000000; y := Num 0;
                width := Num 120; height := Num 55 |} [] [] [])))
  = {| x := Num 1; y := Num 0; width := Num 120; height := Num 55 |}.
Proof. vm_compute. reflexivity. Qed.

End HierarchicalExtras.

(* ================================================================== *)
(** * Further properties of the flat codec *)

Module ExchangeChecks.
Import JS Types Model Exchange ExchangeReader Queries.

Definition folderShell (f : ArchiMateFolder)
  : string * string * string * list ArchiMateFolder :=
  (folder_id f, folder_name f, folder_type f, folder_subfolders f).

(** Every element of the folder has a kind of the enumeration whose
    layer maps to the folder's type. *)
Definition filedByLayer (f : ArchiMateFolder) : bool :=
  forallb (fun e =>
             match getLayerForElementType (el_type e) with
             | Ok layer => LayerFolderTypes layer =? folder_type f
             | Throw _ => false
             end)
          (folder_elements f).

(** A folder tagged relations or diagrams holds no element. *)
Definition specialFolderEmpty (f : ArchiMateFolder) : bool :=
  if (folder_type f =? "relations") || (folder_type f =? "diagrams")
  then isEmpty (folder_elements f)
  else true.

Definition suffixAccepted (t : string) : bool :=
  match mapRelationshipType t, mapRelationshipType (t ++ "Relationship") with
  | Some a, Some b => (a =? t) && (b =? t)
  | _, _ => false
  end.

End ExchangeChecks.

Module ExchangeExtras.
Import JS Types Model Exchange ExchangeWriter ExchangeReader Queries Checks.
Import ExchangeChecks ExchangeFacts.

Lemma exchange_parseElement_kind (elementNode : ExElement) (e : ArchiMateElement) :
  parseElement elementNode = Some e -> includes AllElementTypes (el_type e) = true.
Proof.
  unfold parseElement, mapElementType.
  destruct (includes AllElementTypes _) eqn:E; [| discriminate].
  intros H. injection H as <-. exact E.
Qed.

Lemma pushElement_shell (i : nat) (e : ArchiMateElement) (fs : list ArchiMateFolder) :
  map folderShell (pushElement i e fs) = map folderShell fs.
Proof.
  revert i. induction fs as [| [id name type els subs] fs IH]; intros i.
  - now destruct i.
  - destruct i as [| j]; cbn [pushElement map]; [reflexivity |].
    now rewrite IH.
Qed.

Lemma pushElement_filed (tag : string) (layer : Layer) (e : ArchiMateElement)
    (fs : list ArchiMateFolder) (i : nat) :
  getLayerForElementType (el_type e) = Ok layer ->
  LayerFolderTypes layer = tag ->
  findIndex (fun f => folder_type f =? tag) fs = Some i ->
  forallb filedByLayer fs = true ->
  forallb filedByLayer (pushElement i e fs) = true.
Proof.
  intros Hl Htag. revert i.
  induction fs as [| [id name type els subs] fs IH]; intros i Hi Hok;
    [discriminate |].
  cbn [forallb] in Hok. apply andb_prop in Hok. destruct Hok as [Hf Hfs].
  cbn [findIndex folder_type] in Hi.
  destruct (type =? tag) eqn:Et.
  - injection Hi as <-. cbn [pushElement forallb]. rewrite Hfs, andb_true_r.
    unfold filedByLayer in *. cbn [folder_elements folder_type] in *.
    rewrite forallb_app, Hf. cbn [forallb andb]. rewrite Hl, Htag, andb_true_r.
    apply String.eqb_eq in Et. subst. apply String.eqb_refl.
  - destruct (findIndex (fun f => folder_type f =? tag) fs) as [j |] eqn:Ej;
      [| discriminate].
    injection Hi as <-. cbn [pushElement forallb]. now rewrite Hf, (IH j).
Qed.

Lemma skeleton_has_layer_folder (fs : list ArchiMateFolder) (layer : Layer) :
  map folder_type fs = map folder_type createFolderStructure ->
  exists i, findIndex (fun f => folder_type f =? LayerFolderTypes layer) fs = Some i.
Proof.
  intros Htags.
  rewrite (findIndex_by_type (fun t => t =? LayerFolderTypes layer)), Htags.
  destruct layer; eexists; vm_compute; reflexivity.
Qed.

Lemma placeElements_invariant (elementList : list ExElement) :
  forall fs,
    map folder_type fs = map folder_type createFolderStructure ->
    forallb filedByLayer fs = true ->
    exists fs',
      placeElements elementList fs = Ok fs' /\
      map folderShell fs' = map folderShell fs /\
      forallb filedByLayer fs' = true.
Proof.
  induction elementList as [| elemData rest IH]; intros fs Htags Hok.
  - exists fs. repeat split. exact Hok.
  - cbn [placeElements].
    destruct (parseElement elemData) as [e |] eqn:Ep; [| now apply IH].
    pose proof (exchange_parseElement_kind _ _ Ep) as Hk. apply includes_In in Hk.
    destruct (ValidationFacts.layer_total _ Hk) as [layer Hl].
    destruct (skeleton_has_layer_folder fs layer Htags) as [i Hi].
    unfold getFolderForType. rewrite Hl. cbn [bind]. rewrite Hi. cbn [bind].
    destruct (IH (pushElement i e fs)) as [fs' [Hp [Hs Hf]]].
    + now rewrite pushElement_types.
    + exact (pushElement_filed _ layer e fs i Hl eq_refl Hi Hok).
    + exists fs'. split; [exact Hp |]. split; [| exact Hf].
      now rewrite Hs, pushElement_shell.
Qed.

(** X20.  [parseExchangeFormat] returns a model for every document, it
    never throws: the model has the nine folders of
    [createFolderStructure], none with a subfolder, and every element is
    in the folder whose type is the one [LayerFolderTypes] gives for the
    layer of its kind, so the folders tagged relations and diagrams stay
    empty.  Entries of an unknown type are left out. *)
Theorem parseExchangeFormat_files_by_layer (parsed : ExDocument) :
  exists m,
    parseExchangeFormat_parsed parsed = Ok m /\
    map folderShell (model_folders m) = map folderShell createFolderStructure /\
    forallb filedByLayer (model_folders m) = true /\
    forallb specialFolderEmpty (model_folders m) = true.
Proof.
  unfold parseExchangeFormat_parsed, ensureArray.
  match goal with
  | |- context [placeElements ?els createFolderStructure] =>
      destruct (placeElements_invariant els createFolderStructure eq_refl eq_refl)
        as [fs' [Hp [Hs Hf]]]
  end.
  rewrite Hp. cbn [bind].
  eexists. split; [reflexivity |]. cbn [model_folders].
  split; [exact Hs |]. split; [exact Hf |].
  apply forallb_forall. intros f Hin.
  pose proof (forallb_In _ _ _ Hf Hin) as Hfiled.
  unfold specialFolderEmpty, filedByLayer in *.
  destruct (folder_elements f) as [| e els]; [now destruct (_ || _) |].
  cbn [forallb] in Hfiled. apply andb_prop in Hfiled. destruct Hfiled as [He _].
  destruct (getLayerForElementType (el_type e)) as [layer |]; [| discriminate].
  apply String.eqb_eq in He. rewrite <- He. now destruct layer.
Qed.

(** X22.  The flat reader accepts each of the eleven relationship kinds
    under its bare name and under that name followed by Relationship,
    and maps both to the kind. *)
Theorem mapRelationshipType_accepts_suffix (kind : string) :
  In kind RelationshipTypes ->
  mapRelationshipType kind = Some kind /\
  mapRelationshipType (kind ++ "Relationship") = Some kind.
Proof.
  intros Hk.
  assert (Hall : forallb suffixAccepted RelationshipTypes = true)
    by (vm_compute; reflexivity).
  pose proof (forallb_In _ _ _ Hall Hk) as H. clear Hall.
  unfold suffixAccepted in H.
  destruct (mapRelationshipType kind) as [a |]; [| discriminate].
  destruct (mapRelationshipType (kind ++ "Relationship")) as [b |]; [| discriminate].
  apply andb_prop in H. destruct H as [Ha Hb].
  apply String.eqb_eq in Ha, Hb. now subst.
Qed.

Lemma mapRelationshipType_accepts_suffix_witness :
  mapRelationshipType "Serving" = Some "Serving" /\
  mapRelationshipType ("Serving" ++ "Relationship") = Some "Serving".
Proof.
  apply mapRelationshipType_accepts_suffix. apply includes_In. vm_compute. reflexivity.
Defined.

End ExchangeExtras.

(* ================================================================== *)
(** * Connections through the flat codec, and relationship queries *)

Module TopologyChecks.
Import JS Model Queries.

Fixpoint distinct (l : list string) : bool :=
  match l with
  | [] => true
  | a :: rest => negb (includes rest a) && distinct rest
  end.

(** Every connection names the object that holds it as its source. *)
Definition holdsOwnConnections (o : DiagramObject) : bool :=
  forallb (fun c => conn_sourceId c =? obj_id o) (obj_sourceConnections o).

(** The objects of the diagram, nested ones included, have distinct
    identifiers and hold only their own connections. *)
Definition topologyOk (d : ArchiMateDiagram) : bool :=
  distinct (map obj_id (diagramObjects d)) &&
  forallb holdsOwnConnections (diagramObjects d).

Definition connectionCore (c : DiagramConnection)
  : string * string * string * string :=
  (conn_id c, conn_sourceId c, conn_targetId c, conn_relationshipId c).

Definition objectTopology (o : DiagramObject)
  : string * list (string * string * string * string) :=
  (obj_id o, map connectionCore (obj_sourceConnections o)).

Definition isLoop (elementId : string) (r : ArchiMateRelationship) : bool :=
  (rel_sourceId r =? elementId) && (rel_targetId r =? elementId).

End TopologyChecks.

Module TopologyExtras.
Import JS Types Model Exchange ExchangeWriter ExchangeReader ParserQueries Queries.
Import TopologyChecks ExchangeFacts HierarchicalFacts.

Lemma collectConnections_flatten (o : DiagramObject) :
  collectConnections o =
  map buildConnection (flat_map obj_sourceConnections (flattenObject o)).
Proof.
  induction o as [id elementId bounds conns incoming children IH].
  cbn [collectConnections flattenObject flat_map obj_sourceConnections].
  rewrite map_app. f_equal.
  apply list_all_Forall in IH.
  induction IH as [| c cs Hc _ IHcs]; [reflexivity |].
  cbn [flat_map]. now rewrite flat_map_app, map_app, Hc, IHcs.
Qed.

(** X23.  The flat writer writes one node for every diagram object of a
    diagram, nested ones included, a parent before its children, and one
    connection for every outgoing connection of these objects, in the
    same order; the nesting itself and the bendpoints are not written. *)
Theorem buildView_writes_every_object (diagram : ArchiMateDiagram) :
  ev_node (buildView diagram) = map buildDiagramNode (diagramObjects diagram) /\
  ev_connection (buildView diagram) =
    map buildConnection (flat_map obj_sourceConnections (diagramObjects diagram)).
Proof.
  unfold buildView, diagramObjects. cbn [ev_node ev_connection]. split.
  - apply flat_map_map_out. apply Forall_forall. intros o _.
    apply collectNodes_flatten.
  - induction (diag_objects diagram) as [| o objs IH]; [reflexivity |].
    cbn [flat_map]. now rewrite flat_map_app, map_app, collectConnections_flatten, IH.
Qed.

Lemma filter_none {A : Type} (p : A -> bool) (l : list A) :
  forallb (fun a => negb (p a)) l = true -> filter p l = [].
Proof.
  induction l as [| a l IH]; [reflexivity |].
  cbn. intros H. apply andb_prop in H. destruct H as [Ha Hl].
  apply negb_true_iff in Ha. now rewrite Ha, IH.
Qed.

(** Among objects with distinct identifiers that hold only their own
    connections, the connections that name an object as their source are
    the ones it holds. *)
Lemma own_connections (objs : list DiagramObject) :
  distinct (map obj_id objs) = true ->
  forallb holdsOwnConnections objs = true ->
  forall o, In o objs ->
    filter (fun c => conn_sourceId c =? obj_id o) (flat_map obj_sourceConnections objs)
    = obj_sourceConnections o.
Proof.
  induction objs as [| a rest IH]; intros Hd Hown o Ho; [contradiction |].
  cbn [map distinct] in Hd. apply andb_prop in Hd. destruct Hd as [Ha Hd].
  apply negb_true_iff in Ha.
  cbn [forallb] in Hown. apply andb_prop in Hown. destruct Hown as [Hoa Hown].
  cbn [flat_map]. rewrite filter_app.
  assert (Hothers : forall b, In b rest -> obj_id b <> obj_id a).
  { intros b Hb Heq. apply includes_false_not_In in Ha. apply Ha.
    rewrite <- Heq. now apply in_map. }
  destruct Ho as [<- | Ho].
  - rewrite (MutationExtras.filter_all _ _ Hoa).
    rewrite filter_none; [apply app_nil_r |].
    apply forallb_forall. intros c Hc. apply in_flat_map in Hc.
    destruct Hc as [b [Hb Hcb]].
    pose proof (forallb_In _ _ _ (forallb_In _ _ _ Hown Hb) Hcb) as Hsrc.
    apply String.eqb_eq in Hsrc. rewrite Hsrc.
    apply negb_true_iff, String.eqb_neq. now apply Hothers.
  - rewrite (IH Hd Hown o Ho).
    rewrite filter_none; [reflexivity |].
    apply forallb_forall. intros c Hc.
    pose proof (forallb_In _ _ _ Hoa Hc) as Hsrc.
    apply String.eqb_eq in Hsrc. rewrite Hsrc.
    apply negb_true_iff, String.eqb_neq. intros Heq.
    exact (Hothers o Ho (eq_sym Heq)).
Qed.

(** X24.  When the diagram objects of a diagram, nested ones included,
    have distinct identifiers and hold only connections that name them
    as their source, the flat writer followed by the flat reader keeps
    the connection topology: the objects read back, in flattened order,
    hold the same connections with the same identifier, source, target
    and relationship reference. *)
Theorem exchange_keeps_topology (diagram : ArchiMateDiagram) :
  topologyOk diagram = true ->
  map objectTopology (diag_objects (parseDiagram (buildView diagram))) =
  map objectTopology (diagramObjects diagram).
Proof.
  unfold topologyOk. intros H. apply andb_prop in H. destruct H as [Hd Hown].
  destruct (buildView_writes_every_object diagram) as [Hn Hc].
  unfold parseDiagram, ensureArray. cbn [diag_objects]. rewrite Hn, Hc.
  rewrite !map_map. apply map_ext_in. intros o Ho.
  unfold objectTopology.
  cbn [obj_id obj_sourceConnections parseDiagramObject buildDiagramNode en_identifier].
  rewrite strOr_Some_empty. f_equal.
  rewrite <- (own_connections _ Hd Hown o Ho).
  unfold connectionsFrom. clear Hn Hc Hd Hown Ho.
  induction (flat_map obj_sourceConnections (diagramObjects diagram)) as [| c cs IH];
    [reflexivity |].
  cbn [map filter].
  assert (Hsrc : conn_sourceId (parseConnection (buildConnection c)) = conn_sourceId c).
  { cbn [buildConnection parseConnection conn_sourceId ec_source].
    apply strOr_Some_empty. }
  rewrite Hsrc. destruct (conn_sourceId c =? obj_id o); [| exact IH].
  cbn [map]. rewrite IH. f_equal.
  unfold connectionCore.
  cbn [buildConnection parseConnection conn_id conn_sourceId conn_targetId
       conn_relationshipId ec_identifier ec_source ec_target ec_relationshipRef].
  now rewrite !strOr_Some_empty.
Qed.

Lemma exchange_keeps_topology_witness :
  map objectTopology (diag_objects (parseDiagram (buildView Samples.overview))) =
  map objectTopology (diagramObjects Samples.overview).
Proof.
  apply exchange_keeps_topology. vm_compute. reflexivity.
Defined.

(** X25.  The relationships [getRelationshipsForElement] returns for
    both directions are as many as the outgoing and the incoming ones
    together, a relationship from the element to itself counted once. *)
Theorem relationships_both_directions (m : ArchiMateModel) (elementId : string) :
  (List.length (getRelationshipsForElement m elementId both) +
   List.length (filter (isLoop elementId) (model_relationships m)) =
   List.length (getRelationshipsForElement m elementId outgoing) +
   List.length (getRelationshipsForElement m elementId incoming))%nat.
Proof.
  unfold getRelationshipsForElement, isLoop.
  induction (model_relationships m) as [| r rs IH]; [reflexivity |].
  cbn [filter].
  destruct (rel_sourceId r =? elementId), (rel_targetId r =? elementId);
    cbn [orb andb List.length]; lia.
Qed.

End TopologyExtras.
